(** * blog-publisher: a shallow embedding of the publishing and credential
      subsystem, and the properties its specification states about it.

    The Python sources embedded here are
      - [blog_publisher/models.py]        (package_structure.py)
      - [blog_publisher/api/publishers.py], [blog_publisher/api/blogger.py]
                                          (api_publishers.py)
      - [blog_publisher/routes/posts.py]  (route_blueprints.py)
      - [blog_publisher/utils.py]         (final_package_files.py)
      - the single-file application       (blog_publisher_main.py)

    Persistent state is the SQL database, modelled as one list of rows per
    table.  Everything outside the repository (the HTTP peer, the OAuth
    library, the JSON codec of the credential blob) is an [Environment]
    record the code is run against.  Effects are threaded through a small
    state-and-exception monad whose state also carries a log of the
    observable calls (settings reads and writes, outbound requests), so that
    "performs zero HTTP calls" is a statement about that log. *)

From Stdlib Require Import String Ascii List ZArith Bool Lia DecimalString.
From Stdlib Require Import Permutation Sorted.
Import ListNotations.
Local Open Scope string_scope.
Local Open Scope list_scope.

(* ================================================================== *)
(** ** Python built-ins used by the sources *)
(* ================================================================== *)

Module Py.

(** [str.isspace] on one character.  Characters are code points below
    256; in that range Python treats exactly these as whitespace. *)
Definition isspace (c : ascii) : bool :=
  let n := nat_of_ascii c in
  ((9 <=? n) && (n <=? 13) || (28 <=? n) && (n <=? 32)
   || (n =? 133) || (n =? 160))%nat.

(** [s.lstrip(chars)], with the set of stripped characters as a predicate. *)
Fixpoint lstrip_by (p : ascii -> bool) (s : string) : string :=
  match s with
  | EmptyString => EmptyString
  | String c r => if p c then lstrip_by p r else s
  end.

(** [s.rstrip(chars)]. *)
Fixpoint rstrip_by (p : ascii -> bool) (s : string) : string :=
  match s with
  | EmptyString => EmptyString
  | String c r =>
      match rstrip_by p r with
      | EmptyString => if p c then EmptyString else String c EmptyString
      | r' => String c r'
      end
  end.

(** [s.strip()] *)
Definition strip (s : string) : string :=
  rstrip_by isspace (lstrip_by isspace s).

(** [s.rstrip('/')] *)
Definition rstrip_slash (s : string) : string :=
  rstrip_by (Ascii.eqb "/"%char) s.

(** [s.split(',')]: never empty, [''.split(',') == ['']]. *)
Fixpoint split_comma (s : string) : list string :=
  match s with
  | EmptyString => [EmptyString]
  | String c r =>
      if Ascii.eqb c ","%char then EmptyString :: split_comma r
      else match split_comma r with
           | h :: t => String c h :: t
           | [] => [String c EmptyString]
           end
  end.

(** [s.endswith(suffix)] *)
Fixpoint endswith (s suffix : string) : bool :=
  String.eqb s suffix ||
  match s with
  | EmptyString => false
  | String _ r => endswith r suffix
  end.

(** Truth value of a [str]: the empty string is false. *)
Definition truthy_str (s : string) : bool := negb (String.eqb s "").

(** Truth value of an optional [str]: [None] and [''] are false. *)
Definition truthy (v : option string) : bool :=
  match v with
  | Some s => truthy_str s
  | None => false
  end.

(** [a == b] on values that are a [str] or [None]. *)
Definition eqb_opt (a b : option string) : bool :=
  match a, b with
  | Some x, Some y => String.eqb x y
  | None, None => true
  | _, _ => false
  end.

(** [str(n)] for an [int]. *)
Definition str_int (z : Z) : string := NilZero.string_of_int (Z.to_int z).

(** The first or last character of a string is whitespace. *)
Definition starts_with_space (s : string) : bool :=
  match s with
  | EmptyString => false
  | String c _ => isspace c
  end.

Fixpoint ends_with_space (s : string) : bool :=
  match s with
  | EmptyString => false
  | String c EmptyString => isspace c
  | String _ r => ends_with_space r
  end.

Definition surrounding_whitespace (s : string) : bool :=
  starts_with_space s || ends_with_space s.

End Py.

(* ================================================================== *)
(** ** Data model: [blog_publisher/models.py] *)
(* ================================================================== *)

(** [datetime] values are opaque instants. *)
Definition datetime := Z.

(** A row of [Setting].  The [value] column is nullable text.  The
    surrogate [id] column is never read by any code path and is left out. *)
Record SettingRow := mkSetting {
  key : string;
  value : option string
}.

(** A row of [AvailableTag] or of [AvailableCategory]; the two classes
    declare the same columns. *)
Record AvailableRow := mkAvailable {
  av_id : Z;
  name : string;
  av_created_date : datetime;
  usage_count : Z;
  description : option string
}.

(** A row of [Post]. *)
Record Post := mkPost {
  id : Z;
  title : string;
  content : string;
  status : option string;
  created_date : datetime;
  published_date : option datetime;
  blog_target : option string;
  external_id : option string;
  tags : option string;
  categories : option string
}.

(** The database: one list of rows per table, in insertion order. *)
Record Database := mkDatabase {
  settings : list SettingRow;
  available_tags : list AvailableRow;
  available_categories : list AvailableRow;
  posts : list Post
}.

Definition empty_db : Database := mkDatabase [] [] [] [].

Definition with_settings (s : list SettingRow) (d : Database) : Database :=
  mkDatabase s d.(available_tags) d.(available_categories) d.(posts).
Definition with_tags (t : list AvailableRow) (d : Database) : Database :=
  mkDatabase d.(settings) t d.(available_categories) d.(posts).
Definition with_categories (c : list AvailableRow) (d : Database) : Database :=
  mkDatabase d.(settings) d.(available_tags) c d.(posts).
Definition with_posts (p : list Post) (d : Database) : Database :=
  mkDatabase d.(settings) d.(available_tags) d.(available_categories) p.

(** The id SQLite gives a new row of an [INTEGER PRIMARY KEY] table: one
    more than the largest id in use. *)
Definition next_id (ids : list Z) : Z :=
  (fold_right Z.max 0 ids + 1)%Z.

(* ================================================================== *)
(** ** Values exchanged with the outside *)
(* ================================================================== *)

(** A JSON scalar, as found under a key of a response body. *)
Inductive scalar :=
| SNone
| SBool (b : bool)
| SInt (z : Z)
| SStr (s : string).

(** [str(v)] *)
Definition str_scalar (v : scalar) : string :=
  match v with
  | SNone => "None"
  | SBool true => "True"
  | SBool false => "False"
  | SInt z => Py.str_int z
  | SStr s => s
  end.

(** A value of an outgoing payload dict: a string or a list of strings. *)
Inductive field :=
| FStr (s : string)
| FList (l : list string).

(** A Python dict, in insertion order. *)
Definition dict (V : Type) := list (string * V).

Fixpoint dict_get {V} (k : string) (d : dict V) : option V :=
  match d with
  | [] => None
  | (k', v) :: r => if String.eqb k' k then Some v else dict_get k r
  end.

(** [d[k] = v]: overwrite in place, or append a new key. *)
Fixpoint dict_set {V} (k : string) (v : V) (d : dict V) : dict V :=
  match d with
  | [] => [(k, v)]
  | (k', v') :: r =>
      if String.eqb k' k then (k', v) :: r else (k', v') :: dict_set k v r
  end.

Definition dict_keys {V} (d : dict V) : list string := map fst d.

(** Python exceptions, by class. *)
Inductive PyException :=
| Exception (msg : string)
| KeyError (k : string)
| AttributeError (msg : string)
| HttpError (msg : string)
| LibraryError (cls msg : string).

(** [str(e)] *)
Definition str_exc (e : PyException) : string :=
  match e with
  | Exception m => m
  | KeyError k => ("'" ++ k ++ "'")%string
  | AttributeError m => m
  | HttpError m => m
  | LibraryError _ m => m
  end.

(** The arguments of [requests.post]. *)
Record HttpRequest := mkRequest {
  url : string;
  headers : dict string;
  json : dict field;
  auth : string * string;
  timeout : option Z
}.

(** What the code reads of a [requests.Response]: [json_body] is the value
    of [response.json()], or the exception it raises. *)
Record Response := mkResponse {
  status_code : Z;
  text : string;
  json_body : PyException + dict scalar
}.

(** The dict stored under [blogger_credentials]. *)
Record CredsData := mkCreds {
  token : option string;
  refresh_token : option string;
  token_uri : option string;
  client_id : option string;
  client_secret : option string;
  scopes : list string
}.

(** A [google.oauth2.credentials.Credentials] object, as far as the code
    looks into it: the six fields it reads and writes.  Whether the object
    counts as expired is the library's judgement, [expired] below. *)
Record Credentials := mkCredentials {
  creds : CredsData
}.

(** Everything outside the repository. *)
Record Environment := mkEnv {
  (** [requests.post]: a response, or an exception of the library. *)
  requests_post : HttpRequest -> PyException + Response;
  (** [service.posts().insert(blogId, body).execute()] *)
  posts_insert : option string -> dict field -> Credentials ->
                 PyException + dict scalar;
  (** [flow.authorization_url(...)]: the URL and the fresh state token. *)
  authorization_url : string -> string -> string * string;
  (** [flow.fetch_token(code)], then [flow.credentials]. *)
  fetch_token : option string -> option string -> string ->
                PyException + Credentials;
  (** [credentials.expired] *)
  expired : Credentials -> bool;
  (** [credentials.refresh(Request())]: the refreshed object. *)
  refresh : Credentials -> PyException + Credentials;
  (** [json.dumps] and [json.loads] on the credential dict. *)
  json_dumps : CredsData -> string;
  json_loads : string -> PyException + CredsData
}.

(* ================================================================== *)
(** ** Effects: database, call log, exceptions *)
(* ================================================================== *)

Inductive Event :=
| EvSettingGet (k : string)
| EvSettingSet (k : string) (v : option string)
| EvHttpPost (r : HttpRequest)
| EvPostsInsert (blog_id : option string) (body : dict field)
| EvFetchToken (code : string)
| EvRefresh (c : Credentials).

Record World := mkWorld {
  db : Database;
  log : list Event    (* oldest first *)
}.

Definition start (d : Database) : World := mkWorld d [].

Inductive Result (A : Type) :=
| Return (a : A)
| Raise (e : PyException).
Arguments Return {A} a.
Arguments Raise {A} e.

Definition M (A : Type) : Type := World -> Result A * World.

Definition ret {A} (a : A) : M A := fun w => (Return a, w).

Definition bind {A B} (m : M A) (k : A -> M B) : M B :=
  fun w =>
    match m w with
    | (Return a, w') => k a w'
    | (Raise e, w') => (Raise e, w')
    end.

Definition raise {A} (e : PyException) : M A := fun w => (Raise e, w).

(** [try: m except Exception as e: h e] *)
Definition try_except {A} (m : M A) (h : PyException -> M A) : M A :=
  fun w =>
    match m w with
    | (Return a, w') => (Return a, w')
    | (Raise e, w') => h e w'
    end.

Definition emit (e : Event) : M unit :=
  fun w => (Return tt, mkWorld w.(db) (w.(log) ++ [e])).

Definition get_db : M Database := fun w => (Return w.(db), w).

Definition modify_db (f : Database -> Database) : M unit :=
  fun w => (Return tt, mkWorld (f w.(db)) w.(log)).

(** An outside call whose outcome is a value or an exception. *)
Definition lift_outcome {A} (o : PyException + A) : M A :=
  match o with
  | inl e => raise e
  | inr a => ret a
  end.

Declare Scope py_scope.
Delimit Scope py_scope with py.
Notation "x <- m ;; k" := (bind m (fun x => k))
  (at level 100, m at next level, right associativity) : py_scope.
Notation "m ;;; k" := (bind m (fun _ => k))
  (at level 100, right associativity) : py_scope.
Local Open Scope py_scope.

(** Counting the events of one kind in a log. *)
Definition is_http_post (e : Event) : bool :=
  match e with EvHttpPost _ => true | _ => false end.
Definition is_fetch_token (e : Event) : bool :=
  match e with EvFetchToken _ => true | _ => false end.
Definition is_refresh (e : Event) : bool :=
  match e with EvRefresh _ => true | _ => false end.
Definition is_posts_insert (e : Event) : bool :=
  match e with EvPostsInsert _ _ => true | _ => false end.
Definition is_network (e : Event) : bool :=
  is_http_post e || is_fetch_token e || is_refresh e || is_posts_insert e.

Definition count (p : Event -> bool) (l : list Event) : nat :=
  length (filter p l).

(* ================================================================== *)
(** ** [class Setting] *)
(* ================================================================== *)

Module Setting.

(** [Setting.query.filter_by(key=key).first()] *)
Definition first_by_key (k : string) (rows : list SettingRow)
  : option SettingRow :=
  find (fun r => String.eqb r.(key) k) rows.

Definition lookup (k : string) (default : option string)
           (rows : list SettingRow) : option string :=
  match first_by_key k rows with
  | Some r => r.(value)
  | None => default
  end.

(** The row update of [set]: overwrite the first row with this key, or
    append a new row. *)
Fixpoint upsert (k : string) (v : option string) (rows : list SettingRow)
  : list SettingRow :=
  match rows with
  | [] => [mkSetting k v]
  | r :: rest =>
      if String.eqb r.(key) k then mkSetting r.(key) v :: rest
      else r :: upsert k v rest
  end.

(** [Setting.get(key, default=None)] *)
Definition get (k : string) (default : option string) : M (option string) :=
  emit (EvSettingGet k) ;;;
  d <- get_db ;;
  ret (lookup k default d.(settings)).

(** [Setting.set(key, value)] *)
Definition set (k : string) (v : option string) : M unit :=
  emit (EvSettingSet k v) ;;;
  modify_db (fun d => with_settings (upsert k v d.(settings)) d).

End Setting.

(* ================================================================== *)
(** ** [class AvailableTag], [class AvailableCategory] *)
(* ================================================================== *)

(** The two classes have the same methods up to the table they query;
    [Available] holds the method bodies over one table. *)
Module Available.

(** [query.filter_by(name=n).first()] *)
Definition first_by_name (n : string) (rows : list AvailableRow)
  : option AvailableRow :=
  find (fun r => String.eqb r.(name) n) rows.

(** [add_tag(name, description='')]: the new table and the returned row.
    A new row gets the column defaults: [usage_count = 0],
    [created_date = utcnow()]. *)
Definition add (now : datetime) (n : string) (descr : option string)
           (rows : list AvailableRow) : list AvailableRow * AvailableRow :=
  match first_by_name (Py.strip n) rows with
  | Some tag => (rows, tag)
  | None =>
      let tag := mkAvailable (next_id (map av_id rows)) (Py.strip n) now 0
                             descr in
      (rows ++ [tag], tag)
  end.

(** [tag.usage_count += 1] on the first row named [n]. *)
Fixpoint bump (n : string) (rows : list AvailableRow) : list AvailableRow :=
  match rows with
  | [] => []
  | r :: rest =>
      if String.eqb r.(name) n
      then mkAvailable r.(av_id) r.(name) r.(av_created_date)
                       (r.(usage_count) + 1)%Z r.(description) :: rest
      else r :: bump n rest
  end.

(** [[tag.strip() for tag in names.split(',') if tag.strip()]] *)
Definition name_list (names : string) : list string :=
  filter Py.truthy_str (map Py.strip (Py.split_comma names)).

(** One turn of the loop of [increment_usage]. *)
Definition use_one (now : datetime) (rows : list AvailableRow) (n : string)
  : list AvailableRow :=
  match first_by_name n rows with
  | Some _ => bump n rows
  | None => fst (add now n (Some "") rows)
  end.

(** [increment_usage(names)] *)
Definition increment_usage (now : datetime) (names : option string)
           (rows : list AvailableRow) : list AvailableRow :=
  match names with
  | None => rows
  | Some s =>
      if negb (Py.truthy_str s) then rows
      else fold_left (use_one now) (name_list s) rows
  end.

(** The usage count recorded for [n]; a name with no row counts 0. *)
Definition count_of (n : string) (rows : list AvailableRow) : Z :=
  match first_by_name n rows with
  | Some r => r.(usage_count)
  | None => 0%Z
  end.

End Available.

Module AvailableTag.
Definition add_tag (now : datetime) (n : string) (descr : option string)
  : M AvailableRow :=
  d <- get_db ;;
  let (rows, tag) := Available.add now n descr d.(available_tags) in
  modify_db (with_tags rows) ;;;
  ret tag.

Definition increment_usage (now : datetime) (tag_names : option string)
  : M unit :=
  modify_db (fun d =>
    with_tags (Available.increment_usage now tag_names d.(available_tags)) d).
End AvailableTag.

Module AvailableCategory.
Definition add_category (now : datetime) (n : string) (descr : option string)
  : M AvailableRow :=
  d <- get_db ;;
  let (rows, category) :=
    Available.add now n descr d.(available_categories) in
  modify_db (with_categories rows) ;;;
  ret category.

Definition increment_usage (now : datetime) (category_names : option string)
  : M unit :=
  modify_db (fun d =>
    with_categories
      (Available.increment_usage now category_names d.(available_categories))
      d).
End AvailableCategory.

(* ================================================================== *)
(** ** [class BlogAPI]: the publisher adapters *)
(* ================================================================== *)

(** The string behind a value already tested to be a non-empty [str]. *)
Definition the_str (v : option string) : string :=
  match v with
  | Some s => s
  | None => ""
  end.

(** [[x.strip() for x in s.split(',')]] *)
Definition split_strip (s : string) : list string :=
  map Py.strip (Py.split_comma s).

(** [result['id']] *)
Definition item_id (d : dict scalar) : M scalar :=
  match dict_get "id" d with
  | Some v => ret v
  | None => raise (KeyError "id")
  end.

(** The body of [publish_to_wordpress].  The two copies of the method
    differ in one argument of [requests.post]: [api/publishers.py] passes
    [timeout=30], [blog_publisher_main.py] passes no timeout. *)
Definition publish_to_wordpress_body (env : Environment) (tmo : option Z)
           (post : Post) : M scalar :=
  wp_url <- Setting.get "wordpress_url" None ;;
  wp_user <- Setting.get "wordpress_username" None ;;
  wp_password <- Setting.get "wordpress_password" None ;;
  if negb (forallb Py.truthy [wp_url; wp_user; wp_password])
  then raise (Exception "WordPress credentials not configured")
  else
    let api_url :=
      (Py.rstrip_slash (the_str wp_url) ++ "/wp-json/wp/v2/posts")%string in
    let headers := [("Content-Type", "application/json")] in
    let data := [("title", FStr post.(title));
                 ("content", FStr post.(content));
                 ("status", FStr "publish")] in
    let data :=
      if Py.truthy post.(categories)
      then dict_set "categories" (FList (split_strip (the_str post.(categories))))
                    data
      else data in
    let data :=
      if Py.truthy post.(tags)
      then dict_set "tags" (FList (split_strip (the_str post.(tags)))) data
      else data in
    let request :=
      mkRequest api_url headers data (the_str wp_user, the_str wp_password)
                tmo in
    emit (EvHttpPost request) ;;;
    response <- lift_outcome (env.(requests_post) request) ;;
    if (response.(status_code) =? 201)%Z
    then body <- lift_outcome response.(json_body) ;; item_id body
    else raise (Exception ("WordPress API error: " ++ response.(text))%string).

(** The body of [publish_to_blogger]; both copies are the same.  [build]
    only constructs the client object. *)
Definition publish_to_blogger_body (env : Environment) (post : Post)
           (credentials : Credentials) : M scalar :=
  try_except
    (blog_id <- Setting.get "blogger_blog_id" None ;;
     let blog_post := [("title", FStr post.(title));
                       ("content", FStr post.(content))] in
     let blog_post :=
       if Py.truthy post.(tags)
       then dict_set "labels" (FList (split_strip (the_str post.(tags))))
                     blog_post
       else blog_post in
     emit (EvPostsInsert blog_id blog_post) ;;;
     result <- lift_outcome (env.(posts_insert) blog_id blog_post credentials) ;;
     item_id result)
    (fun e =>
       match e with
       | HttpError m => raise (Exception ("Blogger API error: " ++ m)%string)
       | _ => raise e
       end).

(** [blog_publisher/api/publishers.py] *)
Module BlogAPI.
Definition publish_to_blogger := publish_to_blogger_body.
Definition publish_to_wordpress (env : Environment) (post : Post) : M scalar :=
  publish_to_wordpress_body env (Some 30%Z) post.
End BlogAPI.

(* ================================================================== *)
(** ** [class BloggerAPI]: the OAuth credential manager *)
(* ================================================================== *)

Module BloggerAPI.

(** [get_auth_url()] *)
Definition get_auth_url (env : Environment) : M string :=
  client_id <- Setting.get "blogger_client_id" None ;;
  client_secret <- Setting.get "blogger_client_secret" None ;;
  if negb (Py.truthy client_id) || negb (Py.truthy client_secret)
  then raise (Exception "Blogger OAuth credentials not configured")
  else
    let (authorization_url, state) :=
      env.(authorization_url) (the_str client_id) (the_str client_secret) in
    Setting.set "blogger_oauth_state" (Some state) ;;;
    ret authorization_url.

(** [handle_callback(code, state)]; [state] is a [str] or [None]. *)
Definition handle_callback (env : Environment) (code : string)
           (state : option string) : M bool :=
  stored_state <- Setting.get "blogger_oauth_state" None ;;
  if negb (Py.eqb_opt state stored_state)
  then raise (Exception "Invalid OAuth state")
  else
    client_id <- Setting.get "blogger_client_id" None ;;
    client_secret <- Setting.get "blogger_client_secret" None ;;
    emit (EvFetchToken code) ;;;
    credentials <-
      lift_outcome (env.(fetch_token) client_id client_secret code) ;;
    let creds_data := credentials.(creds) in
    Setting.set "blogger_credentials" (Some (env.(json_dumps) creds_data)) ;;;
    ret true.

(** [get_credentials()].  [json_loads] stands for [json.loads] followed
    by the six key reads; the rebuilt object carries no expiry. *)
Definition get_credentials (env : Environment) : M (option Credentials) :=
  creds_json <- Setting.get "blogger_credentials" None ;;
  if negb (Py.truthy creds_json) then ret None
  else
    creds_data <- lift_outcome (env.(json_loads) (the_str creds_json)) ;;
    let credentials := mkCredentials creds_data in
    if env.(expired) credentials
    then
      emit (EvRefresh credentials) ;;;
      credentials <- lift_outcome (env.(refresh) credentials) ;;
      let updated_creds := credentials.(creds) in
      Setting.set "blogger_credentials"
                  (Some (env.(json_dumps) updated_creds)) ;;;
      ret (Some credentials)
    else ret (Some credentials).

End BloggerAPI.

(* ================================================================== *)
(** ** Route handlers: [blog_publisher/routes/posts.py] *)
(* ================================================================== *)

(** The JSON documents the handlers answer with. *)
Inductive JsonResponse :=
| SavedOk (post_id : Z)            (* {'success': True, 'id': ...} *)
| PublishedOk (message : string)   (* {'success': True, 'message': ...} *)
| Failed (error : string).         (* {'success': False, 'error': ...} *)

Definition is_success (r : JsonResponse) : bool :=
  match r with
  | Failed _ => false
  | _ => true
  end.

(** The JSON body of a save request; [None] is an absent key. *)
Record SaveData := mkSaveData {
  sd_id : option Z;
  sd_title : option string;
  sd_content : option string;
  sd_tags : option string;
  sd_categories : option string
}.

(** Truth value of [data.get('id')]: absent and [0] are false. *)
Definition truthy_id (i : option Z) : bool :=
  match i with
  | Some z => negb (z =? 0)%Z
  | None => false
  end.

Definition the_id (i : option Z) : Z :=
  match i with
  | Some z => z
  | None => 0%Z
  end.

(** [data[k]] *)
Definition item (k : string) (v : option string) : M string :=
  match v with
  | Some s => ret s
  | None => raise (KeyError k)
  end.

(** [data.get(k, '')] *)
Definition get_or_empty (v : option string) : string :=
  match v with
  | Some s => s
  | None => ""
  end.

(** [Post.query.get(post_id)] *)
Definition query_get (post_id : Z) (rows : list Post) : option Post :=
  find (fun p => (p.(id) =? post_id)%Z) rows.

(** Writing back the row with the primary key of [p]. *)
Fixpoint store_post (p : Post) (rows : list Post) : list Post :=
  match rows with
  | [] => []
  | r :: rest =>
      if (r.(id) =? p.(id))%Z then p :: rest else r :: store_post p rest
  end.

(** [db.session.delete(post)] *)
Fixpoint delete_row (post_id : Z) (rows : list Post) : list Post :=
  match rows with
  | [] => []
  | r :: rest =>
      if (r.(id) =? post_id)%Z then rest else r :: delete_row post_id rest
  end.

(** [db.session.add(Post(...))]: the row as inserted, with its new id and
    the column defaults ([status='draft'], [created_date=utcnow()]). *)
Definition insert_post (now : datetime) (t c : string)
           (st : option string) (target ext tg cat : option string)
           (rows : list Post) : Post :=
  mkPost (next_id (map id rows)) t c
         (match st with Some _ => st | None => Some "draft" end)
         now None target ext tg cat.

Module Routes.

(** [save_post()] *)
Definition save_post (now : datetime) (data : SaveData) : M JsonResponse :=
  post <-
    (if truthy_id data.(sd_id)
     then
       d <- get_db ;;
       new_title <- item "title" data.(sd_title) ;;
       match query_get (the_id data.(sd_id)) d.(posts) with
       | None =>
           raise (AttributeError
                    "'NoneType' object has no attribute 'title'")
       | Some post =>
           new_content <- item "content" data.(sd_content) ;;
           let post :=
             mkPost post.(id) new_title new_content post.(status)
                    post.(created_date) post.(published_date)
                    post.(blog_target) post.(external_id)
                    (Some (get_or_empty data.(sd_tags)))
                    (Some (get_or_empty data.(sd_categories))) in
           modify_db (fun d => with_posts (store_post post d.(posts)) d) ;;;
           ret post
       end
     else
       new_title <- item "title" data.(sd_title) ;;
       new_content <- item "content" data.(sd_content) ;;
       blog_type <- Setting.get "blog_type" None ;;
       d <- get_db ;;
       let post :=
         insert_post now new_title new_content None blog_type None
                     (Some (get_or_empty data.(sd_tags)))
                     (Some (get_or_empty data.(sd_categories)))
                     d.(posts) in
       modify_db (fun d => with_posts (d.(posts) ++ [post]) d) ;;;
       ret post) ;;
  AvailableTag.increment_usage now post.(tags) ;;;
  AvailableCategory.increment_usage now post.(categories) ;;;
  ret (SavedOk post.(id)).

(** The three assignments that follow a successful adapter call. *)
Definition mark_published (now : datetime) (post : Post)
           (ext : scalar) : Post :=
  mkPost post.(id) post.(title) post.(content) (Some "published")
         post.(created_date) (Some now) post.(blog_target)
         (Some (str_scalar ext)) post.(tags) post.(categories).

(** [publish_post()], over the WordPress adapter it calls. *)
Definition publish_post_body (wordpress : Post -> M scalar)
           (now : datetime) (post_id : option Z) : M JsonResponse :=
  if negb (truthy_id post_id) then ret (Failed "Post ID required")
  else
    d <- get_db ;;
    match query_get (the_id post_id) d.(posts) with
    | None => ret (Failed "Post not found")
    | Some post =>
        try_except
          (blog_type <- Setting.get "blog_type" None ;;
           let finish (ext : scalar) : M JsonResponse :=
             modify_db (fun d =>
               with_posts (store_post (mark_published now post ext)
                                      d.(posts)) d) ;;;
             ret (PublishedOk "Post published successfully!") in
           if Py.eqb_opt blog_type (Some "blogger")
           then finish (SStr "blogger_post_id")
           else if Py.eqb_opt blog_type (Some "wordpress")
           then ext <- wordpress post ;; finish ext
           else ret (Failed "No blog platform configured"))
          (fun e => ret (Failed (str_exc e)))
    end.

Definition publish_post (env : Environment) :=
  publish_post_body (BlogAPI.publish_to_wordpress env).

(** [delete_post(post_id)]; [get_or_404] aborts the request. *)
Definition delete_post (post_id : Z) : M unit :=
  d <- get_db ;;
  match query_get post_id d.(posts) with
  | None => raise (LibraryError "NotFound" "404 Not Found")
  | Some _ =>
      modify_db (fun d => with_posts (delete_row post_id d.(posts)) d)
  end.

End Routes.

(* ================================================================== *)
(** ** The single-file application: [blog_publisher_main.py] *)
(* ================================================================== *)

(** Its models and handlers repeat the package's line for line; the one
    difference is the missing [timeout] of [requests.post]. *)
Module Main.
Module BlogAPI.
Definition publish_to_blogger := publish_to_blogger_body.
Definition publish_to_wordpress (env : Environment) (post : Post)
  : M scalar :=
  publish_to_wordpress_body env None post.
End BlogAPI.

Definition save_post := Routes.save_post.
Definition publish_post (env : Environment) :=
  Routes.publish_post_body (BlogAPI.publish_to_wordpress env).
Definition delete_post := Routes.delete_post.
End Main.

(* ================================================================== *)
(** ** Backup and restore: [blog_publisher/utils.py] *)
(* ================================================================== *)

(** The JSON document of a backup.  Dates are written with [isoformat],
    kept here as the instants they denote. *)
Record PostDump := mkPostDump {
  pd_title : string;
  pd_content : string;
  pd_status : option string;
  pd_created_date : datetime;
  pd_published_date : option datetime;
  pd_blog_target : option string;
  pd_external_id : option string;
  pd_tags : option string;
  pd_categories : option string
}.

Record AvailableDump := mkAvailableDump {
  ad_name : string;
  ad_description : option string;
  ad_usage_count : Z;
  ad_created_date : datetime
}.

Record BackupData := mkBackup {
  b_posts : list PostDump;
  b_tags : list AvailableDump;
  b_categories : list AvailableDump;
  b_settings : dict (option string)
}.

Record RestoreResults := mkResults {
  r_posts : Z;
  r_tags : Z;
  r_categories : Z;
  r_settings : Z
}.

Module Utils.

Definition dump_post (post : Post) : PostDump :=
  mkPostDump post.(title) post.(content) post.(status) post.(created_date)
             post.(published_date) post.(blog_target) post.(external_id)
             post.(tags) post.(categories).

Definition dump_available (tag : AvailableRow) : AvailableDump :=
  mkAvailableDump tag.(name) tag.(description) tag.(usage_count)
                  tag.(av_created_date).

(** The test of the settings loop. *)
Definition exportable (k : string) : bool :=
  negb (Py.endswith k "_password") && negb (Py.endswith k "_secret").

(** The settings loop: [data['settings'][setting.key] = setting.value]. *)
Definition dump_settings (rows : list SettingRow) : dict (option string) :=
  fold_left
    (fun acc setting =>
       if exportable setting.(key)
       then dict_set setting.(key) setting.(value) acc
       else acc)
    rows [].

(** [backup_database]: the document written to [backup_path]. *)
Definition backup_database (d : Database) : BackupData :=
  mkBackup (map dump_post d.(posts))
           (map dump_available d.(available_tags))
           (map dump_available d.(available_categories))
           (dump_settings d.(settings)).

(** One turn of the tag loop (and of the category loop) of
    [restore_database]: the table and the counter. *)
Definition restore_one (now : datetime) (acc : list AvailableRow * Z)
           (tag_data : AvailableDump) : list AvailableRow * Z :=
  let (rows, n) := acc in
  match Available.first_by_name tag_data.(ad_name) rows with
  | Some _ => (rows, n)
  | None =>
      (rows ++ [mkAvailable (next_id (map av_id rows)) tag_data.(ad_name)
                            now tag_data.(ad_usage_count)
                            tag_data.(ad_description)],
       (n + 1)%Z)
  end.

Definition restore_available (now : datetime) (l : list AvailableDump)
           (rows : list AvailableRow) : list AvailableRow * Z :=
  fold_left (restore_one now) l (rows, 0%Z).

(** One turn of the post loop. *)
Definition restore_post (now : datetime) (acc : list Post * Z)
           (post_data : PostDump) : list Post * Z :=
  let (rows, n) := acc in
  (rows ++ [insert_post now post_data.(pd_title) post_data.(pd_content)
                        post_data.(pd_status) post_data.(pd_blog_target)
                        post_data.(pd_external_id) post_data.(pd_tags)
                        post_data.(pd_categories) rows],
   (n + 1)%Z).

Definition restore_posts (now : datetime) (l : list PostDump)
           (rows : list Post) : list Post * Z :=
  fold_left (restore_post now) l (rows, 0%Z).

(** The settings loop. *)
Fixpoint restore_settings (l : dict (option string)) : M Z :=
  match l with
  | [] => ret 0%Z
  | (k, v) :: rest =>
      Setting.set k v ;;;
      n <- restore_settings rest ;;
      ret (1 + n)%Z
  end.

(** [restore_database], from the parsed document on.  Every key the
    loops read is present in a document written by [backup_database]. *)
Definition restore_database (now : datetime) (data : BackupData)
  : M RestoreResults :=
  d <- get_db ;;
  let (tag_rows, n_tags) :=
    restore_available now data.(b_tags) d.(available_tags) in
  modify_db (with_tags tag_rows) ;;;
  let (category_rows, n_categories) :=
    restore_available now data.(b_categories) d.(available_categories) in
  modify_db (with_categories category_rows) ;;;
  let (post_rows, n_posts) := restore_posts now data.(b_posts) d.(posts) in
  modify_db (with_posts post_rows) ;;;
  n_settings <- restore_settings data.(b_settings) ;;
  ret (mkResults n_posts n_tags n_categories n_settings).

End Utils.

(** Running a computation from a database with an empty log. *)
Definition run {A} (m : M A) (d : Database) : Result A * World :=
  m (start d).
Definition result_of {A} (r : Result A * World) : Result A := fst r.
Definition db_of {A} (r : Result A * World) : Database := (snd r).(db).
Definition log_of {A} (r : Result A * World) : list Event := (snd r).(log).

(* ================================================================== *)
(** ** Ordered queries: [query.order_by(column.desc()).all()] *)
(* ================================================================== *)

(** Rows in descending order of an integer column.  Rows with equal keys
    stay in table order; the database engine promises no order among
    them. *)
Fixpoint insert_desc {A} (column : A -> Z) (x : A) (l : list A) : list A :=
  match l with
  | [] => [x]
  | y :: r =>
      if (column y <=? column x)%Z then x :: l
      else y :: insert_desc column x r
  end.

Definition order_by_desc {A} (column : A -> Z) (rows : list A) : list A :=
  fold_right (insert_desc column) [] rows.

(** [AvailableTag.get_all_tags()], [AvailableCategory.get_all_categories()] *)
Definition get_all_tags (d : Database) : list AvailableRow :=
  order_by_desc usage_count d.(available_tags).

Definition get_all_categories (d : Database) : list AvailableRow :=
  order_by_desc usage_count d.(available_categories).

(** A loop whose body returns nothing. *)
Fixpoint for_each {A} (l : list A) (body : A -> M unit) : M unit :=
  match l with
  | [] => ret tt
  | x :: r => bind (body x) (fun _ => for_each r body)
  end.

(* ================================================================== *)
(** ** Page routes: [blog_publisher/routes/main.py] *)
(* ================================================================== *)

(** What a page route answers with.  Flash messages are not modelled. *)
Inductive Page :=
| Redirect (endpoint : string)
| RenderIndex (shown : list Post)
| RenderSettings (current_settings : dict (option string)).

Module MainRoutes.

(** [index()] *)
Definition index : M Page :=
  configured <- Setting.get "configured" None ;;
  if negb (Py.truthy configured) then ret (Redirect "main.setup")
  else
    d <- get_db ;;
    ret (RenderIndex (order_by_desc created_date d.(posts))).

(** [setup_post()], on the submitted form; [form.get(k)] is [dict_get k]. *)
Definition setup_post (form : dict string) : M Page :=
  let blog_type := dict_get "blog_type" form in
  Setting.set "blog_type" blog_type ;;;
  (if Py.eqb_opt blog_type (Some "blogger")
   then
     Setting.set "blogger_blog_id" (dict_get "blogger_blog_id" form) ;;;
     Setting.set "blogger_client_id" (dict_get "blogger_client_id" form) ;;;
     Setting.set "blogger_client_secret"
                 (dict_get "blogger_client_secret" form)
   else if Py.eqb_opt blog_type (Some "wordpress")
   then
     Setting.set "wordpress_url" (dict_get "wordpress_url" form) ;;;
     Setting.set "wordpress_username" (dict_get "wordpress_username" form) ;;;
     Setting.set "wordpress_password" (dict_get "wordpress_password" form)
   else ret tt) ;;;
  Setting.set "configured" (Some "true") ;;;
  ret (Redirect "main.index").

(** [settings()] *)
Definition settings_page : M Page :=
  blog_type <- Setting.get "blog_type" None ;;
  blogger_blog_id <- Setting.get "blogger_blog_id" None ;;
  blogger_client_id <- Setting.get "blogger_client_id" None ;;
  wordpress_url <- Setting.get "wordpress_url" None ;;
  wordpress_username <- Setting.get "wordpress_username" None ;;
  ret (RenderSettings [("blog_type", blog_type);
                       ("blogger_blog_id", blogger_blog_id);
                       ("blogger_client_id", blogger_client_id);
                       ("wordpress_url", wordpress_url);
                       ("wordpress_username", wordpress_username)]).

(** [settings_post()] *)
Definition settings_post (form : dict string) : M Page :=
  let blog_type := dict_get "blog_type" form in
  Setting.set "blog_type" blog_type ;;;
  (if Py.eqb_opt blog_type (Some "blogger")
   then
     Setting.set "blogger_blog_id" (dict_get "blogger_blog_id" form) ;;;
     Setting.set "blogger_client_id" (dict_get "blogger_client_id" form) ;;;
     Setting.set "blogger_client_secret"
                 (dict_get "blogger_client_secret" form)
   else if Py.eqb_opt blog_type (Some "wordpress")
   then
     Setting.set "wordpress_url" (dict_get "wordpress_url" form) ;;;
     Setting.set "wordpress_username" (dict_get "wordpress_username" form) ;;;
     Setting.set "wordpress_password" (dict_get "wordpress_password" form)
   else ret tt) ;;;
  ret (Redirect "main.settings").

End MainRoutes.

(* ================================================================== *)
(** ** Tag routes: [blog_publisher/routes/tags.py], [routes/api.py] *)
(* ================================================================== *)

(** The JSON documents of the tag routes. *)
Inductive TagResponse :=
| TagOk (tag : AvailableRow)     (* {'success': True, 'tag': {...}} *)
| TagFailed (error : string)     (* {'success': False, 'error': ...} *)
| TagDeleted.                    (* {'success': True} *)

(** [query.get(row_id)] and [db.session.delete(row)] on a tag table. *)
Definition available_get (row_id : Z) (rows : list AvailableRow)
  : option AvailableRow :=
  find (fun r => (r.(av_id) =? row_id)%Z) rows.

Fixpoint available_delete (row_id : Z) (rows : list AvailableRow)
  : list AvailableRow :=
  match rows with
  | [] => []
  | r :: rest =>
      if (r.(av_id) =? row_id)%Z then rest
      else r :: available_delete row_id rest
  end.

Module TagRoutes.

(** [add_tag()]; the arguments are [data.get('name')] and
    [data.get('description')], [None] for an absent key. *)
Definition add_tag (now : datetime) (name_field description_field : option string)
  : M TagResponse :=
  let tag_name := Py.strip (get_or_empty name_field) in
  let description := Py.strip (get_or_empty description_field) in
  if negb (Py.truthy_str tag_name) then ret (TagFailed "Tag name is required")
  else
    try_except
      (tag <- AvailableTag.add_tag now tag_name (Some description) ;;
       ret (TagOk tag))
      (fun _ => ret (TagFailed "Tag already exists")).

(** [add_category()] *)
Definition add_category (now : datetime)
           (name_field description_field : option string) : M TagResponse :=
  let category_name := Py.strip (get_or_empty name_field) in
  let description := Py.strip (get_or_empty description_field) in
  if negb (Py.truthy_str category_name)
  then ret (TagFailed "Category name is required")
  else
    try_except
      (category <-
         AvailableCategory.add_category now category_name (Some description) ;;
       ret (TagOk category))
      (fun _ => ret (TagFailed "Category already exists")).

(** [delete_tag(tag_id)]; [get_or_404] aborts the request. *)
Definition delete_tag (tag_id : Z) : M TagResponse :=
  d <- get_db ;;
  match available_get tag_id d.(available_tags) with
  | None => raise (LibraryError "NotFound" "404 Not Found")
  | Some _ =>
      modify_db (fun d =>
        with_tags (available_delete tag_id d.(available_tags)) d) ;;;
      ret TagDeleted
  end.

(** [delete_category(category_id)] *)
Definition delete_category (category_id : Z) : M TagResponse :=
  d <- get_db ;;
  match available_get category_id d.(available_categories) with
  | None => raise (LibraryError "NotFound" "404 Not Found")
  | Some _ =>
      modify_db (fun d =>
        with_categories
          (available_delete category_id d.(available_categories)) d) ;;;
      ret TagDeleted
  end.

(** [get_tags()] of [routes/api.py]: name, usage count and description of
    every tag, most used first. *)
Definition get_tags : M (list (string * Z * option string)) :=
  d <- get_db ;;
  ret (map (fun tag => (tag.(name), tag.(usage_count), tag.(description)))
           (get_all_tags d)).

(** [get_categories()] of [routes/api.py] *)
Definition get_categories : M (list (string * Z * option string)) :=
  d <- get_db ;;
  ret (map (fun cat => (cat.(name), cat.(usage_count), cat.(description)))
           (get_all_categories d)).

End TagRoutes.

(* ================================================================== *)
(** ** More of [blog_publisher/utils.py] *)
(* ================================================================== *)

Record AppInfo := mkAppInfo {
  version : string;
  author : string;
  database_path : option string;
  total_posts : nat;
  total_tags : nat;
  total_categories : nat;
  published_posts : nat;
  draft_posts : nat
}.

Module MoreUtils.

Definition default_tags : list (string * string) :=
  [("tutorial", "Step-by-step guides and tutorials");
   ("howto", "How-to guides and instructions");
   ("python", "Python programming content");
   ("web-development", "Web development topics");
   ("tips", "Quick tips and tricks");
   ("beginner", "Content for beginners");
   ("advanced", "Advanced topics");
   ("code", "Code examples and snippets");
   ("review", "Reviews and evaluations");
   ("news", "News and updates")].

Definition default_categories : list (string * string) :=
  [("Programming", "Programming and development topics");
   ("Technology", "Technology news and reviews");
   ("Tutorials", "Educational content and tutorials");
   ("Personal", "Personal thoughts and experiences");
   ("Projects", "Project showcases and updates")].

(** [init_default_tags()] *)
Definition init_default_tags (now : datetime) : M unit :=
  for_each default_tags
    (fun entry =>
       AvailableTag.add_tag now (fst entry) (Some (snd entry)) ;;; ret tt) ;;;
  for_each default_categories
    (fun entry =>
       AvailableCategory.add_category now (fst entry) (Some (snd entry)) ;;;
       ret tt).

(** [Post.query.filter_by(status=s).count()] *)
Definition count_status (s : string) (rows : list Post) : nat :=
  length (filter (fun p => Py.eqb_opt p.(status) (Some s)) rows).

(** [get_app_info()], without the interpreter's version. *)
Definition get_app_info : M AppInfo :=
  path <- Setting.get "database_path" (Some "Unknown") ;;
  d <- get_db ;;
  ret (mkAppInfo "0.1.0" "Carolyn Boyle" path
                 (length d.(posts)) (length d.(available_tags))
                 (length d.(available_categories))
                 (count_status "published" d.(posts))
                 (count_status "draft" d.(posts))).

End MoreUtils.

(* ================================================================== *)
(** ** Vocabulary of the statements *)
(* ================================================================== *)

(** The value [Setting.get(k)] would return on database [d]. *)
Definition stored (d : Database) (k : string) : option string :=
  Setting.lookup k None d.(settings).

(** What [publish_to_wordpress] makes of the peer's answer. *)
Definition wordpress_outcome (o : PyException + Response) : Result scalar :=
  match o with
  | inl e => Raise e
  | inr response =>
      if (response.(status_code) =? 201)%Z
      then match response.(json_body) with
           | inl e => Raise e
           | inr body =>
               match dict_get "id" body with
               | Some v => Return v
               | None => Raise (KeyError "id")
               end
           end
      else Raise (Exception ("WordPress API error: " ++ response.(text))%string)
  end.

(** A run that stops at the configuration check: the error raised, nothing
    sent on the network, the database as it was. *)
Definition stops_unconfigured {A} (d : Database) (r : Result A * World)
  : Prop :=
  result_of r = Raise (Exception "WordPress credentials not configured") /\
  count is_http_post (log_of r) = 0%nat /\
  count is_network (log_of r) = 0%nat /\
  db_of r = d.

(** A run of the publish handler that took the Blogger branch for the post
    [post] stored under [post_id]. *)
Definition published_with_placeholder (now : datetime) (post_id : Z)
           (post : Post) (d : Database) (r : Result JsonResponse * World)
  : Prop :=
  result_of r = Return (PublishedOk "Post published successfully!") /\
  log_of r = [EvSettingGet "blog_type"] /\
  count is_network (log_of r) = 0%nat /\
  (db_of r).(settings) = d.(settings) /\
  exists post',
    query_get post_id (db_of r).(posts) = Some post' /\
    (db_of r).(posts) = store_post post' d.(posts) /\
    post'.(external_id) = Some "blogger_post_id" /\
    post'.(status) = Some "published" /\
    post'.(published_date) = Some now /\
    post'.(title) = post.(title) /\ post'.(content) = post.(content).

(** What a backup keeps of a tag or category row, and what a restore
    carries over of a post. *)
Definition available_view (r : AvailableRow) : string * option string * Z :=
  (r.(name), r.(description), r.(usage_count)).

Definition restored_view (p : Post)
  : string * string * option string * option string * option string
    * option string * option string :=
  (p.(title), p.(content), p.(status), p.(blog_target), p.(external_id),
   p.(tags), p.(categories)).

(** What a restore reads of an exported row. *)
Definition dump_view (x : AvailableDump) : string * option string * Z :=
  (x.(ad_name), x.(ad_description), x.(ad_usage_count)).

(** The two publication fields of a post. *)
Definition publication (p : Post) : option string * option datetime :=
  (p.(external_id), p.(published_date)).

(** A post has an external id exactly when it has a publication date. *)
Definition paired (p : Post) : Prop :=
  p.(external_id) = None <-> p.(published_date) = None.

(** The id and the two publication fields of every post, in table order. *)
Definition publication_table (rows : list Post)
  : list (Z * (option string * option datetime)) :=
  map (fun p => (p.(id), publication p)) rows.

(** [post'] is [post] as published at [now] under the platform id [ext]:
    the three fields a publish writes, and every other field as it was. *)
Definition published_copy (now : datetime) (ext : scalar)
           (post post' : Post) : Prop :=
  post'.(external_id) = Some (str_scalar ext) /\
  post'.(published_date) = Some now /\
  post'.(status) = Some "published" /\
  post'.(id) = post.(id) /\
  post'.(title) = post.(title) /\
  post'.(content) = post.(content) /\
  post'.(created_date) = post.(created_date) /\
  post'.(blog_target) = post.(blog_target) /\
  post'.(tags) = post.(tags) /\
  post'.(categories) = post.(categories).

(** What a run of the publish handler comes to: an answer, never an
    exception.  On success the addressed post is stored as its published
    copy, is found under its id, and every other post is a post of before;
    on failure the database is as it was. *)
Definition publish_outcome (now : datetime) (post_id : option Z)
           (d : Database) (r : Result JsonResponse * World) : Prop :=
  exists response,
    result_of r = Return response /\
    if is_success response
    then exists post ext post',
           query_get (the_id post_id) d.(posts) = Some post /\
           published_copy now ext post post' /\
           (db_of r).(posts) = store_post post' d.(posts) /\
           query_get (the_id post_id) (db_of r).(posts) = Some post' /\
           (forall q, In q (db_of r).(posts) -> q = post' \/ In q d.(posts))
    else db_of r = d.

(** What a save does to the publication fields: the id and the two fields
    of every stored post are as they were, in place, and at most one post
    is added behind them, under a new id and with neither field set. *)
Definition save_keeps_publication (before after : list Post) : Prop :=
  publication_table after = publication_table before \/
  exists i,
    ~ In i (map id before) /\
    publication_table after = publication_table before ++ [(i, (None, None))].

(** What a delete does to the posts: those that remain are posts of
    before, unaltered, and none but the addressed one is gone. *)
Definition delete_keeps_posts (post_id : Z) (before after : list Post)
  : Prop :=
  (forall p, In p after -> In p before) /\
  (forall p, In p before -> p.(id) <> post_id -> In p after).

(** [Credentials.expired] of google-auth on an object constructed without
    an [expiry], which is how [get_credentials] constructs it (the stored
    blob holds no expiry either): the library takes such a credential as
    never expiring. *)
Definition expired_without_expiry (c : Credentials) : bool := false.

Module Example.
Local Open Scope Z_scope.

(** A WordPress peer that accepts every post and numbers it [n]. *)
Definition accepting (n : Z) : Environment :=
  mkEnv (fun _ => inr (mkResponse 201 "{}" (inr [("id", SInt n)])))
        (fun _ _ _ => inr [("id", SStr "8071")])
        (fun _ _ => ("https://accounts.google.com/o/oauth2/auth", "s3"))
        (fun _ _ _ =>
           inr (mkCredentials
                  (mkCreds (Some "ya29.a") (Some "1//r") None
                           (Some "cid") (Some "shh") [])))
        expired_without_expiry
        (fun c =>
           inr (mkCredentials
                  (mkCreds (Some "new") c.(creds).(refresh_token)
                           c.(creds).(token_uri) c.(creds).(client_id)
                           c.(creds).(client_secret) c.(creds).(scopes))))
        (fun c => the_str c.(token))
        (fun s => inr (mkCreds (Some s) (Some "1//r") None (Some "cid")
                               (Some "shh") [])).

(** A peer that rejects every post. *)
Definition rejecting : Environment :=
  mkEnv (fun _ => inr (mkResponse 401 "rest_cannot_create"
                                  (inr [("code", SStr "rest_cannot_create")])))
        (fun _ _ _ => inl (HttpError "403"))
        (fun _ _ => ("https://accounts.google.com/o/oauth2/auth", "s3"))
        (fun _ _ _ => inl (LibraryError "InvalidGrantError" "bad code"))
        (fun _ => false)
        (fun _ => inl (LibraryError "RefreshError" "revoked"))
        (fun c => the_str c.(token))
        (fun s => inl (LibraryError "JSONDecodeError" s)).

Definition wordpress_settings : list SettingRow :=
  [mkSetting "blog_type" (Some "wordpress");
   mkSetting "wordpress_url" (Some "https://blog.example/");
   mkSetting "wordpress_username" (Some "carolyn");
   mkSetting "wordpress_password" (Some "hunter2")].

Definition blogger_settings : list SettingRow :=
  [mkSetting "blog_type" (Some "blogger");
   mkSetting "blogger_blog_id" (Some "42");
   mkSetting "blogger_client_id" (Some "cid");
   mkSetting "blogger_client_secret" (Some "shh");
   mkSetting "blogger_oauth_state" (Some "s3")].

Definition draft : Post :=
  mkPost 1 "Hello" "<p>first</p>" (Some "draft") 100 None
         (Some "wordpress") None (Some "a, b ,b") (Some "News").

Definition wordpress_db : Database :=
  mkDatabase wordpress_settings [] [] [draft].

Definition blogger_db : Database :=
  mkDatabase blogger_settings [] [] [draft].

(** A store holding a Blogger credential whose access token has run out. *)
Definition authorized_db : Database :=
  mkDatabase (blogger_settings ++ [mkSetting "blogger_credentials" (Some "old")])
             [] [] [draft].

(** A post whose tag string has an empty entry. *)
Definition gappy : Post :=
  mkPost 3 "Gaps" "<p>third</p>" (Some "draft") 102 None
         (Some "blogger") None (Some "a,,b ") (Some "News").

(** A store in which the password is set to the empty string. *)
Definition unconfigured_db : Database :=
  mkDatabase [mkSetting "blog_type" (Some "wordpress");
              mkSetting "wordpress_url" (Some "https://blog.example/");
              mkSetting "wordpress_username" (Some "carolyn");
              mkSetting "wordpress_password" (Some "")]
             [] [] [draft].

Definition tagged_db : Database :=
  mkDatabase wordpress_settings
             [mkAvailable 1 "a" 90 4 (Some "first letter");
              mkAvailable 2 "b" 91 0 None]
             [mkAvailable 1 "News" 92 7 None]
             [draft;
              mkPost 2 "Again" "<p>second</p>" (Some "published") 101
                     (Some 150) (Some "wordpress") (Some "17")
                     (Some "b") (Some "")].

End Example.

(* ================================================================== *)
(** * Properties *)
(* ================================================================== *)

Create HintDb py.
#[local] Hint Unfold run result_of db_of log_of start bind ret raise emit
  get_db modify_db try_except lift_outcome Setting.get Setting.set stored : py.

(** Symbolic execution of the monad's operations. *)
Ltac exec := autounfold with py; cbn [fst snd db log app negb andb orb].

(** More sample data, for the properties of the remaining code. *)
Module Sample.
Local Open Scope Z_scope.

(** A library whose stored refresh token has been revoked. *)
Definition revoked : Environment :=
  mkEnv (fun _ => inl (LibraryError "ConnectionError" "unreachable"))
        (fun _ _ _ => inl (LibraryError "RefreshError" "revoked"))
        (fun _ _ => ("https://accounts.google.com/o/oauth2/auth", "s4"))
        (fun _ _ _ => inl (LibraryError "InvalidGrantError" "bad code"))
        expired_without_expiry
        (fun _ => inl (LibraryError "RefreshError" "revoked"))
        (fun c => the_str c.(token))
        (fun s => inr (mkCreds (Some s) (Some "1//r") None (Some "cid")
                               (Some "shh") [])).

(** A store with a Blogger client and no pending authorization. *)
Definition client_db : Database :=
  mkDatabase [mkSetting "blog_type" (Some "blogger");
              mkSetting "blogger_blog_id" (Some "42");
              mkSetting "blogger_client_id" (Some "cid");
              mkSetting "blogger_client_secret" (Some "shh")]
             [] [] [Example.draft].

(** A store whose client secret was left empty. *)
Definition no_secret_db : Database :=
  mkDatabase [mkSetting "blogger_client_id" (Some "cid");
              mkSetting "blogger_client_secret" (Some "");
              mkSetting "blogger_oauth_state" (Some "pending")]
             [] [] [].

(** A WordPress peer that answers 500 with an HTML page. *)
Definition failing : Environment :=
  mkEnv (fun _ => inr (mkResponse 500 "<h1>Internal Server Error</h1>"
                                  (inl (LibraryError "JSONDecodeError"
                                                     "Expecting value"))))
        (fun _ _ _ => inl (HttpError "<HttpError 403 Forbidden>"))
        (fun _ _ => ("https://accounts.google.com/o/oauth2/auth", "s4"))
        (fun _ _ _ => inl (LibraryError "InvalidGrantError" "bad code"))
        (fun _ => false)
        (fun c => inr c)
        (fun c => the_str c.(token))
        (fun s => inr (mkCreds (Some s) None None None None [])).

Definition wordpress_form : dict string :=
  [("blog_type", "wordpress");
   ("wordpress_url", "https://blog.example/");
   ("wordpress_username", "carolyn");
   ("wordpress_password", "hunter2")].

Definition new_post_data : SaveData :=
  mkSaveData None (Some "Second") (Some "<p>two</p>") (Some "a,b") None.

Definition edit_data : SaveData :=
  mkSaveData (Some 2) (Some "Edited") (Some "<p>new</p>") (Some "b")
             (Some "News").

End Sample.

(** The table after the loop of [init_default_tags] over the entries [l]. *)
Definition add_all (now : datetime) (l : list (string * string))
           (rows : list AvailableRow) : list AvailableRow :=
  fold_left
    (fun rows entry =>
       fst (Available.add now (fst entry) (Some (snd entry)) rows))
    l rows.

(* ------------------------------------------------------------------ *)
(** ** Comparisons and lookups *)
(* ------------------------------------------------------------------ *)

Lemma eqb_opt_true a b : Py.eqb_opt a b = true <-> a = b.
Proof.
  destruct a as [x|], b as [y|]; simpl; try (split; congruence).
  rewrite String.eqb_eq. split; congruence.
Qed.

Lemma eqb_opt_false a b : Py.eqb_opt a b = false <-> a <> b.
Proof.
  rewrite <- eqb_opt_true. destruct (Py.eqb_opt a b); split; congruence.
Qed.

Lemma lookup_upsert k v rows :
  Setting.lookup k None (Setting.upsert k v rows) = v.
Proof.
  unfold Setting.lookup, Setting.first_by_key.
  induction rows as [| r rest IH]; simpl.
  - rewrite String.eqb_refl. reflexivity.
  - destruct (key r =? k) eqn:E; simpl; rewrite E; [reflexivity | exact IH].
Qed.

Lemma lookup_upsert_other k k' v rows :
  k <> k' ->
  Setting.lookup k None (Setting.upsert k' v rows) = Setting.lookup k None rows.
Proof.
  intros Hk. unfold Setting.lookup, Setting.first_by_key.
  induction rows as [| r rest IH]; simpl.
  - destruct (String.eqb_spec k' k); [congruence | reflexivity].
  - destruct (String.eqb_spec (key r) k') as [E | E]; simpl.
    + destruct (String.eqb_spec (key r) k); [congruence | reflexivity].
    + destruct (String.eqb_spec (key r) k); [reflexivity | exact IH].
Qed.

Lemma query_get_id i rows p : query_get i rows = Some p -> p.(id) = i.
Proof.
  unfold query_get. intros H. apply find_some in H. destruct H as [_ H].
  apply Z.eqb_eq in H. exact H.
Qed.

Lemma query_get_In i rows p : query_get i rows = Some p -> In p rows.
Proof. unfold query_get. intros H. apply find_some in H. tauto. Qed.

Lemma query_get_store_post p rows q :
  query_get p.(id) rows = Some q ->
  query_get p.(id) (store_post p rows) = Some p.
Proof.
  unfold query_get. induction rows as [| r rest IH]; simpl; [discriminate |].
  destruct (id r =? id p)%Z eqn:E; simpl.
  - intros _. rewrite Z.eqb_refl. reflexivity.
  - rewrite E. exact IH.
Qed.

(* ------------------------------------------------------------------ *)
(** ** The WordPress adapter *)
(* ------------------------------------------------------------------ *)

Lemma wordpress_body_unconfigured env tmo post d :
  Py.truthy (stored d "wordpress_url") = false \/
  Py.truthy (stored d "wordpress_username") = false \/
  Py.truthy (stored d "wordpress_password") = false ->
  run (publish_to_wordpress_body env tmo post) d =
  (Raise (Exception "WordPress credentials not configured"),
   mkWorld d [EvSettingGet "wordpress_url"; EvSettingGet "wordpress_username";
              EvSettingGet "wordpress_password"]).
Proof.
  intros H. unfold publish_to_wordpress_body. exec.
  unfold stored in H.
  assert (E : forallb Py.truthy
                [Setting.lookup "wordpress_url" None (settings d);
                 Setting.lookup "wordpress_username" None (settings d);
                 Setting.lookup "wordpress_password" None (settings d)] = false).
  { cbn [forallb]. destruct H as [H | [H | H]]; rewrite H;
      rewrite ?andb_false_r; reflexivity. }
  rewrite E. reflexivity.
Qed.

(** With the three settings in place the adapter reads them, sends one
    request and turns the answer into its result. *)
Lemma wordpress_body_configured env tmo post d :
  Py.truthy (stored d "wordpress_url") = true ->
  Py.truthy (stored d "wordpress_username") = true ->
  Py.truthy (stored d "wordpress_password") = true ->
  exists request,
    run (publish_to_wordpress_body env tmo post) d =
    (wordpress_outcome (env.(requests_post) request),
     mkWorld d [EvSettingGet "wordpress_url"; EvSettingGet "wordpress_username";
                EvSettingGet "wordpress_password"; EvHttpPost request]) /\
    request.(timeout) = tmo /\
    request.(auth) = (the_str (stored d "wordpress_username"),
                      the_str (stored d "wordpress_password")) /\
    request.(url) = (Py.rstrip_slash (the_str (stored d "wordpress_url"))
                     ++ "/wp-json/wp/v2/posts")%string.
Proof.
  intros Hu Hn Hp. unfold stored in *.
  unfold publish_to_wordpress_body. exec. cbn [forallb].
  rewrite Hu, Hn, Hp. cbn [andb negb].
  match goal with |- context [EvHttpPost ?r] => exists r end.
  split; [| repeat split].
  match goal with
  | |- context [requests_post env ?r] =>
      destruct (requests_post env r) as [e | response]
  end; cbn [wordpress_outcome].
  - reflexivity.
  - destruct (status_code response =? 201)%Z; [| reflexivity].
    destruct (json_body response) as [e | body]; [reflexivity |].
    unfold item_id. destruct (dict_get "id" body); reflexivity.
Qed.

(** An id comes back only from a 201 whose body has an [id]. *)
Lemma wordpress_outcome_returns o v :
  wordpress_outcome o = Return v <->
  exists response body,
    o = inr response /\ response.(status_code) = 201%Z /\
    response.(json_body) = inr body /\ dict_get "id" body = Some v.
Proof.
  unfold wordpress_outcome. split.
  - destruct o as [e | response]; [discriminate |].
    destruct (Z.eqb_spec (status_code response) 201); [| discriminate].
    destruct (json_body response) as [e' | body] eqn:Eb; [discriminate |].
    destruct (dict_get "id" body) as [v' |] eqn:Ei; [| discriminate].
    intros H. injection H as <-. exists response, body. auto.
  - intros (response & body & -> & Hs & Hb & Hi).
    rewrite Hs, Hb, Hi. reflexivity.
Qed.

(** Every other status fails with the body text, unchanged, after the
    fixed prefix. *)
Lemma wordpress_outcome_other_status response :
  response.(status_code) <> 201%Z ->
  wordpress_outcome (inr response) =
  Raise (Exception ("WordPress API error: " ++ response.(text))%string).
Proof.
  intros H. unfold wordpress_outcome.
  destruct (Z.eqb_spec (status_code response) 201); [contradiction | reflexivity].
Qed.

(** The packaged adapter: one authenticated POST with a timeout of 30
    seconds, whose answer decides the result. *)
Lemma packaged_publish_to_wordpress_contract env post d :
  Py.truthy (stored d "wordpress_url") = true ->
  Py.truthy (stored d "wordpress_username") = true ->
  Py.truthy (stored d "wordpress_password") = true ->
  let r := run (BlogAPI.publish_to_wordpress env post) d in
  exists request,
    filter is_network (log_of r) = [EvHttpPost request] /\
    request.(timeout) = Some 30%Z /\
    request.(auth) = (the_str (stored d "wordpress_username"),
                      the_str (stored d "wordpress_password")) /\
    result_of r = wordpress_outcome (env.(requests_post) request) /\
    db_of r = d.
Proof.
  intros Hu Hn Hp r. subst r. unfold BlogAPI.publish_to_wordpress.
  destruct (wordpress_body_configured env (Some 30%Z) post d Hu Hn Hp)
    as (request & Hrun & Ht & Ha & _).
  exists request. rewrite Hrun. repeat split; assumption.
Qed.

(** The single-file adapter sends the same request without a timeout. *)
Lemma main_publish_to_wordpress_request env post d :
  Py.truthy (stored d "wordpress_url") = true ->
  Py.truthy (stored d "wordpress_username") = true ->
  Py.truthy (stored d "wordpress_password") = true ->
  let r := run (Main.BlogAPI.publish_to_wordpress env post) d in
  exists request,
    filter is_network (log_of r) = [EvHttpPost request] /\
    request.(timeout) = None /\
    result_of r = wordpress_outcome (env.(requests_post) request).
Proof.
  intros Hu Hn Hp r. subst r. unfold Main.BlogAPI.publish_to_wordpress.
  destruct (wordpress_body_configured env None post d Hu Hn Hp)
    as (request & Hrun & Ht & _).
  exists request. rewrite Hrun. repeat split; assumption.
Qed.

(** C2. When any of the three WordPress settings (URL, user name,
    password) is missing or empty, [publish_to_wordpress] raises
    "WordPress credentials not configured" and has sent nothing on the
    network: it fails before any I/O.  Both copies of the adapter do. *)
Theorem wordpress_unconfigured_fails_before_io env post d :
  Py.truthy (stored d "wordpress_url") = false \/
  Py.truthy (stored d "wordpress_username") = false \/
  Py.truthy (stored d "wordpress_password") = false ->
  stops_unconfigured d (run (BlogAPI.publish_to_wordpress env post) d) /\
  stops_unconfigured d (run (Main.BlogAPI.publish_to_wordpress env post) d).
Proof.
  intros H. unfold BlogAPI.publish_to_wordpress, Main.BlogAPI.publish_to_wordpress.
  rewrite !wordpress_body_unconfigured by exact H.
  split; repeat split.
Qed.

Lemma wordpress_unconfigured_witness :
  stops_unconfigured Example.unconfigured_db
    (run (BlogAPI.publish_to_wordpress (Example.accepting 7) Example.draft)
         Example.unconfigured_db).
Proof.
  apply (wordpress_unconfigured_fails_before_io
           (Example.accepting 7) Example.draft Example.unconfigured_db).
  right. right. reflexivity.
Defined.

(** C3. The copy of [publish_to_wordpress] in the single-file application
    sends its one POST with no timeout at all, where the packaged copy
    passes 30 seconds: on a configured store both send the same request to
    the same peer and get the same id back, and only the timeout differs. *)
Theorem main_publish_to_wordpress_has_no_timeout :
  exists packaged single,
    filter is_network
      (log_of (run (BlogAPI.publish_to_wordpress (Example.accepting 7)
                      Example.draft) Example.wordpress_db))
    = [EvHttpPost packaged] /\
    filter is_network
      (log_of (run (Main.BlogAPI.publish_to_wordpress (Example.accepting 7)
                      Example.draft) Example.wordpress_db))
    = [EvHttpPost single] /\
    packaged.(timeout) = Some 30%Z /\
    single.(timeout) = None /\
    single.(url) = packaged.(url) /\
    single.(auth) = packaged.(auth) /\
    single.(json) = packaged.(json) /\
    result_of (run (Main.BlogAPI.publish_to_wordpress (Example.accepting 7)
                      Example.draft) Example.wordpress_db)
    = Return (SInt 7).
Proof.
  eexists. eexists. repeat split; reflexivity.
Qed.

(* ------------------------------------------------------------------ *)
(** ** The publish handler on the Blogger branch *)
(* ------------------------------------------------------------------ *)

Lemma publish_post_blogger wordpress now post_id post d :
  truthy_id post_id = true ->
  query_get (the_id post_id) d.(posts) = Some post ->
  stored d "blog_type" = Some "blogger" ->
  run (Routes.publish_post_body wordpress now post_id) d =
  (Return (PublishedOk "Post published successfully!"),
   mkWorld (with_posts (store_post (Routes.mark_published now post
                                      (SStr "blogger_post_id")) d.(posts)) d)
           [EvSettingGet "blog_type"]).
Proof.
  intros Hid Hq Hb. unfold stored in Hb.
  unfold Routes.publish_post_body. rewrite Hid. exec. rewrite Hq.
  exec. rewrite Hb. reflexivity.
Qed.

Lemma blogger_branch_publishes wordpress now post_id post d :
  truthy_id post_id = true ->
  query_get (the_id post_id) d.(posts) = Some post ->
  stored d "blog_type" = Some "blogger" ->
  published_with_placeholder now (the_id post_id) post d
    (run (Routes.publish_post_body wordpress now post_id) d).
Proof.
  intros Hid Hq Hb. rewrite (publish_post_blogger _ _ _ _ _ Hid Hq Hb).
  unfold published_with_placeholder, result_of, db_of, log_of.
  cbn [fst snd db log posts settings with_posts].
  repeat split.
  exists (Routes.mark_published now post (SStr "blogger_post_id")).
  repeat split.
  pose proof (query_get_id _ _ _ Hq) as Hi.
  rewrite <- Hi in Hq |- *.
  exact (query_get_store_post
           (Routes.mark_published now post (SStr "blogger_post_id")) _ _ Hq).
Qed.

(** Whatever the request, the Blogger branch reads at most the one
    setting [blog_type]: no credential, no network. *)
Lemma blogger_branch_reads_only_blog_type wordpress now post_id d :
  stored d "blog_type" = Some "blogger" ->
  let r := run (Routes.publish_post_body wordpress now post_id) d in
  log_of r = [] \/ log_of r = [EvSettingGet "blog_type"].
Proof.
  intros Hb r. subst r. unfold stored in Hb.
  unfold Routes.publish_post_body.
  destruct (truthy_id post_id); exec; [| left; reflexivity].
  destruct (query_get (the_id post_id) (posts d)); exec.
  - rewrite Hb. right. reflexivity.
  - left. reflexivity.
Qed.

(** C4. With [blog_type] set to 'blogger', publishing a stored post calls
    nothing outside and looks up no credential (the only setting read is
    [blog_type]); the post gets the literal external id 'blogger_post_id',
    status 'published' and the current time as publication date, and the
    answer is the success document.  Both copies of the handler do. *)
Theorem publish_post_blogger_placeholder env now post_id post d :
  truthy_id post_id = true ->
  query_get (the_id post_id) d.(posts) = Some post ->
  stored d "blog_type" = Some "blogger" ->
  published_with_placeholder now (the_id post_id) post d
    (run (Routes.publish_post env now post_id) d) /\
  published_with_placeholder now (the_id post_id) post d
    (run (Main.publish_post env now post_id) d).
Proof.
  intros Hid Hq Hb. split; apply blogger_branch_publishes; assumption.
Qed.

Lemma publish_post_blogger_witness :
  published_with_placeholder 200%Z 1%Z Example.draft Example.blogger_db
    (run (Routes.publish_post Example.rejecting 200%Z (Some 1%Z))
         Example.blogger_db).
Proof.
  apply (publish_post_blogger_placeholder
           Example.rejecting 200%Z (Some 1%Z) Example.draft Example.blogger_db);
    reflexivity.
Defined.

(* ------------------------------------------------------------------ *)
(** ** The OAuth credential manager *)
(* ------------------------------------------------------------------ *)

(** [get_auth_url] leaves the state token of its URL in the store. *)
Lemma get_auth_url_persists_state env d url :
  result_of (run (BloggerAPI.get_auth_url env) d) = Return url ->
  stored (db_of (run (BloggerAPI.get_auth_url env) d)) "blogger_oauth_state"
  = Some (snd (env.(authorization_url)
                 (the_str (stored d "blogger_client_id"))
                 (the_str (stored d "blogger_client_secret")))).
Proof.
  unfold BloggerAPI.get_auth_url. exec.
  destruct (negb (Py.truthy (Setting.lookup "blogger_client_id" None (settings d)))
            || negb (Py.truthy (Setting.lookup "blogger_client_secret" None
                                  (settings d)))); [discriminate |].
  destruct (authorization_url env _ _) as [u st]. exec. intros _.
  cbn [settings with_settings]. unfold Setting.lookup at 1.
  fold (Setting.lookup "blogger_oauth_state" None
          (Setting.upsert "blogger_oauth_state" (Some st) (settings d))).
  apply lookup_upsert.
Qed.

Lemma handle_callback_bad_state env code state d :
  state <> stored d "blogger_oauth_state" ->
  run (BloggerAPI.handle_callback env code state) d =
  (Raise (Exception "Invalid OAuth state"),
   mkWorld d [EvSettingGet "blogger_oauth_state"]).
Proof.
  intros H. apply eqb_opt_false in H. unfold BloggerAPI.handle_callback. exec.
  unfold stored in H. rewrite H. reflexivity.
Qed.

(** C5. Whatever the code and whatever the library would answer for it, a
    state that differs from the stored state token makes [handle_callback]
    raise "Invalid OAuth state"; the run consists of the one read of the
    stored token, so no token exchange is attempted and nothing is
    written. *)
Theorem handle_callback_rejects_wrong_state env code state d :
  state <> stored d "blogger_oauth_state" ->
  let r := run (BloggerAPI.handle_callback env code state) d in
  result_of r = Raise (Exception "Invalid OAuth state") /\
  log_of r = [EvSettingGet "blogger_oauth_state"] /\
  count is_fetch_token (log_of r) = 0%nat /\
  count is_network (log_of r) = 0%nat /\
  db_of r = d.
Proof.
  intros H r. subst r. rewrite (handle_callback_bad_state _ _ _ _ H).
  repeat split.
Qed.

Lemma handle_callback_witness :
  result_of (run (BloggerAPI.handle_callback (Example.accepting 7) "4/0AX4"
                    (Some "wrong-state")) Example.blogger_db)
  = Raise (Exception "Invalid OAuth state") /\
  count is_fetch_token
    (log_of (run (BloggerAPI.handle_callback (Example.accepting 7) "4/0AX4"
                    (Some "wrong-state")) Example.blogger_db)) = 0%nat.
Proof.
  destruct (handle_callback_rejects_wrong_state
              (Example.accepting 7) "4/0AX4" (Some "wrong-state")
              Example.blogger_db) as (Hr & _ & Hc & _).
  - discriminate.
  - split; assumption.
Defined.

Section GetCredentials.
Variable env : Environment.
Variable d : Database.

Lemma get_credentials_none :
  Py.truthy (stored d "blogger_credentials") = false ->
  run (BloggerAPI.get_credentials env) d =
  (Return None, mkWorld d [EvSettingGet "blogger_credentials"]).
Proof.
  intros H. unfold stored in H. unfold BloggerAPI.get_credentials. exec.
  rewrite H. reflexivity.
Qed.

Variable creds_data : CredsData.
Hypothesis Hstored : Py.truthy (stored d "blogger_credentials") = true.
Hypothesis Hloads :
  env.(json_loads) (the_str (stored d "blogger_credentials"))
  = inr creds_data.

Lemma get_credentials_valid :
  env.(expired) (mkCredentials creds_data) = false ->
  run (BloggerAPI.get_credentials env) d =
  (Return (Some (mkCredentials creds_data)),
   mkWorld d [EvSettingGet "blogger_credentials"]).
Proof.
  intros H. unfold stored in *. unfold BloggerAPI.get_credentials. exec.
  rewrite Hstored. cbn [negb]. rewrite Hloads. rewrite H. reflexivity.
Qed.

End GetCredentials.

(** C6. [get_credentials] returns [None] when nothing is stored, and for a
    stored credential that is not reported expired it refreshes nothing and
    writes nothing.  But it never refreshes at all: it rebuilds the
    [Credentials] object from the six stored fields, with no expiry, and
    the library takes such an object as never expiring.  A stored access
    token that has run out ("old"), which the one refresh call would
    replace by "new", comes back as it is, with no refresh call and nothing
    persisted. *)
Theorem get_credentials_returns_stale_token :
  let env := Example.accepting 7 in
  let stale :=
    mkCredentials (mkCreds (Some "old") (Some "1//r") None (Some "cid")
                           (Some "shh") []) in
  let r := run (BloggerAPI.get_credentials env) Example.authorized_db in
  stored Example.authorized_db "blogger_credentials" = Some "old" /\
  env.(json_loads) "old" = inr stale.(creds) /\
  env.(expired) stale = expired_without_expiry stale /\
  (exists fresh,
     env.(refresh) stale = inr fresh /\ fresh.(creds).(token) = Some "new") /\
  result_of r = Return (Some stale) /\
  count is_refresh (log_of r) = 0%nat /\
  db_of r = Example.authorized_db /\
  result_of (run (BloggerAPI.get_credentials env) Example.wordpress_db)
  = Return None.
Proof.
  repeat split. eexists. split; reflexivity.
Qed.

(* ------------------------------------------------------------------ *)
(** ** [str.strip] *)
(* ------------------------------------------------------------------ *)

Lemma lstrip_no_leading s :
  Py.starts_with_space (Py.lstrip_by Py.isspace s) = false.
Proof.
  induction s as [| c r IH]; simpl; [reflexivity |].
  destruct (Py.isspace c) eqn:E; [exact IH | simpl; exact E].
Qed.

Lemma rstrip_no_trailing s :
  Py.ends_with_space (Py.rstrip_by Py.isspace s) = false.
Proof.
  induction s as [| c r IH]; simpl; [reflexivity |].
  destruct (Py.rstrip_by Py.isspace r) as [| c' r'] eqn:E.
  - destruct (Py.isspace c) eqn:Ec; simpl; [reflexivity | exact Ec].
  - exact IH.
Qed.

Lemma rstrip_keeps_head s :
  Py.starts_with_space s = false ->
  Py.starts_with_space (Py.rstrip_by Py.isspace s) = false.
Proof.
  destruct s as [| c r]; simpl; [reflexivity |]. intros Hc.
  destruct (Py.rstrip_by Py.isspace r); [rewrite Hc |]; simpl; exact Hc.
Qed.

(** A stripped string has no whitespace at either end. *)
Lemma strip_no_surrounding_whitespace s :
  Py.surrounding_whitespace (Py.strip s) = false.
Proof.
  unfold Py.surrounding_whitespace, Py.strip.
  rewrite rstrip_no_trailing, rstrip_keeps_head by apply lstrip_no_leading.
  reflexivity.
Qed.

(* ------------------------------------------------------------------ *)
(** ** The tag and category tables *)
(* ------------------------------------------------------------------ *)

Lemma first_by_name_app n rows more :
  Available.first_by_name n (rows ++ more) =
  match Available.first_by_name n rows with
  | Some r => Some r
  | None => Available.first_by_name n more
  end.
Proof.
  unfold Available.first_by_name.
  induction rows as [| r rest IH]; simpl; [reflexivity |].
  destruct (name r =? n); [reflexivity | exact IH].
Qed.

Lemma first_by_name_none n rows :
  Available.first_by_name n rows = None <-> ~ In n (map name rows).
Proof.
  unfold Available.first_by_name. induction rows as [| r rest IH]; simpl.
  - tauto.
  - destruct (String.eqb_spec (name r) n) as [E | E].
    + split; [discriminate | tauto].
    + rewrite IH. tauto.
Qed.

Lemma first_by_name_name n rows r :
  Available.first_by_name n rows = Some r -> r.(name) = n /\ In r rows.
Proof.
  unfold Available.first_by_name. intros H. apply find_some in H.
  destruct H as [Hin H]. apply String.eqb_eq in H. auto.
Qed.

Lemma bump_names n rows : map name (Available.bump n rows) = map name rows.
Proof.
  induction rows as [| r rest IH]; simpl; [reflexivity |].
  destruct (name r =? n); simpl; [reflexivity | rewrite IH; reflexivity].
Qed.

Lemma first_by_name_bump_other m n rows :
  m <> n ->
  Available.first_by_name m (Available.bump n rows)
  = Available.first_by_name m rows.
Proof.
  intros Hmn. unfold Available.first_by_name.
  induction rows as [| r rest IH]; simpl; [reflexivity |].
  destruct (String.eqb_spec (name r) n) as [E | E]; simpl.
  - destruct (String.eqb_spec (name r) m); [congruence | reflexivity].
  - destruct (name r =? m); [reflexivity | exact IH].
Qed.

Lemma count_of_bump_other m n rows :
  m <> n -> Available.count_of m (Available.bump n rows)
            = Available.count_of m rows.
Proof.
  intros H. unfold Available.count_of.
  rewrite first_by_name_bump_other by exact H. reflexivity.
Qed.

Lemma count_of_bump n rows :
  In n (map name rows) ->
  Available.count_of n (Available.bump n rows)
  = (Available.count_of n rows + 1)%Z.
Proof.
  unfold Available.count_of, Available.first_by_name.
  induction rows as [| r rest IH]; simpl; [tauto |].
  destruct (String.eqb_spec (name r) n) as [E | E]; simpl.
  - intros _. rewrite E, String.eqb_refl. reflexivity.
  - destruct (String.eqb_spec (name r) n); [contradiction |].
    intros [H | H]; [contradiction | exact (IH H)].
Qed.

Lemma use_one_known now rows n :
  In n (map name rows) -> Available.use_one now rows n = Available.bump n rows.
Proof.
  intros H. unfold Available.use_one.
  destruct (Available.first_by_name n rows) eqn:E; [reflexivity |].
  apply first_by_name_none in E. contradiction.
Qed.

(** The first use of a name that has no row creates the row and leaves its
    count at the column default: that use is not counted. *)
Lemma use_one_fresh now rows n :
  ~ In n (map name rows) -> Py.strip n = n ->
  Available.count_of n (Available.use_one now rows n) = 0%Z /\
  In n (map name (Available.use_one now rows n)).
Proof.
  intros H Hs. apply first_by_name_none in H.
  unfold Available.use_one, Available.add, Available.count_of.
  rewrite H, Hs, H. cbn [fst]. rewrite first_by_name_app, H.
  unfold Available.first_by_name. cbn [find name]. rewrite String.eqb_refl.
  split; [reflexivity |]. rewrite map_app, in_app_iff. right. left. reflexivity.
Qed.

(** Over names that all have a row already, every occurrence in the list
    adds one: duplicates count independently. *)
Lemma known_names_counted now l : forall rows m,
  (forall n, In n l -> In n (map name rows)) ->
  Available.count_of m (fold_left (Available.use_one now) l rows)
  = (Available.count_of m rows + Z.of_nat (count_occ string_dec l m))%Z.
Proof.
  induction l as [| n l IH]; intros rows m Hl; cbn [fold_left count_occ].
  - lia.
  - assert (Hn : In n (map name rows)) by (apply Hl; left; reflexivity).
    rewrite use_one_known by exact Hn.
    rewrite IH.
    + destruct (string_dec n m) as [-> | Hnm].
      * rewrite count_of_bump by exact Hn. lia.
      * rewrite count_of_bump_other by congruence. lia.
    + intros n' Hn'. rewrite bump_names. apply Hl. right. exact Hn'.
Qed.

(** The names of the rows one turn of the loop leaves: those it found, and
    possibly one more, stripped. *)
Lemma use_one_names now rows n :
  map name (Available.use_one now rows n) = map name rows \/
  map name (Available.use_one now rows n) = map name rows ++ [Py.strip n].
Proof.
  unfold Available.use_one, Available.add.
  destruct (Available.first_by_name n rows).
  - left. apply bump_names.
  - destruct (Available.first_by_name (Py.strip n) rows); cbn [fst].
    + left. reflexivity.
    + right. rewrite map_app. reflexivity.
Qed.

(** [increment_usage] never creates a row whose name begins or ends with
    whitespace. *)
Lemma increment_usage_names_stripped now names rows n :
  In n (map name (Available.increment_usage now names rows)) ->
  In n (map name rows) \/ Py.surrounding_whitespace n = false.
Proof.
  unfold Available.increment_usage.
  destruct names as [s |]; [| auto].
  destruct (negb (Py.truthy_str s)); [auto |].
  generalize (Available.name_list s). intros l. revert rows.
  induction l as [| x l IH]; intros rows; cbn [fold_left]; [auto |].
  intros H. apply IH in H. destruct H as [H | H]; [| auto].
  destruct (use_one_names now rows x) as [E | E]; rewrite E in H; [auto |].
  apply in_app_iff in H. destruct H as [H | [<- | []]]; [auto |].
  right. apply strip_no_surrounding_whitespace.
Qed.

(** The tag string of the specification, on a store that knows both tags:
    [a] gains one use and [b] two. *)
Lemma increment_usage_known_tags now rows :
  In "a" (map name rows) -> In "b" (map name rows) ->
  let rows' := Available.increment_usage now (Some "a, b ,b") rows in
  Available.count_of "a" rows' = (Available.count_of "a" rows + 1)%Z /\
  Available.count_of "b" rows' = (Available.count_of "b" rows + 2)%Z.
Proof.
  intros Ha Hb rows'. subst rows'.
  change (Available.increment_usage now (Some "a, b ,b") rows)
    with (fold_left (Available.use_one now) ["a"; "b"; "b"] rows).
  rewrite !known_names_counted.
  - split; reflexivity.
  - intros n [<- | [<- | [<- | []]]]; assumption.
  - intros n [<- | [<- | [<- | []]]]; assumption.
Qed.

(** C7. On the tag string "a, b ,b" [increment_usage] counts one use of
    [a] and two of [b] only for tags that already have a row (first
    store).  A tag it creates on the way is inserted with count 0 and its
    creating use is not counted: from an empty table [a] ends at 0 and [b]
    at 1, not at 1 and 2.  The names it creates are stripped. *)
Theorem increment_usage_misses_first_use :
  let known :=
    db_of (run (AvailableTag.increment_usage 300%Z (Some "a, b ,b"))
               Example.tagged_db) in
  let fresh :=
    db_of (run (AvailableTag.increment_usage 300%Z (Some "a, b ,b"))
               Example.wordpress_db) in
  map available_view Example.tagged_db.(available_tags)
    = [("a", Some "first letter", 4%Z); ("b", None, 0%Z)] /\
  map available_view known.(available_tags)
    = [("a", Some "first letter", 5%Z); ("b", None, 2%Z)] /\
  Example.wordpress_db.(available_tags) = [] /\
  map available_view fresh.(available_tags)
    = [("a", Some "", 0%Z); ("b", Some "", 1%Z)].
Proof. repeat split. Qed.

(* ------------------------------------------------------------------ *)
(** ** The [unique] constraint on names *)
(* ------------------------------------------------------------------ *)

Lemma NoDup_snoc {A} (l : list A) x : NoDup l -> ~ In x l -> NoDup (l ++ [x]).
Proof.
  induction l as [| a l IH]; simpl; intros Hl Hx.
  - constructor; [tauto | constructor].
  - apply NoDup_cons_iff in Hl. destruct Hl as [Ha Hl].
    constructor.
    + rewrite in_app_iff. simpl. intuition congruence.
    + apply IH; tauto.
Qed.

(** The methods never insert a name twice: a table with distinct names
    keeps them distinct through [increment_usage]. *)
Lemma increment_usage_keeps_names_distinct now names rows :
  NoDup (map name rows) ->
  NoDup (map name (Available.increment_usage now names rows)).
Proof.
  unfold Available.increment_usage.
  destruct names as [s |]; [| auto].
  destruct (negb (Py.truthy_str s)); [auto |].
  generalize (Available.name_list s). intros l. revert rows.
  induction l as [| x l IH]; intros rows Hnd; cbn [fold_left]; [exact Hnd |].
  apply IH. unfold Available.use_one, Available.add.
  destruct (Available.first_by_name x rows).
  - rewrite bump_names. exact Hnd.
  - destruct (Available.first_by_name (Py.strip x) rows) eqn:E; cbn [fst].
    + exact Hnd.
    + rewrite map_app. apply NoDup_snoc; [exact Hnd |].
      apply first_by_name_none. exact E.
Qed.

(* ------------------------------------------------------------------ *)
(** ** The Blogger adapter *)
(* ------------------------------------------------------------------ *)

(** The body [publish_to_blogger] hands to [posts().insert]: title and
    content, and the labels when the tag string is non-empty. *)
Lemma publish_to_blogger_sends env post credentials d :
  filter is_network
    (log_of (run (BlogAPI.publish_to_blogger env post credentials) d))
  = [EvPostsInsert (stored d "blogger_blog_id")
       ([("title", FStr post.(title)); ("content", FStr post.(content))]
        ++ if Py.truthy post.(tags)
           then [("labels", FList (split_strip (the_str post.(tags))))]
           else [])].
Proof.
  unfold BlogAPI.publish_to_blogger, publish_to_blogger_body. exec.
  destruct (Py.truthy (tags post)); cbn [dict_set String.eqb Ascii.eqb Bool.eqb app];
    match goal with
    | |- context [posts_insert env ?b ?p ?c] =>
        destruct (posts_insert env b p c) as [e | result]
    end;
    try (destruct e); try (unfold item_id; destruct (dict_get "id" result));
    reflexivity.
Qed.

(** Neither the categories of the post nor a [categories] key reach the
    platform. *)
Lemma publish_to_blogger_ignores_categories env post credentials d cats :
  let post' :=
    mkPost post.(id) post.(title) post.(content) post.(status)
           post.(created_date) post.(published_date) post.(blog_target)
           post.(external_id) post.(tags) cats in
  filter is_network
    (log_of (run (BlogAPI.publish_to_blogger env post' credentials) d))
  = filter is_network
      (log_of (run (BlogAPI.publish_to_blogger env post credentials) d)) /\
  forall blog_id body,
    In (EvPostsInsert blog_id body)
       (log_of (run (BlogAPI.publish_to_blogger env post credentials) d)) ->
    dict_get "categories" body = None.
Proof.
  intros post'. split.
  - rewrite !publish_to_blogger_sends. reflexivity.
  - intros blog_id body Hin.
    assert (H : In (EvPostsInsert blog_id body)
                  (filter is_network
                     (log_of (run (BlogAPI.publish_to_blogger env post
                                     credentials) d)))).
    { apply filter_In. split; [exact Hin | reflexivity]. }
    rewrite publish_to_blogger_sends in H.
    destruct H as [H | []]. injection H as _ <-.
    destruct (Py.truthy (tags post)); reflexivity.
Qed.

(** The labels are the trimmed entries, the empty ones among them; the
    list without the empty ones is the one [increment_usage] works on. *)
Lemma name_list_drops_empty s :
  Available.name_list s = filter Py.truthy_str (split_strip s).
Proof. reflexivity. Qed.

(** C8. [publish_to_blogger] sends title, content and, as labels, the
    comma-separated entries of the tag string, each trimmed, and no
    categories; but it keeps the entries that are empty after trimming.
    For the tags "a,,b " the labels sent are "a", "" and "b", where
    dropping the empty entries would give "a" and "b". *)
Theorem publish_to_blogger_keeps_empty_labels :
  forall credentials,
    log_of (run (BlogAPI.publish_to_blogger (Example.accepting 7)
                   Example.gappy credentials) Example.blogger_db)
    = [EvSettingGet "blogger_blog_id";
       EvPostsInsert (Some "42")
         [("title", FStr "Gaps"); ("content", FStr "<p>third</p>");
          ("labels", FList ["a"; ""; "b"])]] /\
    log_of (run (Main.BlogAPI.publish_to_blogger (Example.accepting 7)
                   Example.gappy credentials) Example.blogger_db)
    = log_of (run (BlogAPI.publish_to_blogger (Example.accepting 7)
                     Example.gappy credentials) Example.blogger_db) /\
    Available.name_list "a,,b " = ["a"; "b"].
Proof. intros credentials. repeat split. Qed.

(* ------------------------------------------------------------------ *)
(** ** Python dicts *)
(* ------------------------------------------------------------------ *)

Lemma dict_keys_set {V} k (v : V) d k' :
  In k' (dict_keys (dict_set k v d)) <-> k' = k \/ In k' (dict_keys d).
Proof.
  unfold dict_keys. induction d as [| [k0 v0] r IH]; simpl.
  - split; intros [H | H]; auto.
  - destruct (String.eqb_spec k0 k) as [-> | E]; simpl.
    + intuition (subst; auto).
    + rewrite IH. intuition (subst; auto).
Qed.

(* ------------------------------------------------------------------ *)
(** ** The settings of a backup *)
(* ------------------------------------------------------------------ *)

Lemma dump_settings_fold rows : forall acc k,
  In k (dict_keys
          (fold_left
             (fun acc setting =>
                if Utils.exportable setting.(key)
                then dict_set setting.(key) setting.(value) acc
                else acc) rows acc)) <->
  In k (dict_keys acc) \/ (In k (map key rows) /\ Utils.exportable k = true).
Proof.
  induction rows as [| r rest IH]; intros acc k; cbn [fold_left map].
  - simpl. tauto.
  - rewrite IH. destruct (Utils.exportable (key r)) eqn:E.
    + rewrite dict_keys_set. simpl. split.
      * intros [[-> | H] | [H1 H2]]; auto.
      * intros [H | [[<- | H1] H2]]; auto.
    + simpl. split.
      * intros [H | [H1 H2]]; auto.
      * intros [H | [[<- | H1] H2]]; auto. congruence.
Qed.

(** The exported keys are the stored keys that pass the suffix test. *)
Lemma dump_settings_keys rows k :
  In k (dict_keys (Utils.dump_settings rows)) <->
  In k (map key rows) /\ Utils.exportable k = true.
Proof.
  unfold Utils.dump_settings. rewrite dump_settings_fold. simpl. tauto.
Qed.

(** No exported key ends in [_password] or [_secret]. *)
Lemma backup_has_no_secret_suffix d k :
  In k (dict_keys (Utils.backup_database d).(b_settings)) ->
  Py.endswith k "_password" = false /\ Py.endswith k "_secret" = false.
Proof.
  cbn [Utils.backup_database b_settings]. rewrite dump_settings_keys.
  unfold Utils.exportable. intros [_ H]. apply andb_true_iff in H.
  rewrite !negb_true_iff in H. exact H.
Qed.

Lemma upsert_has_key k v rows : In k (map key (Setting.upsert k v rows)).
Proof.
  induction rows as [| r rest IH]; simpl; [auto |].
  destruct (String.eqb_spec (key r) k); simpl; auto.
Qed.

Lemma handle_callback_good_state env code state d credentials :
  state = stored d "blogger_oauth_state" ->
  env.(fetch_token) (stored d "blogger_client_id")
      (stored d "blogger_client_secret") code = inr credentials ->
  run (BloggerAPI.handle_callback env code state) d =
  (Return true,
   mkWorld (with_settings
              (Setting.upsert "blogger_credentials"
                 (Some (env.(json_dumps) credentials.(creds))) d.(settings)) d)
           [EvSettingGet "blogger_oauth_state";
            EvSettingGet "blogger_client_id";
            EvSettingGet "blogger_client_secret";
            EvFetchToken code;
            EvSettingSet "blogger_credentials"
              (Some (env.(json_dumps) credentials.(creds)))]).
Proof.
  intros Hs Hf. apply eqb_opt_true in Hs. unfold stored in *.
  unfold BloggerAPI.handle_callback. exec. rewrite Hs. exec.
  rewrite Hf. reflexivity.
Qed.

(** Once a callback has gone through, every later backup carries the key
    [blogger_credentials]. *)
Lemma backup_exports_credentials_key env code state d credentials :
  state = stored d "blogger_oauth_state" ->
  env.(fetch_token) (stored d "blogger_client_id")
      (stored d "blogger_client_secret") code = inr credentials ->
  In "blogger_credentials"
     (dict_keys
        (Utils.backup_database
           (db_of (run (BloggerAPI.handle_callback env code state) d)))
        .(b_settings)).
Proof.
  intros Hs Hf. rewrite (handle_callback_good_state _ _ _ _ _ Hs Hf).
  unfold db_of. cbn [snd db Utils.backup_database b_settings settings
                     with_settings].
  apply dump_settings_keys. split; [apply upsert_has_key | reflexivity].
Qed.

(** C9. The settings of a backup leave out the keys ending in [_password]
    and [_secret], and nothing else: the credential blob that
    [handle_callback] stores under [blogger_credentials] is exported as it
    is, and so is the pending state token. *)
Theorem backup_exports_credential_blob :
  let authorized :=
    db_of (run (BloggerAPI.handle_callback (Example.accepting 7) "4/0AX4"
                  (Some "s3")) Example.blogger_db) in
  let blob :=
    (Example.accepting 7).(json_dumps)
      (mkCreds (Some "ya29.a") (Some "1//r") None (Some "cid") (Some "shh") []) in
  stored authorized "blogger_credentials" = Some blob /\
  (Utils.backup_database authorized).(b_settings)
  = [("blog_type", Some "blogger"); ("blogger_blog_id", Some "42");
     ("blogger_client_id", Some "cid"); ("blogger_oauth_state", Some "s3");
     ("blogger_credentials", Some blob)] /\
  stored authorized "blogger_client_secret" = Some "shh" /\
  dict_get "blogger_client_secret" (Utils.backup_database authorized).(b_settings)
  = None.
Proof. repeat split. Qed.

(* ------------------------------------------------------------------ *)
(** ** Restoring a backup *)
(* ------------------------------------------------------------------ *)

Lemma dump_view_available r :
  dump_view (Utils.dump_available r) = available_view r.
Proof. reflexivity. Qed.



(** The post loop appends one row per exported post, carrying over
    everything but the id and the two dates. *)
Lemma restore_posts_appends now l : forall rows n,
  exists copies,
    fold_left (Utils.restore_post now) l (rows, n)
    = (rows ++ copies, (n + Z.of_nat (length l))%Z) /\
    map restored_view copies
    = map (fun x => restored_view
                      (insert_post now x.(pd_title) x.(pd_content)
                         x.(pd_status) x.(pd_blog_target) x.(pd_external_id)
                         x.(pd_tags) x.(pd_categories) [])) l /\
    Forall (fun p => p.(published_date) = None) copies.
Proof.
  induction l as [| x l IH]; intros rows n; cbn [fold_left].
  - exists []. rewrite app_nil_r. cbn [length map]. repeat split.
    + f_equal. lia.
    + constructor.
  - change (Utils.restore_post now (rows, n) x)
      with (rows ++ [insert_post now x.(pd_title) x.(pd_content)
                       x.(pd_status) x.(pd_blog_target) x.(pd_external_id)
                       x.(pd_tags) x.(pd_categories) rows], (n + 1)%Z).
    match goal with
    | |- context [fold_left _ l (?rows', ?n')] =>
        destruct (IH rows' n') as (copies & H1 & H2 & H3)
    end.
    eexists (_ :: copies). rewrite H1. split; [| split].
    + rewrite <- app_assoc. cbn [app length]. f_equal. lia.
    + cbn [map]. rewrite H2. reflexivity.
    + constructor; [reflexivity | exact H3].
Qed.

(** The settings loop writes settings only. *)
Lemma restore_settings_keeps_content l : forall w,
  exists n w',
    Utils.restore_settings l w = (Return n, w') /\
    (db w').(available_tags) = (db w).(available_tags) /\
    (db w').(available_categories) = (db w).(available_categories) /\
    (db w').(posts) = (db w).(posts).
Proof.
  induction l as [| [k v] l IH]; intros w; cbn [Utils.restore_settings].
  - exists 0%Z, w. repeat split.
  - exec.
    match goal with
    | |- context [Utils.restore_settings l ?w1] =>
        destruct (IH w1) as (n & w' & E & Ht & Hc & Hp)
    end.
    rewrite E. exists (1 + n)%Z, w'. repeat split; assumption.
Qed.

(** A restore, table by table. *)
Lemma restore_database_tables now data d :
  let r := run (Utils.restore_database now data) d in
  let t := Utils.restore_available now data.(b_tags) d.(available_tags) in
  let c := Utils.restore_available now data.(b_categories)
                                   d.(available_categories) in
  let p := Utils.restore_posts now data.(b_posts) d.(posts) in
  (db_of r).(available_tags) = fst t /\
  (db_of r).(available_categories) = fst c /\
  (db_of r).(posts) = fst p /\
  exists n, result_of r = Return (mkResults (snd p) (snd t) (snd c) n).
Proof.
  intros r t c p. subst r t c p. unfold Utils.restore_database. exec.
  destruct (Utils.restore_available now (b_tags data) (available_tags d))
    as [tag_rows n_tags].
  exec. cbn [available_categories with_tags].
  destruct (Utils.restore_available now (b_categories data)
              (available_categories d)) as [category_rows n_categories].
  exec. cbn [posts with_tags with_categories].
  destruct (Utils.restore_posts now (b_posts data) (posts d))
    as [post_rows n_posts].
  exec.
  match goal with
  | |- context [Utils.restore_settings ?l ?w1] =>
      destruct (restore_settings_keeps_content l w1)
        as (n & w' & E & Ht & Hc & Hp)
  end.
  rewrite E. cbn [fst snd]. rewrite Ht, Hc, Hp.
  repeat split. exists n. reflexivity.
Qed.





(* ------------------------------------------------------------------ *)
(** ** Who writes [external_id] and [published_date] *)
(* ------------------------------------------------------------------ *)

Lemma store_post_In p rows q :
  In q (store_post p rows) -> q = p \/ In q rows.
Proof.
  induction rows as [| r rest IH]; simpl; [tauto |].
  destruct (id r =? id p)%Z; simpl.
  - intros [<- | H]; auto.
  - intros [<- | H]; auto. destruct (IH H); auto.
Qed.

Lemma delete_row_In i rows q : In q (delete_row i rows) -> In q rows.
Proof.
  induction rows as [| r rest IH]; simpl; [tauto |].
  destruct (id r =? i)%Z; simpl; [auto |].
  intros [<- | H]; auto.
Qed.

Lemma delete_row_keeps_others i rows q :
  In q rows -> q.(id) <> i -> In q (delete_row i rows).
Proof.
  induction rows as [| r rest IH]; simpl; [tauto |].
  intros [<- | H] Hq.
  - destruct (Z.eqb_spec (id r) i); [contradiction | left; reflexivity].
  - destruct (id r =? i)%Z; [exact H | right; exact (IH H Hq)].
Qed.

(** Writing back a post whose id and publication fields are those of the
    stored row leaves the table of publication fields as it is. *)
Lemma store_post_publication_table p rows q :
  query_get p.(id) rows = Some q ->
  publication q = publication p ->
  publication_table (store_post p rows) = publication_table rows.
Proof.
  unfold query_get, publication_table.
  induction rows as [| r rest IH]; simpl; [reflexivity |].
  destruct (Z.eqb_spec (id r) (id p)) as [E | E]; simpl.
  - intros H Hp. injection H as ->. rewrite E, Hp. reflexivity.
  - intros H Hp. rewrite (IH H Hp). reflexivity.
Qed.

(** The WordPress adapter writes nothing. *)
Lemma wordpress_body_keeps_db env tmo post w :
  db (snd (publish_to_wordpress_body env tmo post w)) = db w.
Proof.
  unfold publish_to_wordpress_body. exec.
  destruct (forallb Py.truthy _); cbn [negb]; [| reflexivity].
  exec.
  match goal with
  | |- context [requests_post env ?r] =>
      destruct (requests_post env r) as [e | response]
  end; [reflexivity |].
  destruct (status_code response =? 201)%Z; [| reflexivity].
  exec. destruct (json_body response) as [e | body]; [reflexivity |].
  unfold item_id. destruct (dict_get "id" body); reflexivity.
Qed.

(** What the handler stores of a post it has published. *)
Lemma mark_published_copy now post ext :
  published_copy now ext post (Routes.mark_published now post ext).
Proof. repeat split. Qed.

Lemma published_outcome_of now post_id d post ext :
  query_get (the_id post_id) d.(posts) = Some post ->
  exists post0 ext0 post',
    query_get (the_id post_id) d.(posts) = Some post0 /\
    published_copy now ext0 post0 post' /\
    store_post (Routes.mark_published now post ext) d.(posts)
    = store_post post' d.(posts) /\
    query_get (the_id post_id)
      (store_post (Routes.mark_published now post ext) d.(posts))
    = Some post' /\
    (forall q,
       In q (store_post (Routes.mark_published now post ext) d.(posts)) ->
       q = post' \/ In q d.(posts)).
Proof.
  intros Hq. exists post, ext, (Routes.mark_published now post ext).
  split; [exact Hq |]. split; [apply mark_published_copy |].
  split; [reflexivity |]. split.
  - pose proof (query_get_id _ _ _ Hq) as Hi. rewrite <- Hi in Hq |- *.
    exact (query_get_store_post (Routes.mark_published now post ext) _ _ Hq).
  - intros q. apply store_post_In.
Qed.

(** The handler, over any adapter that writes nothing. *)
Lemma publish_post_body_outcome (wordpress : Post -> M scalar) now post_id d :
  (forall post w, db (snd (wordpress post w)) = db w) ->
  publish_outcome now post_id d
    (run (Routes.publish_post_body wordpress now post_id) d).
Proof.
  intros Hw. unfold publish_outcome, Routes.publish_post_body.
  destruct (truthy_id post_id); exec;
    [| eexists; split; [reflexivity | reflexivity]].
  destruct (query_get (the_id post_id) (posts d)) as [post |] eqn:Hq; exec;
    [| eexists; split; [reflexivity | reflexivity]].
  destruct (Py.eqb_opt (Setting.lookup "blog_type" None (settings d))
                       (Some "blogger")).
  { eexists. split; [reflexivity |]. cbn [is_success snd db posts with_posts].
    destruct (published_outcome_of now post_id d post (SStr "blogger_post_id")
                Hq) as (post0 & ext0 & post' & H0 & Hrest).
    exists post0, ext0, post'. split; [congruence | exact Hrest]. }
  destruct (Py.eqb_opt (Setting.lookup "blog_type" None (settings d))
                       (Some "wordpress"));
    [| eexists; split; [reflexivity | reflexivity]].
  match goal with
  | |- context [wordpress post ?w0] =>
      pose proof (Hw post w0) as Hdb;
      destruct (wordpress post w0) as [[ext | e] w']
  end; cbn [snd db] in Hdb.
  - eexists. split; [reflexivity |]. cbn [is_success snd db posts with_posts].
    rewrite Hdb.
    destruct (published_outcome_of now post_id d post ext Hq)
      as (post0 & ext0 & post' & H0 & Hrest).
    exists post0, ext0, post'. split; [congruence | exact Hrest].
  - eexists. split; [reflexivity |]. cbn [is_success snd]. exact Hdb.
Qed.

Lemma save_post_publication now data d :
  save_keeps_publication d.(posts)
    (db_of (run (Routes.save_post now data) d)).(posts).
Proof.
  unfold Routes.save_post, save_keeps_publication. exec.
  destruct (truthy_id (sd_id data)); exec.
  - destruct (sd_title data) as [t |]; cbn [item]; exec; [| left; reflexivity].
    destruct (query_get (the_id (sd_id data)) (posts d)) as [post |] eqn:Hq;
      exec; [| left; reflexivity].
    destruct (sd_content data) as [c |]; cbn [item]; exec;
      [| left; reflexivity].
    unfold AvailableTag.increment_usage, AvailableCategory.increment_usage.
    exec. cbn [posts with_posts with_tags with_categories].
    left. pose proof (query_get_id _ _ _ Hq) as Hi. rewrite <- Hi in Hq.
    match goal with
    | |- publication_table (store_post ?p _) = _ =>
        exact (store_post_publication_table p _ post Hq eq_refl)
    end.
  - destruct (sd_title data) as [t |]; cbn [item]; exec; [| left; reflexivity].
    destruct (sd_content data) as [c |]; cbn [item]; exec;
      [| left; reflexivity].
    unfold AvailableTag.increment_usage, AvailableCategory.increment_usage.
    exec. cbn [posts with_posts with_tags with_categories].
    right. exists (next_id (map id (posts d))). split.
    + intros H. unfold next_id in H.
      assert (Hle : forall ids x, In x ids -> (x <= fold_right Z.max 0 ids)%Z).
      { intros ids. induction ids as [| a ids IH]; simpl; [tauto |].
        intros x [<- | Hx]; [lia |]. specialize (IH x Hx). lia. }
      apply Hle in H. lia.
    + unfold publication_table. rewrite map_app. reflexivity.
Qed.

Lemma delete_post_keeps_posts post_id d :
  delete_keeps_posts post_id d.(posts)
    (db_of (run (Routes.delete_post post_id) d)).(posts).
Proof.
  unfold Routes.delete_post, delete_keeps_posts. exec.
  destruct (query_get post_id (posts d)) as [found |]; exec;
    cbn [posts with_posts]; [| split; auto].
  split.
  - intros q. apply delete_row_In.
  - intros q. apply delete_row_keeps_others.
Qed.

Lemma restore_database_appends now data d :
  exists copies,
    (db_of (run (Utils.restore_database now data) d)).(posts)
    = d.(posts) ++ copies.
Proof.
  destruct (restore_database_tables now data d) as (_ & _ & P & _).
  destruct (restore_posts_appends now (b_posts data) d.(posts) 0%Z)
    as (copies & E & _).
  exists copies. rewrite P. unfold Utils.restore_posts. rewrite E. reflexivity.
Qed.

(** C1, as the code has it.  A publish request is always answered.  When
    the answer is a success, the addressed post is stored with
    [external_id] and [published_date] both set and status 'published',
    its other fields as they were, and every other post is a post of
    before (and this happens on every successful publish, also of a post
    published before); when the answer is a failure the database is as it
    was.  Saving leaves the id, [external_id] and [published_date] of every
    stored post as they were, and a post it creates has neither field.
    Deleting leaves the remaining posts unaltered and removes none but the
    addressed one.  Restoring a backup leaves the posts already stored as
    they were and appends to them. *)
Theorem publication_fields_written_by_publish env now d :
  (forall post_id,
     publish_outcome now post_id d
       (run (Routes.publish_post env now post_id) d) /\
     publish_outcome now post_id d
       (run (Main.publish_post env now post_id) d)) /\
  (forall data,
     save_keeps_publication d.(posts)
       (db_of (run (Routes.save_post now data) d)).(posts)) /\
  (forall post_id,
     delete_keeps_posts post_id d.(posts)
       (db_of (run (Routes.delete_post post_id) d)).(posts)) /\
  (forall data,
     exists copies,
       (db_of (run (Utils.restore_database now data) d)).(posts)
       = d.(posts) ++ copies).
Proof.
  split; [| split; [| split]].
  - intros post_id. split; apply publish_post_body_outcome; intros post w;
      apply wordpress_body_keeps_db.
  - intros data. apply save_post_publication.
  - intros post_id. apply delete_post_keeps_posts.
  - intros data. apply restore_database_appends.
Qed.

Lemma publication_fields_witness :
  let r := run (Routes.publish_post (Example.accepting 7) 200%Z (Some 1%Z))
               Example.wordpress_db in
  exists post',
    query_get 1 (db_of r).(posts) = Some post' /\
    post'.(published_date) = Some 200%Z /\
    post'.(status) = Some "published" /\
    post'.(external_id) = Some "7" /\
    post'.(title) = "Hello" /\
    (forall q, In q (db_of r).(posts) ->
               q = post' \/ In q Example.wordpress_db.(posts)).
Proof.
  destruct (publication_fields_written_by_publish
              (Example.accepting 7) 200%Z Example.wordpress_db) as (Hp & _).
  destruct (Hp (Some 1%Z)) as [(response & Hr & Hout) _].
  cbv in Hr. injection Hr as <-. cbn [is_success] in Hout.
  destruct Hout as (post & ext & post' & Hq & Hc & _ & Hq' & Hrest).
  destruct Hc as (_ & Hd & Hst & _ & Ht & _).
  exists post'. split; [exact Hq' |]. split; [exact Hd |].
  split; [exact Hst |]. split; [| split; [| exact Hrest]].
  - clear - Hq'. vm_compute in Hq'. injection Hq' as <-. reflexivity.
  - rewrite Ht. clear - Hq. vm_compute in Hq. injection Hq as <-. reflexivity.
Defined.

Lemma publication_table_paired before after :
  publication_table after = publication_table before ->
  Forall paired before -> Forall paired after.
Proof.
  unfold publication_table. revert before.
  induction after as [| a after IH]; intros [| b before] E H;
    try discriminate; [constructor |].
  simpl in E. injection E as _ Ee Ed E. inversion H as [| ? ? Hb Hrest]; subst.
  constructor; [| exact (IH before E Hrest)].
  unfold paired in *. rewrite Ee, Ed. exact Hb.
Qed.

(** Saving and deleting keep the two fields paired wherever they were. *)
Lemma save_and_delete_keep_pairs now d :
  Forall paired d.(posts) ->
  (forall data,
     Forall paired (db_of (run (Routes.save_post now data) d)).(posts)) /\
  (forall post_id,
     Forall paired (db_of (run (Routes.delete_post post_id) d)).(posts)).
Proof.
  intros H. split; intros x.
  - destruct (save_post_publication now x d) as [E | (i & _ & E)].
    + exact (publication_table_paired _ _ E H).
    + assert (Hn : Forall paired
                     (d.(posts) ++ [mkPost i "" "" None 0%Z None None None
                                           None None])).
      { apply Forall_app. split; [exact H |].
        constructor; [| constructor]. unfold paired. simpl. tauto. }
      refine (publication_table_paired _ _ _ Hn).
      rewrite E. unfold publication_table. rewrite map_app. reflexivity.
  - destruct (delete_post_keeps_posts x d) as (Hin & _).
    rewrite Forall_forall in *. intros q Hq. exact (H q (Hin q Hq)).
Qed.

(** C1 as stated fails twice.  A post published once (id 7, at time 200)
    and published again gets both fields set a second time (id 8, at time
    250).  And a backup of the published post, restored into an empty
    store, yields a post with its external id and no publication date. *)
Lemma publication_fields_set_twice_and_apart :
  let d1 := db_of (run (Routes.publish_post (Example.accepting 7) 200%Z
                          (Some 1%Z)) Example.wordpress_db) in
  let d2 := db_of (run (Routes.publish_post (Example.accepting 8) 250%Z
                          (Some 1%Z)) d1) in
  let d3 := db_of (run (Utils.restore_database 400%Z (Utils.backup_database d1))
                       empty_db) in
  map publication Example.wordpress_db.(posts) = [(None, None)] /\
  map publication d1.(posts) = [(Some "7", Some 200%Z)] /\
  map publication d2.(posts) = [(Some "8", Some 250%Z)] /\
  map publication d3.(posts) = [(Some "7", None)].
Proof. repeat split. Qed.

(* ================================================================== *)
(** * Further properties of the code *)
(* ================================================================== *)

(* ------------------------------------------------------------------ *)
(** ** The settings store *)
(* ------------------------------------------------------------------ *)

Lemma upsert_key_in k v rows x :
  In x (map key (Setting.upsert k v rows)) -> x = k \/ In x (map key rows).
Proof.
  induction rows as [| r rest IH]; simpl.
  - intros [<- | []]. auto.
  - destruct (String.eqb_spec (key r) k) as [E | E]; simpl.
    + intros [<- | H]; auto.
    + intros [<- | H]; auto. destruct (IH H); auto.
Qed.

Lemma upsert_keeps_keys_distinct k v rows :
  NoDup (map key rows) -> NoDup (map key (Setting.upsert k v rows)).
Proof.
  induction rows as [| r rest IH]; simpl; intros Hnd.
  - constructor; [tauto | constructor].
  - apply NoDup_cons_iff in Hnd. destruct Hnd as [Hr Hnd].
    destruct (String.eqb_spec (key r) k) as [E | E]; simpl.
    + constructor; assumption.
    + constructor; [| exact (IH Hnd)].
      intros H. apply upsert_key_in in H. destruct H; [congruence | tauto].
Qed.

(** X1. [Setting.set] followed by [Setting.get] of the same key returns the
    value just written; every other key reads as before, the keys stay
    distinct, and no other table is touched. *)
Theorem setting_set_then_get k v k' d :
  k' <> k ->
  NoDup (map key d.(settings)) ->
  let r := run (Setting.set k v ;;; Setting.get k None) d in
  result_of r = Return v /\
  stored (db_of r) k' = stored d k' /\
  NoDup (map key (db_of r).(settings)) /\
  (db_of r).(posts) = d.(posts) /\
  (db_of r).(available_tags) = d.(available_tags) /\
  (db_of r).(available_categories) = d.(available_categories).
Proof.
  intros Hk Hnd r. subst r. exec. cbn [settings with_settings posts
    available_tags available_categories].
  rewrite lookup_upsert, lookup_upsert_other by exact Hk.
  repeat split. apply upsert_keeps_keys_distinct. exact Hnd.
Qed.

Lemma setting_set_then_get_witness :
  result_of (run (Setting.set "wordpress_url" (Some "https://new.example")
                  ;;; Setting.get "wordpress_url" None) Example.wordpress_db)
  = Return (Some "https://new.example") /\
  stored (db_of (run (Setting.set "wordpress_url" (Some "https://new.example")
                      ;;; Setting.get "wordpress_url" None)
                     Example.wordpress_db)) "wordpress_username"
  = Some "carolyn".
Proof.
  destruct (setting_set_then_get "wordpress_url" (Some "https://new.example")
              "wordpress_username" Example.wordpress_db) as (H1 & H2 & _).
  - discriminate.
  - repeat constructor; simpl; intuition discriminate.
  - split; [exact H1 | exact H2].
Defined.

(* ------------------------------------------------------------------ *)
(** ** The authorization flow *)
(* ------------------------------------------------------------------ *)

Lemma get_auth_url_configured env d :
  Py.truthy (stored d "blogger_client_id") = true ->
  Py.truthy (stored d "blogger_client_secret") = true ->
  let answer :=
    env.(authorization_url) (the_str (stored d "blogger_client_id"))
                            (the_str (stored d "blogger_client_secret")) in
  run (BloggerAPI.get_auth_url env) d =
  (Return (fst answer),
   mkWorld (with_settings
              (Setting.upsert "blogger_oauth_state" (Some (snd answer))
                              d.(settings)) d)
           [EvSettingGet "blogger_client_id";
            EvSettingGet "blogger_client_secret";
            EvSettingSet "blogger_oauth_state" (Some (snd answer))]).
Proof.
  intros Hi Hs answer. subst answer. unfold stored in *.
  unfold BloggerAPI.get_auth_url. exec. rewrite Hi, Hs. cbn [negb orb].
  destruct (authorization_url env _ _) as [u st]. reflexivity.
Qed.

(** X2. Without a client id or without a client secret (missing or empty)
    [get_auth_url] raises "Blogger OAuth credentials not configured"; it
    asks the library for nothing and leaves a pending state token as it
    is. *)
Theorem get_auth_url_requires_client env d :
  Py.truthy (stored d "blogger_client_id") = false \/
  Py.truthy (stored d "blogger_client_secret") = false ->
  let r := run (BloggerAPI.get_auth_url env) d in
  result_of r = Raise (Exception "Blogger OAuth credentials not configured") /\
  log_of r = [EvSettingGet "blogger_client_id";
              EvSettingGet "blogger_client_secret"] /\
  db_of r = d.
Proof.
  intros H r. subst r. unfold stored in H.
  unfold BloggerAPI.get_auth_url. exec.
  assert (E : negb (Py.truthy (Setting.lookup "blogger_client_id" None
                                 (settings d)))
              || negb (Py.truthy (Setting.lookup "blogger_client_secret" None
                                    (settings d))) = true).
  { destruct H as [H | H]; rewrite H; cbn [negb orb];
      [reflexivity | apply orb_true_r]. }
  rewrite E. repeat split.
Qed.

Lemma get_auth_url_requires_client_witness :
  result_of (run (BloggerAPI.get_auth_url (Example.accepting 7))
                 Sample.no_secret_db)
  = Raise (Exception "Blogger OAuth credentials not configured") /\
  stored (db_of (run (BloggerAPI.get_auth_url (Example.accepting 7))
                     Sample.no_secret_db)) "blogger_oauth_state"
  = Some "pending".
Proof.
  destruct (get_auth_url_requires_client (Example.accepting 7)
              Sample.no_secret_db (or_intror eq_refl)) as (H1 & _ & H3).
  split; [exact H1 | rewrite H3; reflexivity].
Defined.

(** X3. Only one authorization may be pending: a second [get_auth_url]
    replaces the state token of the first, and a callback that answers the
    first authorization is then refused without any token exchange. *)
Theorem get_auth_url_supersedes_pending_state env1 env2 env code d :
  Py.truthy (stored d "blogger_client_id") = true ->
  Py.truthy (stored d "blogger_client_secret") = true ->
  let state_of e :=
    snd (e.(authorization_url) (the_str (stored d "blogger_client_id"))
                               (the_str (stored d "blogger_client_secret"))) in
  state_of env1 <> state_of env2 ->
  let d1 := db_of (run (BloggerAPI.get_auth_url env1) d) in
  let d2 := db_of (run (BloggerAPI.get_auth_url env2) d1) in
  let r := run (BloggerAPI.handle_callback env code (Some (state_of env1))) d2 in
  stored d1 "blogger_oauth_state" = Some (state_of env1) /\
  stored d2 "blogger_oauth_state" = Some (state_of env2) /\
  result_of r = Raise (Exception "Invalid OAuth state") /\
  count is_fetch_token (log_of r) = 0%nat.
Proof.
  intros Hi Hs state_of Hne d1 d2 r.
  assert (E1 : d1 = with_settings
                      (Setting.upsert "blogger_oauth_state"
                         (Some (state_of env1)) d.(settings)) d).
  { subst d1. rewrite (get_auth_url_configured env1 d Hi Hs). reflexivity. }
  assert (Hi1 : stored d1 "blogger_client_id" = stored d "blogger_client_id").
  { rewrite E1. unfold stored. cbn [settings with_settings].
    apply lookup_upsert_other. discriminate. }
  assert (Hs1 : stored d1 "blogger_client_secret"
                = stored d "blogger_client_secret").
  { rewrite E1. unfold stored. cbn [settings with_settings].
    apply lookup_upsert_other. discriminate. }
  assert (E2 : d2 = with_settings
                      (Setting.upsert "blogger_oauth_state"
                         (Some (state_of env2)) d1.(settings)) d1).
  { subst d2. rewrite (get_auth_url_configured env2 d1).
    - cbv zeta. rewrite Hi1, Hs1. reflexivity.
    - rewrite Hi1. exact Hi.
    - rewrite Hs1. exact Hs. }
  assert (S1 : stored d1 "blogger_oauth_state" = Some (state_of env1)).
  { rewrite E1. unfold stored. cbn [settings with_settings].
    apply lookup_upsert. }
  assert (S2 : stored d2 "blogger_oauth_state" = Some (state_of env2)).
  { rewrite E2. unfold stored. cbn [settings with_settings].
    apply lookup_upsert. }
  split; [exact S1 | split; [exact S2 |]].
  subst r. rewrite handle_callback_bad_state.
  - split; reflexivity.
  - rewrite S2. congruence.
Qed.

Lemma get_auth_url_supersedes_witness :
  result_of
    (run (BloggerAPI.handle_callback (Example.accepting 7) "4/0AX4" (Some "s3"))
         (db_of (run (BloggerAPI.get_auth_url Sample.revoked)
                     (db_of (run (BloggerAPI.get_auth_url (Example.accepting 7))
                                 Sample.client_db)))))
  = Raise (Exception "Invalid OAuth state").
Proof.
  destruct (get_auth_url_supersedes_pending_state
              (Example.accepting 7) Sample.revoked (Example.accepting 7)
              "4/0AX4" Sample.client_db eq_refl eq_refl) as (_ & _ & H & _).
  - discriminate.
  - exact H.
Defined.

(** X4. A callback whose state equals the stored one and whose code the
    platform accepts returns [True] after exactly one token exchange and
    leaves the serialized credential under [blogger_credentials].  The
    state token is not consumed: it is still stored afterwards.  Posts are
    untouched. *)
Theorem handle_callback_stores_credentials env code state d credentials :
  state = stored d "blogger_oauth_state" ->
  env.(fetch_token) (stored d "blogger_client_id")
      (stored d "blogger_client_secret") code = inr credentials ->
  let r := run (BloggerAPI.handle_callback env code state) d in
  result_of r = Return true /\
  filter is_network (log_of r) = [EvFetchToken code] /\
  stored (db_of r) "blogger_credentials"
  = Some (env.(json_dumps) credentials.(creds)) /\
  stored (db_of r) "blogger_oauth_state" = state /\
  (db_of r).(posts) = d.(posts).
Proof.
  intros Hs Hf r. subst r.
  rewrite (handle_callback_good_state _ _ _ _ _ Hs Hf).
  unfold result_of, log_of, db_of, stored.
  cbn [fst snd db log settings with_settings posts filter is_network
       is_http_post is_fetch_token is_refresh is_posts_insert orb].
  rewrite lookup_upsert, lookup_upsert_other by discriminate.
  repeat split. symmetry. exact Hs.
Qed.

Lemma handle_callback_stores_witness :
  result_of (run (BloggerAPI.handle_callback (Example.accepting 7) "4/0AX4"
                    (Some "s3")) Example.blogger_db) = Return true /\
  stored (db_of (run (BloggerAPI.handle_callback (Example.accepting 7) "4/0AX4"
                        (Some "s3")) Example.blogger_db))
         "blogger_credentials" = Some "ya29.a".
Proof.
  destruct (handle_callback_stores_credentials
              (Example.accepting 7) "4/0AX4" (Some "s3") Example.blogger_db
              _ eq_refl eq_refl) as (H1 & _ & H3 & _).
  split; [exact H1 | exact H3].
Defined.

(** X5. When the platform refuses the code, the exception of the token
    exchange reaches the caller as it is, after one attempt, and nothing is
    stored. *)
Theorem handle_callback_exchange_failure env code state d e :
  state = stored d "blogger_oauth_state" ->
  env.(fetch_token) (stored d "blogger_client_id")
      (stored d "blogger_client_secret") code = inl e ->
  let r := run (BloggerAPI.handle_callback env code state) d in
  result_of r = Raise e /\
  filter is_network (log_of r) = [EvFetchToken code] /\
  db_of r = d.
Proof.
  intros Hs Hf r. subst r. apply eqb_opt_true in Hs. unfold stored in *.
  unfold BloggerAPI.handle_callback. exec. rewrite Hs. exec.
  rewrite Hf. repeat split.
Qed.

Lemma handle_callback_exchange_failure_witness :
  result_of (run (BloggerAPI.handle_callback Example.rejecting "stale"
                    (Some "s3")) Example.blogger_db)
  = Raise (LibraryError "InvalidGrantError" "bad code") /\
  db_of (run (BloggerAPI.handle_callback Example.rejecting "stale"
                (Some "s3")) Example.blogger_db) = Example.blogger_db.
Proof.
  destruct (handle_callback_exchange_failure
              Example.rejecting "stale" (Some "s3") Example.blogger_db
              _ eq_refl eq_refl) as (H1 & _ & H3).
  split; [exact H1 | exact H3].
Defined.

(** X6. The whole flow composes: after [get_auth_url], a callback carrying
    the state of that URL and an accepted code, [get_credentials] returns
    the credential the token exchange produced, provided the library reads
    back the blob it wrote and does not report the credential expired. *)
Theorem authorization_flow_round_trip env code d credentials :
  Py.truthy (stored d "blogger_client_id") = true ->
  Py.truthy (stored d "blogger_client_secret") = true ->
  env.(fetch_token) (stored d "blogger_client_id")
      (stored d "blogger_client_secret") code = inr credentials ->
  let blob := env.(json_dumps) credentials.(creds) in
  Py.truthy_str blob = true ->
  env.(json_loads) blob = inr credentials.(creds) ->
  env.(expired) credentials = false ->
  let r1 := run (BloggerAPI.get_auth_url env) d in
  let state :=
    snd (env.(authorization_url) (the_str (stored d "blogger_client_id"))
                                 (the_str (stored d "blogger_client_secret"))) in
  let r2 := run (BloggerAPI.handle_callback env code (Some state)) (db_of r1) in
  let r3 := run (BloggerAPI.get_credentials env) (db_of r2) in
  result_of r2 = Return true /\
  result_of r3 = Return (Some credentials) /\
  count is_refresh (log_of r3) = 0%nat.
Proof.
  intros Hi Hs Hf blob Hb Hl He r1 state r2 r3.
  assert (E1 : db_of r1 = with_settings
                            (Setting.upsert "blogger_oauth_state" (Some state)
                                            d.(settings)) d).
  { subst r1. rewrite (get_auth_url_configured env d Hi Hs). reflexivity. }
  assert (Hi1 : stored (db_of r1) "blogger_client_id"
                = stored d "blogger_client_id").
  { rewrite E1. unfold stored. cbn [settings with_settings].
    apply lookup_upsert_other. discriminate. }
  assert (Hs1 : stored (db_of r1) "blogger_client_secret"
                = stored d "blogger_client_secret").
  { rewrite E1. unfold stored. cbn [settings with_settings].
    apply lookup_upsert_other. discriminate. }
  assert (S1 : Some state = stored (db_of r1) "blogger_oauth_state").
  { rewrite E1. unfold stored. cbn [settings with_settings].
    symmetry. apply lookup_upsert. }
  assert (Hf1 : env.(fetch_token) (stored (db_of r1) "blogger_client_id")
                    (stored (db_of r1) "blogger_client_secret") code
                = inr credentials) by (rewrite Hi1, Hs1; exact Hf).
  assert (E2 : r2 = _)
    by exact (handle_callback_good_state env code (Some state) (db_of r1)
                credentials S1 Hf1).
  assert (S2 : stored (db_of r2) "blogger_credentials" = Some blob).
  { rewrite E2. unfold db_of, stored. cbn [snd db settings with_settings].
    apply lookup_upsert. }
  split; [rewrite E2; reflexivity |].
  subst r3. rewrite (get_credentials_valid env (db_of r2) credentials.(creds)).
  - destruct credentials as [c]. split; reflexivity.
  - rewrite S2. exact Hb.
  - rewrite S2. exact Hl.
  - destruct credentials as [c]. exact He.
Qed.

Lemma authorization_flow_witness :
  result_of
    (run (BloggerAPI.get_credentials (Example.accepting 7))
         (db_of (run (BloggerAPI.handle_callback (Example.accepting 7) "4/0AX4"
                        (Some "s3"))
                     (db_of (run (BloggerAPI.get_auth_url (Example.accepting 7))
                                 Sample.client_db)))))
  = Return (Some (mkCredentials
                    (mkCreds (Some "ya29.a") (Some "1//r") None (Some "cid")
                             (Some "shh") []))).
Proof.
  destruct (authorization_flow_round_trip
              (Example.accepting 7) "4/0AX4" Sample.client_db _
              eq_refl eq_refl eq_refl eq_refl eq_refl eq_refl)
    as (_ & H & _).
  exact H.
Defined.

(** X7. A failing refresh is never met.  [get_credentials] rebuilds the
    [Credentials] object without an expiry, which the library takes as
    never expiring; so whatever the refresh call would do (also raise, for
    a revoked refresh token), a stored blob that deserializes is returned
    as the rebuilt object, with no network call and the stored blob as it
    was. *)
Theorem get_credentials_never_refreshes env d creds_data :
  (forall c, env.(expired) c = expired_without_expiry c) ->
  Py.truthy (stored d "blogger_credentials") = true ->
  env.(json_loads) (the_str (stored d "blogger_credentials"))
  = inr creds_data ->
  let r := run (BloggerAPI.get_credentials env) d in
  result_of r = Return (Some (mkCredentials creds_data)) /\
  count is_network (log_of r) = 0%nat /\
  db_of r = d.
Proof.
  intros He Hs Hl r. subst r. unfold stored in *.
  unfold BloggerAPI.get_credentials. exec. rewrite Hs. cbn [negb].
  rewrite Hl. exec. rewrite He. repeat split.
Qed.

Lemma get_credentials_never_refreshes_witness :
  Sample.revoked.(refresh)
    (mkCredentials (mkCreds (Some "old") (Some "1//r") None (Some "cid")
                            (Some "shh") []))
  = inl (LibraryError "RefreshError" "revoked") /\
  result_of (run (BloggerAPI.get_credentials Sample.revoked)
                 Example.authorized_db)
  = Return (Some (mkCredentials
                    (mkCreds (Some "old") (Some "1//r") None (Some "cid")
                             (Some "shh") []))) /\
  db_of (run (BloggerAPI.get_credentials Sample.revoked)
             Example.authorized_db) = Example.authorized_db.
Proof.
  split; [reflexivity |].
  destruct (get_credentials_never_refreshes Sample.revoked
              Example.authorized_db _ (fun c => eq_refl) eq_refl eq_refl)
    as (H & _ & Hd).
  split; [exact H | exact Hd].
Defined.

(** X8. A stored blob that does not deserialize makes [get_credentials]
    raise the decoder's error: it does not fall back to "no credential",
    attempts no refresh and writes nothing. *)
Theorem get_credentials_malformed_blob env d e :
  Py.truthy (stored d "blogger_credentials") = true ->
  env.(json_loads) (the_str (stored d "blogger_credentials")) = inl e ->
  let r := run (BloggerAPI.get_credentials env) d in
  result_of r = Raise e /\
  count is_network (log_of r) = 0%nat /\
  db_of r = d.
Proof.
  intros Hs Hl r. subst r. unfold stored in *.
  unfold BloggerAPI.get_credentials. exec. rewrite Hs. cbn [negb].
  rewrite Hl. repeat split.
Qed.

Lemma get_credentials_malformed_witness :
  result_of (run (BloggerAPI.get_credentials Example.rejecting)
                 Example.authorized_db)
  = Raise (LibraryError "JSONDecodeError" "old").
Proof.
  destruct (get_credentials_malformed_blob Example.rejecting
              Example.authorized_db _ eq_refl eq_refl) as (H & _).
  exact H.
Defined.

(* ------------------------------------------------------------------ *)
(** ** The adapters, beyond the claims *)
(* ------------------------------------------------------------------ *)

(** X9. On a configured store the packaged [publish_to_wordpress] sends
    exactly one request, with a timeout of 30 seconds, and writes nothing.
    It returns [v] exactly when the peer answers 201 with a body whose [id]
    is [v]; a 201 without an [id] raises [KeyError], any other status
    raises "WordPress API error: " followed by the body text, and an
    exception of the HTTP library (a timeout, a refused connection) reaches
    the caller unwrapped. *)
Theorem publish_to_wordpress_outcomes env post d :
  Py.truthy (stored d "wordpress_url") = true ->
  Py.truthy (stored d "wordpress_username") = true ->
  Py.truthy (stored d "wordpress_password") = true ->
  let r := run (BlogAPI.publish_to_wordpress env post) d in
  exists request,
    filter is_network (log_of r) = [EvHttpPost request] /\
    request.(timeout) = Some 30%Z /\
    db_of r = d /\
    (forall v,
       result_of r = Return v <->
       exists response body,
         env.(requests_post) request = inr response /\
         response.(status_code) = 201%Z /\
         response.(json_body) = inr body /\ dict_get "id" body = Some v) /\
    (forall response body,
       env.(requests_post) request = inr response ->
       response.(status_code) = 201%Z ->
       response.(json_body) = inr body -> dict_get "id" body = None ->
       result_of r = Raise (KeyError "id")) /\
    (forall response,
       env.(requests_post) request = inr response ->
       response.(status_code) <> 201%Z ->
       result_of r
       = Raise (Exception ("WordPress API error: " ++ response.(text))%string)) /\
    (forall e, env.(requests_post) request = inl e -> result_of r = Raise e).
Proof.
  intros Hu Hn Hp r. subst r. unfold BlogAPI.publish_to_wordpress.
  destruct (wordpress_body_configured env (Some 30%Z) post d Hu Hn Hp)
    as (request & Hrun & Ht & _).
  exists request. rewrite Hrun. unfold result_of, log_of, db_of.
  cbn [fst snd db log].
  split; [reflexivity | split; [exact Ht | split; [reflexivity |]]].
  split; [| split; [| split]].
  - intros v. apply wordpress_outcome_returns.
  - intros response body E Hs Hb Hi. rewrite E. unfold wordpress_outcome.
    rewrite Hs, Hb, Hi. reflexivity.
  - intros response E Hs. rewrite E.
    apply wordpress_outcome_other_status. exact Hs.
  - intros e E. rewrite E. reflexivity.
Qed.

Lemma publish_to_wordpress_outcomes_witness :
  exists request,
    filter is_network
      (log_of (run (BlogAPI.publish_to_wordpress Sample.failing Example.draft)
                   Example.wordpress_db)) = [EvHttpPost request] /\
    request.(timeout) = Some 30%Z.
Proof.
  destruct (publish_to_wordpress_outcomes Sample.failing Example.draft
              Example.wordpress_db eq_refl eq_refl eq_refl)
    as (request & H1 & H2 & _).
  exists request. split; [exact H1 | exact H2].
Defined.

Lemma rstrip_by_snoc p s c :
  p c = true ->
  Py.rstrip_by p (s ++ String c EmptyString)%string = Py.rstrip_by p s.
Proof.
  intros Hc. induction s as [| a r IH]; simpl.
  - rewrite Hc. reflexivity.
  - rewrite IH. reflexivity.
Qed.

Lemma truthy_str_snoc s c :
  Py.truthy_str (s ++ String c EmptyString)%string = true.
Proof. destruct s; reflexivity. Qed.

(** X10. A trailing slash on the configured base URL makes no difference:
    with [wordpress_url] set to [base] or to [base/] the adapter sends the
    same request and gives the same result. *)
Theorem wordpress_url_ignores_trailing_slash env post d base :
  stored d "wordpress_url" = Some base ->
  Py.truthy_str base = true ->
  let d' :=
    with_settings
      (Setting.upsert "wordpress_url" (Some (base ++ "/")%string) d.(settings))
      d in
  result_of (run (BlogAPI.publish_to_wordpress env post) d')
  = result_of (run (BlogAPI.publish_to_wordpress env post) d) /\
  log_of (run (BlogAPI.publish_to_wordpress env post) d')
  = log_of (run (BlogAPI.publish_to_wordpress env post) d).
Proof.
  intros Hs Hb d'. subst d'. unfold stored in Hs.
  unfold BlogAPI.publish_to_wordpress, publish_to_wordpress_body. exec.
  cbn [settings with_settings forallb].
  rewrite lookup_upsert, !lookup_upsert_other by discriminate.
  rewrite Hs. cbn [Py.truthy the_str]. rewrite Hb, truthy_str_snoc.
  unfold Py.rstrip_slash. rewrite rstrip_by_snoc by reflexivity.
  cbn [andb].
  destruct (Py.truthy (Setting.lookup "wordpress_username" None (settings d))
            && (Py.truthy (Setting.lookup "wordpress_password" None
                             (settings d)) && true));
    cbn [negb]; [| split; reflexivity].
  exec.
  match goal with
  | |- context [requests_post env ?r] =>
      destruct (requests_post env r) as [e | response]
  end; [split; reflexivity |].
  destruct (status_code response =? 201)%Z; [| split; reflexivity].
  exec. destruct (json_body response) as [e | body]; [split; reflexivity |].
  unfold item_id. destruct (dict_get "id" body); split; reflexivity.
Qed.

Lemma wordpress_url_trailing_slash_witness :
  log_of (run (BlogAPI.publish_to_wordpress (Example.accepting 7) Example.draft)
              (with_settings
                 (Setting.upsert "wordpress_url"
                    (Some "https://blog.example//") Example.wordpress_settings)
                 Example.wordpress_db))
  = log_of (run (BlogAPI.publish_to_wordpress (Example.accepting 7)
                   Example.draft) Example.wordpress_db).
Proof.
  destruct (wordpress_url_ignores_trailing_slash (Example.accepting 7)
              Example.draft Example.wordpress_db "https://blog.example/"
              eq_refl eq_refl) as (_ & H).
  exact H.
Defined.

(** X11. [publish_to_blogger] checks no setting: it reads the blog id,
    which may be absent, and makes exactly one insert call in every case,
    writing nothing.  The id of the answer is returned; an [HttpError] of
    the platform comes back as the generic "Blogger API error: ..."
    exception, and any other exception unchanged. *)
Theorem publish_to_blogger_outcomes env post credentials d :
  let r := run (BlogAPI.publish_to_blogger env post credentials) d in
  exists body,
    log_of r = [EvSettingGet "blogger_blog_id";
                EvPostsInsert (stored d "blogger_blog_id") body] /\
    db_of r = d /\
    let answer :=
      env.(posts_insert) (stored d "blogger_blog_id") body credentials in
    (forall result v,
       answer = inr result -> dict_get "id" result = Some v ->
       result_of r = Return v) /\
    (forall result,
       answer = inr result -> dict_get "id" result = None ->
       result_of r = Raise (KeyError "id")) /\
    (forall m,
       answer = inl (HttpError m) ->
       result_of r = Raise (Exception ("Blogger API error: " ++ m)%string)) /\
    (forall e,
       answer = inl e -> (forall m, e <> HttpError m) ->
       result_of r = Raise e).
Proof.
  intros r. subst r.
  unfold BlogAPI.publish_to_blogger, publish_to_blogger_body. exec.
  match goal with
  | |- context [posts_insert env ?b ?body ?c] =>
      exists body; destruct (posts_insert env b body c) as [e | result] eqn:E
  end.
  - destruct e; (split; [reflexivity | split; [reflexivity |]]); cbv zeta;
      (split; [intros ? ? H; discriminate H |]);
      (split; [intros ? H; discriminate H |]);
      (split; [intros ? H; try discriminate H; injection H as <-; reflexivity |]);
      intros e' H Hn; injection H as <-; try reflexivity;
      exfalso; exact (Hn _ eq_refl).
  - unfold item_id.
    destruct (dict_get "id" result) as [v |] eqn:Ei; exec;
      (split; [reflexivity | split; [reflexivity |]]); cbv zeta;
      repeat split; intros; congruence.
Qed.

Lemma publish_to_blogger_outcomes_witness :
  result_of (run (BlogAPI.publish_to_blogger Example.rejecting Example.gappy
                    (mkCredentials (mkCreds None None None None None [])))
                 Example.blogger_db)
  = Raise (Exception "Blogger API error: 403").
Proof.
  destruct (publish_to_blogger_outcomes Example.rejecting Example.gappy
              (mkCredentials (mkCreds None None None None None []))
              Example.blogger_db) as (body & _ & _ & _ & _ & H & _).
  apply (H "403"). reflexivity.
Defined.

(* ------------------------------------------------------------------ *)
(** ** The publish handler, beyond the claims *)
(* ------------------------------------------------------------------ *)

(** The adapter does the same from any point of a request: what was logged
    before stays in front of what it logs. *)
Lemma wordpress_body_frame env tmo post d l :
  publish_to_wordpress_body env tmo post (mkWorld d l) =
  (result_of (run (publish_to_wordpress_body env tmo post) d),
   mkWorld (db_of (run (publish_to_wordpress_body env tmo post) d))
           (l ++ log_of (run (publish_to_wordpress_body env tmo post) d))).
Proof.
  unfold publish_to_wordpress_body. exec.
  destruct (forallb Py.truthy _); cbn [negb]; exec;
    [| rewrite <- !app_assoc; reflexivity].
  match goal with
  | |- context [requests_post env ?r] =>
      destruct (requests_post env r) as [e | response]
  end; [rewrite <- !app_assoc; reflexivity |].
  destruct (status_code response =? 201)%Z;
    [| rewrite <- !app_assoc; reflexivity].
  exec. destruct (json_body response) as [e | body];
    [rewrite <- !app_assoc; reflexivity |].
  unfold item_id. destruct (dict_get "id" body); exec;
    rewrite <- !app_assoc; reflexivity.
Qed.

(** X12. A publish request without an id (or with id 0), or with an id
    that names no post, is answered with the matching failure before any
    setting is read: nothing is logged and nothing changes. *)
Theorem publish_post_rejects_bad_request env now post_id d :
  truthy_id post_id = false \/ query_get (the_id post_id) d.(posts) = None ->
  let r := run (Routes.publish_post env now post_id) d in
  result_of r
  = Return (Failed (if truthy_id post_id then "Post not found"
                    else "Post ID required")) /\
  log_of r = [] /\
  db_of r = d.
Proof.
  intros H r. subst r. unfold Routes.publish_post, Routes.publish_post_body.
  destruct (truthy_id post_id) eqn:E; exec; [| repeat split].
  destruct H as [H | H]; [discriminate |]. rewrite H. repeat split.
Qed.

Lemma publish_post_rejects_witness :
  result_of (run (Routes.publish_post (Example.accepting 7) 200%Z (Some 9%Z))
                 Example.wordpress_db) = Return (Failed "Post not found") /\
  result_of (run (Routes.publish_post (Example.accepting 7) 200%Z (Some 0%Z))
                 Example.wordpress_db) = Return (Failed "Post ID required").
Proof.
  split.
  - destruct (publish_post_rejects_bad_request (Example.accepting 7) 200%Z
                (Some 9%Z) Example.wordpress_db (or_intror eq_refl)) as (H & _).
    exact H.
  - destruct (publish_post_rejects_bad_request (Example.accepting 7) 200%Z
                (Some 0%Z) Example.wordpress_db (or_introl eq_refl)) as (H & _).
    exact H.
Defined.

(** X13. With [blog_type] unset, or set to anything but 'blogger' and
    'wordpress', publishing a stored post answers "No blog platform
    configured"; the only thing done is the read of [blog_type], and the
    post stays as it was. *)
Theorem publish_post_no_platform env now post_id post d :
  truthy_id post_id = true ->
  query_get (the_id post_id) d.(posts) = Some post ->
  stored d "blog_type" <> Some "blogger" ->
  stored d "blog_type" <> Some "wordpress" ->
  let r := run (Routes.publish_post env now post_id) d in
  result_of r = Return (Failed "No blog platform configured") /\
  log_of r = [EvSettingGet "blog_type"] /\
  db_of r = d.
Proof.
  intros Hid Hq Hb Hw r. subst r. apply eqb_opt_false in Hb, Hw.
  unfold stored in *.
  unfold Routes.publish_post, Routes.publish_post_body. rewrite Hid. exec.
  rewrite Hq. exec. rewrite Hb, Hw. repeat split.
Qed.

Lemma publish_post_no_platform_witness :
  result_of (run (Routes.publish_post (Example.accepting 7) 200%Z (Some 1%Z))
                 (mkDatabase [] [] [] [Example.draft]))
  = Return (Failed "No blog platform configured").
Proof.
  destruct (publish_post_no_platform (Example.accepting 7) 200%Z (Some 1%Z)
              Example.draft (mkDatabase [] [] [] [Example.draft])
              eq_refl eq_refl) as (H & _).
  - discriminate.
  - discriminate.
  - exact H.
Defined.

(** X14. With [blog_type] 'wordpress' and the three settings in place,
    publishing a stored post sends one request.  If the adapter returns an
    id, the answer is the success document and the post is stored, and
    found under its id, with status 'published', [published_date] the time
    of the request, [external_id] the returned id as a string, and its
    id, title, content, creation date, target, tags and categories as they
    were; if the adapter raises, the answer carries the text of the
    exception and the database is unchanged, the post still a draft. *)
Theorem publish_post_wordpress env now post_id post d :
  truthy_id post_id = true ->
  query_get (the_id post_id) d.(posts) = Some post ->
  stored d "blog_type" = Some "wordpress" ->
  Py.truthy (stored d "wordpress_url") = true ->
  Py.truthy (stored d "wordpress_username") = true ->
  Py.truthy (stored d "wordpress_password") = true ->
  let r := run (Routes.publish_post env now post_id) d in
  exists request,
    filter is_network (log_of r) = [EvHttpPost request] /\
    match wordpress_outcome (env.(requests_post) request) with
    | Return ext =>
        result_of r = Return (PublishedOk "Post published successfully!") /\
        exists post',
          post'.(status) = Some "published" /\
          post'.(published_date) = Some now /\
          post'.(external_id) = Some (str_scalar ext) /\
          published_copy now ext post post' /\
          (db_of r).(posts) = store_post post' d.(posts) /\
          query_get (the_id post_id) (db_of r).(posts) = Some post'
    | Raise e =>
        result_of r = Return (Failed (str_exc e)) /\ db_of r = d
    end.
Proof.
  intros Hid Hq Hb Hu Hn Hp r. subst r.
  destruct (wordpress_body_configured env (Some 30%Z) post d Hu Hn Hp)
    as (request & Hrun & _).
  exists request. unfold stored in Hb.
  unfold Routes.publish_post, Routes.publish_post_body. rewrite Hid. exec.
  rewrite Hq. exec. rewrite Hb. cbn [Py.eqb_opt String.eqb Ascii.eqb Bool.eqb].
  unfold BlogAPI.publish_to_wordpress. rewrite wordpress_body_frame, Hrun.
  unfold result_of, db_of, log_of. cbn [fst snd db log app].
  destruct (wordpress_outcome (requests_post env request)) as [ext | e];
    cbn [fst snd db log posts with_posts filter is_network is_http_post
         is_fetch_token is_refresh is_posts_insert orb].
  - split; [reflexivity |]. split; [reflexivity |].
    exists (Routes.mark_published now post ext).
    split; [reflexivity |]. split; [reflexivity |]. split; [reflexivity |].
    split; [repeat split |]. split; [reflexivity |].
    pose proof (query_get_id _ _ _ Hq) as Hi.
    rewrite <- Hi in Hq |- *.
    exact (query_get_store_post (Routes.mark_published now post ext) _ _ Hq).
  - repeat split.
Qed.

Lemma publish_post_wordpress_witness :
  (let r := run (Routes.publish_post (Example.accepting 7) 200%Z (Some 1%Z))
                Example.wordpress_db in
   result_of r = Return (PublishedOk "Post published successfully!") /\
   exists post',
     post'.(status) = Some "published" /\
     post'.(published_date) = Some 200%Z /\
     post'.(external_id) = Some "7" /\
     published_copy 200%Z (SInt 7) Example.draft post' /\
     (db_of r).(posts) = store_post post' Example.wordpress_db.(posts) /\
     query_get 1 (db_of r).(posts) = Some post') /\
  result_of (run (Routes.publish_post Sample.failing 200%Z (Some 1%Z))
                 Example.wordpress_db)
  = Return (Failed "WordPress API error: <h1>Internal Server Error</h1>") /\
  db_of (run (Routes.publish_post Sample.failing 200%Z (Some 1%Z))
             Example.wordpress_db) = Example.wordpress_db.
Proof.
  split.
  - destruct (publish_post_wordpress (Example.accepting 7) 200%Z (Some 1%Z)
                Example.draft Example.wordpress_db
                eq_refl eq_refl eq_refl eq_refl eq_refl eq_refl)
      as (request & _ & H).
    exact H.
  - destruct (publish_post_wordpress Sample.failing 200%Z (Some 1%Z)
                Example.draft Example.wordpress_db
                eq_refl eq_refl eq_refl eq_refl eq_refl eq_refl)
      as (request & _ & H).
    exact H.
Defined.

(** X15. With [blog_type] 'wordpress' and one of the three settings
    missing or empty, publishing a stored post answers "WordPress
    credentials not configured"; nothing is sent and the post is
    unchanged. *)
Theorem publish_post_wordpress_unconfigured env now post_id post d :
  truthy_id post_id = true ->
  query_get (the_id post_id) d.(posts) = Some post ->
  stored d "blog_type" = Some "wordpress" ->
  Py.truthy (stored d "wordpress_url") = false \/
  Py.truthy (stored d "wordpress_username") = false \/
  Py.truthy (stored d "wordpress_password") = false ->
  let r := run (Routes.publish_post env now post_id) d in
  result_of r = Return (Failed "WordPress credentials not configured") /\
  count is_network (log_of r) = 0%nat /\
  db_of r = d.
Proof.
  intros Hid Hq Hb Hc r. subst r. unfold stored in Hb.
  unfold Routes.publish_post, Routes.publish_post_body. rewrite Hid. exec.
  rewrite Hq. exec. rewrite Hb. cbn [Py.eqb_opt String.eqb Ascii.eqb Bool.eqb].
  unfold BlogAPI.publish_to_wordpress.
  rewrite wordpress_body_frame, (wordpress_body_unconfigured _ _ _ _ Hc).
  repeat split.
Qed.

Lemma publish_post_wordpress_unconfigured_witness :
  result_of (run (Routes.publish_post (Example.accepting 7) 200%Z (Some 1%Z))
                 Example.unconfigured_db)
  = Return (Failed "WordPress credentials not configured").
Proof.
  destruct (publish_post_wordpress_unconfigured (Example.accepting 7) 200%Z
              (Some 1%Z) Example.draft Example.unconfigured_db
              eq_refl eq_refl eq_refl (or_intror (or_intror eq_refl)))
    as (H & _).
  exact H.
Defined.

(* ------------------------------------------------------------------ *)
(** ** Saving and deleting posts *)
(* ------------------------------------------------------------------ *)

#[local] Hint Unfold AvailableTag.increment_usage
  AvailableCategory.increment_usage : py.

Lemma next_id_above ids x : In x ids -> (x < next_id ids)%Z.
Proof.
  unfold next_id. induction ids as [| a ids IH]; simpl; [tauto |].
  intros [<- | H]; [lia |]. specialize (IH H). lia.
Qed.

Lemma next_id_positive ids : (0 < next_id ids)%Z.
Proof.
  unfold next_id. induction ids as [| a ids IH]; simpl; lia.
Qed.

Lemma next_id_fresh ids : ~ In (next_id ids) ids.
Proof. intros H. apply next_id_above in H. lia. Qed.

Lemma query_get_none i rows :
  query_get i rows = None <-> ~ In i (map id rows).
Proof.
  unfold query_get. induction rows as [| r rest IH]; simpl; [tauto |].
  destruct (Z.eqb_spec (id r) i) as [E | E].
  - split; [discriminate | tauto].
  - rewrite IH. tauto.
Qed.

Lemma query_get_app i rows more :
  query_get i (rows ++ more) =
  match query_get i rows with
  | Some p => Some p
  | None => query_get i more
  end.
Proof.
  unfold query_get. induction rows as [| r rest IH]; simpl; [reflexivity |].
  destruct (id r =? i)%Z; [reflexivity | exact IH].
Qed.

Lemma store_post_ids p rows : map id (store_post p rows) = map id rows.
Proof.
  induction rows as [| r rest IH]; simpl; [reflexivity |].
  destruct (Z.eqb_spec (id r) (id p)) as [E | E]; simpl.
  - rewrite E. reflexivity.
  - rewrite IH. reflexivity.
Qed.

Lemma increment_usage_fold now s rows :
  Available.increment_usage now (Some s) rows
  = fold_left (Available.use_one now) (Available.name_list s) rows.
Proof.
  unfold Available.increment_usage, Py.truthy_str.
  destruct (String.eqb_spec s "") as [-> | E]; reflexivity.
Qed.

(** X16. Saving without an id creates a post: its id is new, positive and
    returned in the answer, so that a later request finds exactly this
    post under it; the post is a draft with no publication fields, created
    now, with the current [blog_type] as its target; the posts already
    stored and the settings are untouched, and nothing is sent. *)
Theorem save_post_creates_draft now data d new_title new_content :
  truthy_id data.(sd_id) = false ->
  data.(sd_title) = Some new_title ->
  data.(sd_content) = Some new_content ->
  let r := run (Routes.save_post now data) d in
  let i := next_id (map id d.(posts)) in
  let post :=
    mkPost i new_title new_content (Some "draft") now None
           (stored d "blog_type") None
           (Some (get_or_empty data.(sd_tags)))
           (Some (get_or_empty data.(sd_categories))) in
  result_of r = Return (SavedOk i) /\
  (db_of r).(posts) = d.(posts) ++ [post] /\
  ~ In i (map id d.(posts)) /\
  truthy_id (Some i) = true /\
  query_get i (db_of r).(posts) = Some post /\
  (db_of r).(settings) = d.(settings) /\
  log_of r = [EvSettingGet "blog_type"].
Proof.
  intros Hid Ht Hc r i post. subst r i post.
  unfold Routes.save_post. exec. rewrite Hid, Ht. cbn [item]. exec.
  rewrite Hc. cbn [item]. exec.
  cbn [posts with_posts with_tags with_categories settings id].
  pose proof (next_id_fresh (map id (posts d))) as Hf.
  pose proof (next_id_positive (map id (posts d))) as Hp.
  repeat split.
  - exact Hf.
  - unfold truthy_id. destruct (Z.eqb_spec (next_id (map id (posts d))) 0);
      [lia | reflexivity].
  - rewrite query_get_app.
    rewrite (proj2 (query_get_none _ _) Hf).
    unfold query_get, insert_post. cbn [find id]. rewrite Z.eqb_refl.
    reflexivity.
Qed.

Lemma save_post_creates_draft_witness :
  result_of (run (Routes.save_post 300%Z Sample.new_post_data)
                 Example.tagged_db) = Return (SavedOk 3%Z) /\
  length (db_of (run (Routes.save_post 300%Z Sample.new_post_data)
                     Example.tagged_db)).(posts) = 3%nat.
Proof.
  destruct (save_post_creates_draft 300%Z Sample.new_post_data
              Example.tagged_db "Second" "<p>two</p>" eq_refl eq_refl eq_refl)
    as (H1 & H2 & _).
  split; [exact H1 | rewrite H2; reflexivity].
Defined.

(** X17. Saving with the id of a stored post rewrites its title, content,
    tags and categories and nothing else: id, status, both dates, target
    and external id stay, as do the ids and the number of the posts.  No
    setting is read and nothing is sent, so a published post stays
    published and the platform's copy is not updated. *)
Theorem save_post_updates_in_place now data d post new_title new_content :
  truthy_id data.(sd_id) = true ->
  query_get (the_id data.(sd_id)) d.(posts) = Some post ->
  data.(sd_title) = Some new_title ->
  data.(sd_content) = Some new_content ->
  let r := run (Routes.save_post now data) d in
  let post' :=
    mkPost post.(id) new_title new_content post.(status) post.(created_date)
           post.(published_date) post.(blog_target) post.(external_id)
           (Some (get_or_empty data.(sd_tags)))
           (Some (get_or_empty data.(sd_categories))) in
  result_of r = Return (SavedOk post.(id)) /\
  (db_of r).(posts) = store_post post' d.(posts) /\
  query_get post.(id) (db_of r).(posts) = Some post' /\
  map id (db_of r).(posts) = map id d.(posts) /\
  (db_of r).(settings) = d.(settings) /\
  log_of r = [].
Proof.
  intros Hid Hq Ht Hc r post'. subst r post'.
  unfold Routes.save_post. exec. rewrite Hid, Ht. cbn [item]. exec.
  rewrite Hq. rewrite Hc. cbn [item]. exec.
  cbn [posts with_posts with_tags with_categories settings id].
  repeat split.
  - pose proof (query_get_id _ _ _ Hq) as Hi. rewrite <- Hi in Hq.
    match goal with
    | |- query_get _ (store_post ?p _) = _ =>
        exact (query_get_store_post p _ _ Hq)
    end.
  - apply store_post_ids.
Qed.

Lemma save_post_updates_witness :
  map publication
      (db_of (run (Routes.save_post 300%Z Sample.edit_data)
                  Example.tagged_db)).(posts)
  = [(None, None); (Some "17", Some 150%Z)] /\
  map title
      (db_of (run (Routes.save_post 300%Z Sample.edit_data)
                  Example.tagged_db)).(posts)
  = ["Hello"; "Edited"].
Proof.
  destruct (save_post_updates_in_place 300%Z Sample.edit_data
              Example.tagged_db _ "Edited" "<p>new</p>"
              eq_refl eq_refl eq_refl eq_refl) as (_ & H & _).
  rewrite H. split; reflexivity.
Defined.

(** X18. A save that cannot go through raises and changes nothing, usage
    counters included: [KeyError] for a missing title or content,
    [AttributeError] when the id names no post. *)
Theorem save_post_failure_changes_nothing now data d :
  data.(sd_title) = None \/ data.(sd_content) = None \/
  (truthy_id data.(sd_id) = true /\
   query_get (the_id data.(sd_id)) d.(posts) = None) ->
  let r := run (Routes.save_post now data) d in
  exists e,
    result_of r = Raise e /\
    (e = KeyError "title" \/ e = KeyError "content" \/
     e = AttributeError "'NoneType' object has no attribute 'title'") /\
    db_of r = d /\
    count is_network (log_of r) = 0%nat.
Proof.
  intros H r. subst r. unfold Routes.save_post. exec.
  destruct (truthy_id (sd_id data)) eqn:Hid; exec.
  - destruct (sd_title data) as [t |] eqn:Ht; cbn [item]; exec;
      [| eexists; repeat split; auto].
    destruct (query_get (the_id (sd_id data)) (posts d)) as [post |] eqn:Hq;
      exec; [| eexists; repeat split; auto].
    destruct (sd_content data) as [c |] eqn:Hc; cbn [item]; exec;
      [| eexists; repeat split; auto].
    exfalso. destruct H as [H | [H | [_ H]]]; discriminate.
  - destruct (sd_title data) as [t |] eqn:Ht; cbn [item]; exec;
      [| eexists; repeat split; auto].
    destruct (sd_content data) as [c |] eqn:Hc; cbn [item]; exec;
      [| eexists; repeat split; auto].
    exfalso. destruct H as [H | [H | [H _]]]; discriminate.
Qed.

Lemma save_post_failure_witness :
  exists e,
    result_of (run (Routes.save_post 300%Z
                      (mkSaveData (Some 9%Z) (Some "T") (Some "C") None None))
                   Example.tagged_db) = Raise e /\
    db_of (run (Routes.save_post 300%Z
                  (mkSaveData (Some 9%Z) (Some "T") (Some "C") None None))
               Example.tagged_db) = Example.tagged_db.
Proof.
  destruct (save_post_failure_changes_nothing 300%Z
              (mkSaveData (Some 9%Z) (Some "T") (Some "C") None None)
              Example.tagged_db) as (e & H1 & _ & H3 & _).
  - right. right. split; reflexivity.
  - exists e. split; [exact H1 | exact H3].
Defined.

(** X19. Every save that succeeds, of a new post or of a stored one,
    counts the submitted tags again: over tags that all have a row, each
    tag gains one use per occurrence in the tag string.  Saving the same
    post twice counts its tags twice. *)
Theorem save_post_counts_every_save now data d i m :
  result_of (run (Routes.save_post now data) d) = Return (SavedOk i) ->
  (forall n, In n (Available.name_list (get_or_empty data.(sd_tags))) ->
             In n (map name d.(available_tags))) ->
  Available.count_of m
    (db_of (run (Routes.save_post now data) d)).(available_tags)
  = (Available.count_of m d.(available_tags)
     + Z.of_nat (count_occ string_dec
                   (Available.name_list (get_or_empty data.(sd_tags))) m))%Z.
Proof.
  intros Hr Hk. rewrite <- known_names_counted with (now := now) by exact Hk.
  rewrite <- increment_usage_fold. f_equal.
  revert Hr. unfold Routes.save_post. exec.
  destruct (truthy_id (sd_id data)); exec.
  - destruct (sd_title data) as [t |]; cbn [item]; exec; [| discriminate].
    destruct (query_get (the_id (sd_id data)) (posts d)) as [post |];
      exec; [| discriminate].
    destruct (sd_content data) as [c |]; cbn [item]; exec; [| discriminate].
    intros _. reflexivity.
  - destruct (sd_title data) as [t |]; cbn [item]; exec; [| discriminate].
    destruct (sd_content data) as [c |]; cbn [item]; exec; [| discriminate].
    intros _. reflexivity.
Qed.

Lemma save_post_counts_witness :
  Available.count_of "b"
    (db_of (run (Routes.save_post 310%Z Sample.edit_data)
                (db_of (run (Routes.save_post 300%Z Sample.edit_data)
                            Example.tagged_db)))).(available_tags)
  = 2%Z.
Proof.
  rewrite (save_post_counts_every_save 310%Z Sample.edit_data _ 2%Z "b").
  - rewrite (save_post_counts_every_save 300%Z Sample.edit_data
               Example.tagged_db 2%Z "b").
    + reflexivity.
    + reflexivity.
    + intros n [<- | []]. right. left. reflexivity.
  - reflexivity.
  - intros n [<- | []]. right. left. reflexivity.
Defined.

Lemma delete_row_ids_distinct i rows :
  NoDup (map id rows) ->
  ~ In i (map id (delete_row i rows)) /\
  (forall j, j <> i -> query_get j (delete_row i rows) = query_get j rows).
Proof.
  unfold query_get.
  induction rows as [| r rest IH]; simpl; intros Hnd; [tauto |].
  apply NoDup_cons_iff in Hnd. destruct Hnd as [Hr Hnd].
  destruct (Z.eqb_spec (id r) i) as [E | E].
  - split; [rewrite <- E; exact Hr |].
    intros j Hj. destruct (Z.eqb_spec (id r) j); [congruence | reflexivity].
  - destruct (IH Hnd) as [H1 H2]. split.
    + simpl. intros [H | H]; [congruence | tauto].
    + intros j Hj. simpl. destruct (id r =? j)%Z; [reflexivity | exact (H2 j Hj)].
Qed.

Lemma delete_row_length i rows p :
  query_get i rows = Some p ->
  S (length (delete_row i rows)) = length rows.
Proof.
  unfold query_get. induction rows as [| r rest IH]; simpl; [discriminate |].
  destruct (id r =? i)%Z; simpl; [reflexivity |].
  intros H. rewrite (IH H). reflexivity.
Qed.

(** X20. Deleting a stored post removes that post and nothing else: with
    distinct ids, the id no longer names a post, every other id names the
    post it did, and there is one post less.  Tags, categories (their usage
    counts too) and settings are untouched.  An id that names no post
    aborts with 404 and changes nothing. *)
Theorem delete_post_removes_one post_id d :
  NoDup (map id d.(posts)) ->
  let r := run (Routes.delete_post post_id) d in
  (db_of r).(available_tags) = d.(available_tags) /\
  (db_of r).(available_categories) = d.(available_categories) /\
  (db_of r).(settings) = d.(settings) /\
  match query_get post_id d.(posts) with
  | Some _ =>
      result_of r = Return tt /\
      query_get post_id (db_of r).(posts) = None /\
      (forall j, j <> post_id ->
                 query_get j (db_of r).(posts) = query_get j d.(posts)) /\
      S (length (db_of r).(posts)) = length d.(posts)
  | None =>
      result_of r = Raise (LibraryError "NotFound" "404 Not Found") /\
      db_of r = d
  end.
Proof.
  intros Hnd r. subst r. unfold Routes.delete_post. exec.
  destruct (query_get post_id (posts d)) as [post |] eqn:Hq; exec;
    cbn [posts with_posts available_tags available_categories settings];
    [| repeat split].
  destruct (delete_row_ids_distinct post_id _ Hnd) as [H1 H2].
  repeat split.
  - apply query_get_none. exact H1.
  - exact H2.
  - exact (delete_row_length _ _ _ Hq).
Qed.

Lemma delete_post_witness :
  map id (db_of (run (Routes.delete_post 1%Z) Example.tagged_db)).(posts)
  = [2%Z] /\
  (db_of (run (Routes.delete_post 1%Z) Example.tagged_db)).(available_tags)
  = Example.tagged_db.(available_tags).
Proof.
  destruct (delete_post_removes_one 1%Z Example.tagged_db) as (H1 & _).
  - repeat constructor; simpl; intuition discriminate.
  - split; [reflexivity | exact H1].
Defined.

(* ------------------------------------------------------------------ *)
(** ** The tag store, beyond the claims *)
(* ------------------------------------------------------------------ *)

#[local] Hint Unfold AvailableTag.add_tag AvailableCategory.add_category : py.

Lemma lstrip_fixed s :
  Py.starts_with_space s = false -> Py.lstrip_by Py.isspace s = s.
Proof. destruct s as [| c r]; simpl; [reflexivity |]. intros ->. reflexivity. Qed.

Lemma rstrip_fixed s :
  Py.ends_with_space s = false -> Py.rstrip_by Py.isspace s = s.
Proof.
  induction s as [| c r IH]; [reflexivity |].
  destruct r as [| c' r'].
  - simpl. intros ->. reflexivity.
  - intros H. change (Py.ends_with_space (String c' r') = false) in H.
    cbn [Py.rstrip_by]. cbn [Py.rstrip_by] in IH. rewrite (IH H). reflexivity.
Qed.

(** Stripping twice is stripping once. *)
Lemma strip_idempotent s : Py.strip (Py.strip s) = Py.strip s.
Proof.
  pose proof (strip_no_surrounding_whitespace s) as H.
  unfold Py.surrounding_whitespace in H. apply orb_false_iff in H.
  destruct H as [H1 H2].
  unfold Py.strip at 1. rewrite lstrip_fixed by exact H1.
  apply rstrip_fixed. exact H2.
Qed.

Lemma first_by_name_single m r :
  r.(name) = m -> Available.first_by_name m [r] = Some r.
Proof.
  intros <-. unfold Available.first_by_name. cbn [find].
  rewrite String.eqb_refl. reflexivity.
Qed.

(** X21. [add_tag] is idempotent on the stripped name: a second call with
    a name that strips to the same string returns the row of the first
    call and changes nothing, whatever description it carries; and a call
    on a name the table has leaves the table as it is. *)
Theorem add_tag_idempotent now now' n n' descr descr' d :
  Py.strip n' = Py.strip n ->
  let r1 := run (AvailableTag.add_tag now n descr) d in
  let r2 := run (AvailableTag.add_tag now' n' descr') (db_of r1) in
  exists tag,
    result_of r1 = Return tag /\
    result_of r2 = Return tag /\
    tag.(name) = Py.strip n /\
    db_of r2 = db_of r1 /\
    (In (Py.strip n) (map name d.(available_tags)) -> db_of r1 = d).
Proof.
  intros Hn r1 r2. subst r1 r2. exec. unfold Available.add. rewrite Hn.
  destruct (Available.first_by_name (Py.strip n) (available_tags d))
    as [tag |] eqn:E.
  - exists tag. exec. cbn [available_tags with_tags]. rewrite E. exec.
    cbn [available_tags with_tags].
    destruct (first_by_name_name _ _ _ E) as [Hname _].
    destruct d as [s t c p]. repeat split. exact Hname.
  - eexists. exec. cbn [available_tags with_tags].
    rewrite first_by_name_app, E.
    rewrite first_by_name_single by reflexivity. exec.
    cbn [available_tags with_tags name].
    repeat split. intros H. apply first_by_name_none in E. contradiction.
Qed.

Lemma add_tag_idempotent_witness :
  length (db_of (run (AvailableTag.add_tag 310%Z " rust" (Some "again"))
                     (db_of (run (AvailableTag.add_tag 300%Z "rust " None)
                                 Example.tagged_db)))).(available_tags)
  = 3%nat.
Proof.
  destruct (add_tag_idempotent 300%Z 310%Z "rust " " rust" None (Some "again")
              Example.tagged_db eq_refl) as (tag & _ & _ & _ & H & _).
  rewrite H. reflexivity.
Defined.

Lemma count_of_app_new m rows r :
  r.(usage_count) = 0%Z ->
  Available.count_of m (rows ++ [r]) = Available.count_of m rows.
Proof.
  intros H0. unfold Available.count_of. rewrite first_by_name_app.
  destruct (Available.first_by_name m rows); [reflexivity |].
  unfold Available.first_by_name. cbn [find].
  destruct (name r =? m); [exact H0 | reflexivity].
Qed.

Lemma use_one_grows now rows n :
  (exists added,
     map name (Available.use_one now rows n) = map name rows ++ added) /\
  (forall m, (Available.count_of m rows
              <= Available.count_of m (Available.use_one now rows n))%Z).
Proof.
  unfold Available.use_one, Available.add.
  destruct (Available.first_by_name n rows) as [r |] eqn:E.
  - split.
    + exists []. rewrite bump_names, app_nil_r. reflexivity.
    + intros m. destruct (first_by_name_name _ _ _ E) as [Hn Hin].
      assert (Hk : In n (map name rows))
        by (rewrite <- Hn; apply in_map; exact Hin).
      destruct (string_dec m n) as [-> | Hmn].
      * rewrite count_of_bump by exact Hk. lia.
      * rewrite count_of_bump_other by exact Hmn. lia.
  - destruct (Available.first_by_name (Py.strip n) rows); cbn [fst].
    + split; [exists []; rewrite app_nil_r; reflexivity | intros m; lia].
    + split.
      * eexists. rewrite map_app. reflexivity.
      * intros m. rewrite count_of_app_new by reflexivity. lia.
Qed.

(** X22. [increment_usage] only ever grows the table and the counts: the
    names it found stay, in their order, in front of the names it adds, and
    no usage count goes down. *)
Theorem increment_usage_only_grows now names rows :
  let rows' := Available.increment_usage now names rows in
  (exists added, map name rows' = map name rows ++ added) /\
  (forall m, (Available.count_of m rows <= Available.count_of m rows')%Z).
Proof.
  intros rows'. subst rows'. unfold Available.increment_usage.
  destruct names as [s |];
    [| split; [exists []; rewrite app_nil_r; reflexivity | intros; lia]].
  destruct (negb (Py.truthy_str s));
    [split; [exists []; rewrite app_nil_r; reflexivity | intros; lia] |].
  generalize (Available.name_list s). intros l. revert rows.
  induction l as [| x l IH]; intros rows; cbn [fold_left].
  - split; [exists []; rewrite app_nil_r; reflexivity | intros; lia].
  - destruct (use_one_grows now rows x) as [[a1 H1] H2].
    destruct (IH (Available.use_one now rows x)) as [[a2 H3] H4].
    split.
    + exists (a1 ++ a2). rewrite H3, H1, app_assoc. reflexivity.
    + intros m. specialize (H2 m). specialize (H4 m). lia.
Qed.

(** X23. The add-tag route strips the submitted name.  A name that is
    absent, empty or blank is refused with "Tag name is required" and
    nothing changes.  Any other name is answered with success and the row
    carrying the stripped name, which the table then holds; when the table
    had the name already, that row is the old one and the table is
    unchanged: a duplicate is reported as a success, not as "Tag already
    exists". *)
Theorem add_tag_route now name_field description_field d :
  let tag_name := Py.strip (get_or_empty name_field) in
  let r := run (TagRoutes.add_tag now name_field description_field) d in
  if Py.truthy_str tag_name
  then exists tag,
         result_of r = Return (TagOk tag) /\
         tag.(name) = tag_name /\
         Available.first_by_name tag_name (db_of r).(available_tags)
         = Some tag /\
         (In tag_name (map name d.(available_tags)) ->
          db_of r = d /\ In tag d.(available_tags))
  else result_of r = Return (TagFailed "Tag name is required") /\ db_of r = d.
Proof.
  intros tag_name r. subst tag_name r. unfold TagRoutes.add_tag.
  destruct (Py.truthy_str (Py.strip (get_or_empty name_field))); cbn [negb];
    [| split; reflexivity].
  exec. unfold Available.add. rewrite strip_idempotent.
  destruct (Available.first_by_name (Py.strip (get_or_empty name_field))
              (available_tags d)) as [tag |] eqn:E.
  - exists tag. exec. cbn [available_tags with_tags].
    destruct (first_by_name_name _ _ _ E) as [Hname Hin].
    destruct d as [s t c p]. repeat split; assumption.
  - eexists. exec. cbn [available_tags with_tags name].
    repeat split.
    + rewrite first_by_name_app, E.
      apply first_by_name_single. reflexivity.
    + exfalso. apply first_by_name_none in E. contradiction.
    + exfalso. apply first_by_name_none in E. contradiction.
Qed.

Lemma add_tag_route_witness :
  result_of (run (TagRoutes.add_tag 300%Z (Some "  a ") (Some "dup"))
                 Example.tagged_db)
  = Return (TagOk (mkAvailable 1%Z "a" 90%Z 4%Z (Some "first letter"))) /\
  result_of (run (TagRoutes.add_tag 300%Z (Some "   ") None) Example.tagged_db)
  = Return (TagFailed "Tag name is required").
Proof.
  split.
  - destruct (add_tag_route 300%Z (Some "  a ") (Some "dup") Example.tagged_db)
      as (tag & H1 & _ & _ & H4).
    destruct H4 as [_ Hin]; [left; reflexivity |].
    rewrite H1. destruct Hin as [<- | [<- | []]].
    + reflexivity.
    + exfalso. revert H1. cbv. discriminate.
  - destruct (add_tag_route 300%Z (Some "   ") None Example.tagged_db)
      as (H & _).
    exact H.
Defined.

Lemma insert_desc_permutation {A} (column : A -> Z) x l :
  Permutation (insert_desc column x l) (x :: l).
Proof.
  induction l as [| y r IH]; simpl; [apply Permutation_refl |].
  destruct (column y <=? column x)%Z; [apply Permutation_refl |].
  apply perm_trans with (y :: x :: r); [| apply perm_swap].
  apply perm_skip. exact IH.
Qed.

Lemma order_by_desc_permutation {A} (column : A -> Z) l :
  Permutation (order_by_desc column l) l.
Proof.
  unfold order_by_desc. induction l as [| x l IH]; simpl.
  - apply perm_nil.
  - apply perm_trans with (x :: fold_right (insert_desc column) [] l).
    + apply insert_desc_permutation.
    + apply perm_skip. exact IH.
Qed.

Lemma insert_desc_sorted {A} (column : A -> Z) x l :
  StronglySorted (fun a b => (column b <= column a)%Z) l ->
  StronglySorted (fun a b => (column b <= column a)%Z)
                 (insert_desc column x l).
Proof.
  induction l as [| y r IH]; simpl; intros Hs.
  - constructor; constructor.
  - apply StronglySorted_inv in Hs. destruct Hs as [Hr Hy].
    destruct (Z.leb_spec (column y) (column x)) as [Hle | Hlt].
    + constructor; [constructor; assumption |].
      constructor; [exact Hle |].
      rewrite Forall_forall in Hy |- *. intros z Hz.
      specialize (Hy z Hz). cbv beta in Hy. lia.
    + constructor; [exact (IH Hr) |].
      rewrite Forall_forall in Hy |- *. intros z Hz.
      apply (Permutation_in z (insert_desc_permutation column x r)) in Hz.
      destruct Hz as [<- | Hz]; [lia | exact (Hy z Hz)].
Qed.

Lemma order_by_desc_sorted {A} (column : A -> Z) l :
  StronglySorted (fun a b => (column b <= column a)%Z)
                 (order_by_desc column l).
Proof.
  unfold order_by_desc. induction l as [| x l IH]; simpl.
  - constructor.
  - apply insert_desc_sorted. exact IH.
Qed.

(** X24. The tag listing of the API shows every tag of the table exactly
    once, as name, usage count and description, and no tag comes before a
    tag that is used more often.  The request changes nothing. *)
Theorem get_tags_most_used_first d :
  let r := run TagRoutes.get_tags d in
  exists shown,
    result_of r
    = Return (map (fun tag => (tag.(name), tag.(usage_count),
                               tag.(description))) shown) /\
    Permutation shown d.(available_tags) /\
    StronglySorted (fun a b => (b.(usage_count) <= a.(usage_count))%Z) shown /\
    db_of r = d /\ log_of r = [].
Proof.
  intros r. subst r. exists (get_all_tags d). unfold TagRoutes.get_tags. exec.
  repeat split.
  - apply order_by_desc_permutation.
  - apply (order_by_desc_sorted usage_count).
Qed.

(* ------------------------------------------------------------------ *)
(** ** Backup and restore, beyond the claims *)
(* ------------------------------------------------------------------ *)

Lemma dict_get_set {V} k (v : V) d : dict_get k (dict_set k v d) = Some v.
Proof.
  induction d as [| [k0 v0] r IH]; simpl.
  - rewrite String.eqb_refl. reflexivity.
  - destruct (String.eqb_spec k0 k) as [-> | E]; simpl.
    + rewrite String.eqb_refl. reflexivity.
    + destruct (String.eqb_spec k0 k); [contradiction | exact IH].
Qed.

Lemma dict_get_set_other {V} k k' (v : V) d :
  k <> k' -> dict_get k (dict_set k' v d) = dict_get k d.
Proof.
  intros Hk. induction d as [| [k0 v0] r IH]; simpl.
  - destruct (String.eqb_spec k' k); [congruence | reflexivity].
  - destruct (String.eqb_spec k0 k') as [-> | E]; simpl.
    + destruct (String.eqb_spec k' k); [congruence | reflexivity].
    + destruct (String.eqb_spec k0 k); [reflexivity | exact IH].
Qed.

Lemma dict_get_none {V} k (d : dict V) :
  ~ In k (dict_keys d) -> dict_get k d = None.
Proof.
  unfold dict_keys. induction d as [| [k0 v0] r IH]; simpl; [reflexivity |].
  intros H. destruct (String.eqb_spec k0 k); [tauto |]. apply IH. tauto.
Qed.

Lemma dict_set_keys_distinct {V} k (v : V) d :
  NoDup (dict_keys d) -> NoDup (dict_keys (dict_set k v d)).
Proof.
  unfold dict_keys. induction d as [| [k0 v0] r IH]; simpl; intros Hnd.
  - constructor; [tauto | constructor].
  - apply NoDup_cons_iff in Hnd. destruct Hnd as [H0 Hnd].
    destruct (String.eqb_spec k0 k) as [-> | E]; simpl.
    + constructor; assumption.
    + constructor; [| exact (IH Hnd)].
      intros H. apply (dict_keys_set k v r k0) in H. destruct H; [congruence | tauto].
Qed.

Lemma first_by_key_none k rows :
  ~ In k (map key rows) -> Setting.first_by_key k rows = None.
Proof.
  unfold Setting.first_by_key. induction rows as [| r rest IH]; simpl;
    [reflexivity |].
  intros H. destruct (String.eqb_spec (key r) k); [tauto |]. apply IH. tauto.
Qed.

Lemma dump_settings_fold_get k rows : forall acc,
  NoDup (map key rows) ->
  dict_get k
    (fold_left
       (fun acc setting =>
          if Utils.exportable setting.(key)
          then dict_set setting.(key) setting.(value) acc
          else acc) rows acc) =
  match Setting.first_by_key k rows with
  | Some r => if Utils.exportable k then Some r.(value) else dict_get k acc
  | None => dict_get k acc
  end.
Proof.
  induction rows as [| r rest IH]; intros acc Hnd; cbn [fold_left].
  - reflexivity.
  - cbn [map] in Hnd. apply NoDup_cons_iff in Hnd. destruct Hnd as [Hr Hnd].
    rewrite (IH _ Hnd). unfold Setting.first_by_key. cbn [find].
    destruct (String.eqb_spec (key r) k) as [E | E].
    + rewrite <- E in *.
      fold (Setting.first_by_key (key r) rest).
      rewrite (first_by_key_none _ _ Hr).
      destruct (Utils.exportable (key r)); [apply dict_get_set | reflexivity].
    + fold (Setting.first_by_key k rest).
      assert (Ea : dict_get k (if Utils.exportable (key r)
                               then dict_set (key r) (value r) acc else acc)
                   = dict_get k acc).
      { destruct (Utils.exportable (key r)); [| reflexivity].
        apply dict_get_set_other. congruence. }
      rewrite Ea. reflexivity.
Qed.

(** What a backup holds under a key, for a settings table with distinct
    keys: the stored value if the key passes the suffix test. *)
Lemma dump_settings_get k rows :
  NoDup (map key rows) ->
  dict_get k (Utils.dump_settings rows) =
  match Setting.first_by_key k rows with
  | Some r => if Utils.exportable k then Some r.(value) else None
  | None => None
  end.
Proof.
  intros Hnd. unfold Utils.dump_settings.
  rewrite (dump_settings_fold_get k rows [] Hnd). reflexivity.
Qed.

Lemma dump_settings_keys_distinct rows :
  NoDup (dict_keys (Utils.dump_settings rows)).
Proof.
  unfold Utils.dump_settings.
  assert (H : NoDup (dict_keys (@nil (string * option string))))
    by constructor.
  revert H. generalize (@nil (string * option string)) as acc.
  induction rows as [| r rest IH]; intros acc Hacc; cbn [fold_left];
    [exact Hacc |].
  apply IH. destruct (Utils.exportable (key r)); [| exact Hacc].
  apply dict_set_keys_distinct. exact Hacc.
Qed.

(** The settings loop of a restore leaves every key of the document with
    the document's value and every other key as it was. *)
Lemma restore_settings_lookup l : forall w,
  NoDup (dict_keys l) ->
  exists n w',
    Utils.restore_settings l w = (Return n, w') /\
    forall k,
      Setting.lookup k None (db w').(settings) =
      match dict_get k l with
      | Some v => v
      | None => Setting.lookup k None (db w).(settings)
      end.
Proof.
  unfold dict_keys.
  induction l as [| [k0 v0] l IH]; intros w Hnd; cbn [Utils.restore_settings].
  - exists 0%Z, w. split; [reflexivity | intros k; reflexivity].
  - cbn [map fst] in Hnd. apply NoDup_cons_iff in Hnd.
    destruct Hnd as [H0 Hnd]. exec.
    match goal with
    | |- context [Utils.restore_settings l ?w1] =>
        destruct (IH w1 Hnd) as (n & w' & E & Hk)
    end.
    rewrite E. exists (1 + n)%Z, w'. split; [reflexivity |].
    intros k. rewrite Hk. cbn [db settings with_settings dict_get].
    destruct (String.eqb_spec k0 k) as [<- | Hne].
    + rewrite (dict_get_none k0 l H0). apply lookup_upsert.
    + destruct (dict_get k l); [reflexivity |].
      apply lookup_upsert_other. congruence.
Qed.

Lemma restore_database_settings now data d k :
  NoDup (dict_keys data.(b_settings)) ->
  stored (db_of (run (Utils.restore_database now data) d)) k =
  match dict_get k data.(b_settings) with
  | Some v => v
  | None => stored d k
  end.
Proof.
  intros Hnd. unfold Utils.restore_database. exec.
  destruct (Utils.restore_available now (b_tags data) (available_tags d))
    as [tag_rows n_tags].
  exec. cbn [available_categories with_tags].
  destruct (Utils.restore_available now (b_categories data)
              (available_categories d)) as [category_rows n_categories].
  exec. cbn [posts with_tags with_categories].
  destruct (Utils.restore_posts now (b_posts data) (posts d))
    as [post_rows n_posts].
  exec.
  match goal with
  | |- context [Utils.restore_settings ?l ?w1] =>
      destruct (restore_settings_lookup l w1 Hnd) as (n & w' & E & Hk)
  end.
  rewrite E. cbn [fst snd]. rewrite Hk. reflexivity.
Qed.

(** The settings of a store after its own backup is restored into an empty
    store. *)
Lemma restored_settings now d k :
  NoDup (map key d.(settings)) ->
  stored (db_of (run (Utils.restore_database now (Utils.backup_database d))
                     empty_db)) k
  = if Utils.exportable k then stored d k else None.
Proof.
  intros Hnd. rewrite restore_database_settings
    by (cbn [Utils.backup_database b_settings]; apply dump_settings_keys_distinct).
  cbn [Utils.backup_database b_settings]. rewrite dump_settings_get by exact Hnd.
  unfold stored, Setting.lookup.
  destruct (Setting.first_by_key k (settings d)) as [r |].
  - destruct (Utils.exportable k); reflexivity.
  - destruct (Utils.exportable k); reflexivity.
Qed.

(** X25. Settings round trip: after a store with distinct setting keys is
    backed up and the backup restored into an empty store, every key that
    does not end in [_password] or [_secret] reads as it did, and every key
    that does reads as unset. *)
Theorem settings_survive_backup_except_secrets now d k :
  NoDup (map key d.(settings)) ->
  let restored :=
    db_of (run (Utils.restore_database now (Utils.backup_database d))
               empty_db) in
  (Utils.exportable k = true -> stored restored k = stored d k) /\
  (Utils.exportable k = false -> stored restored k = None).
Proof.
  intros Hnd restored. subst restored. rewrite (restored_settings now d k Hnd).
  split; intros ->; reflexivity.
Qed.

Lemma settings_survive_witness :
  stored (db_of (run (Utils.restore_database 500%Z
                        (Utils.backup_database Example.wordpress_db)) empty_db))
         "wordpress_username" = Some "carolyn" /\
  stored (db_of (run (Utils.restore_database 500%Z
                        (Utils.backup_database Example.wordpress_db)) empty_db))
         "wordpress_password" = None.
Proof.
  split.
  - destruct (settings_survive_backup_except_secrets 500%Z Example.wordpress_db
                "wordpress_username") as (H & _).
    + repeat constructor; simpl; intuition discriminate.
    + rewrite H; reflexivity.
  - destruct (settings_survive_backup_except_secrets 500%Z Example.wordpress_db
                "wordpress_password") as (_ & H).
    + repeat constructor; simpl; intuition discriminate.
    + apply H. reflexivity.
Defined.

(** X26. Backup, restore and publish compose badly for WordPress: the
    password is never exported, so in a store rebuilt from a backup
    [publish_to_wordpress] stops at the configuration check, whatever the
    original store held, until the password is entered again. *)
Theorem restored_store_cannot_publish_to_wordpress env now post d :
  NoDup (map key d.(settings)) ->
  let restored :=
    db_of (run (Utils.restore_database now (Utils.backup_database d))
               empty_db) in
  stops_unconfigured restored
    (run (BlogAPI.publish_to_wordpress env post) restored).
Proof.
  intros Hnd restored. unfold BlogAPI.publish_to_wordpress.
  rewrite wordpress_body_unconfigured.
  - repeat split.
  - right. right. subst restored. rewrite (restored_settings now d _ Hnd).
    reflexivity.
Qed.

Lemma restored_store_cannot_publish_witness :
  result_of
    (run (BlogAPI.publish_to_wordpress (Example.accepting 7) Example.draft)
         (db_of (run (Utils.restore_database 500%Z
                        (Utils.backup_database Example.wordpress_db))
                     empty_db)))
  = Raise (Exception "WordPress credentials not configured").
Proof.
  destruct (restored_store_cannot_publish_to_wordpress (Example.accepting 7)
              500%Z Example.draft Example.wordpress_db) as (H & _).
  - repeat constructor; simpl; intuition discriminate.
  - exact H.
Defined.

Lemma restore_available_extends now l : forall rows n,
  exists added,
    fold_left (Utils.restore_one now) l (rows, n)
    = (rows ++ added, (n + Z.of_nat (length added))%Z) /\
    (NoDup (map name rows) -> NoDup (map name (rows ++ added))).
Proof.
  induction l as [| x l IH]; intros rows n; cbn [fold_left].
  - exists []. rewrite app_nil_r. cbn [length]. split; [f_equal; lia | auto].
  - unfold Utils.restore_one at 2.
    destruct (Available.first_by_name x.(ad_name) rows) eqn:E.
    + apply IH.
    + match goal with
      | |- context [fold_left _ l (rows ++ [?new], ?n')] =>
          destruct (IH (rows ++ [new]) n') as (added & H1 & H2);
          exists (new :: added)
      end.
      rewrite H1, <- app_assoc. cbn [app length]. split; [f_equal; lia |].
      intros Hnd. change (rows ++ ?a :: added) with (rows ++ [a] ++ added).
      rewrite app_assoc. apply H2. rewrite map_app. apply NoDup_snoc.
      * exact Hnd.
      * apply first_by_name_none. exact E.
Qed.

(** X27. A restore merges by name and the local row wins: the tags already
    in the store stay as they are, in front of the ones added, whatever
    counts the backup has for them; names that were distinct stay distinct
    even if the backup repeats a name; and the reported number of tags is
    the number of rows added. *)
Theorem restore_keeps_local_tags now data d :
  let r := run (Utils.restore_database now data) d in
  exists added,
    (db_of r).(available_tags) = d.(available_tags) ++ added /\
    (exists results, result_of r = Return results /\
                     results.(r_tags) = Z.of_nat (length added)) /\
    (NoDup (map name d.(available_tags)) ->
     NoDup (map name (db_of r).(available_tags))) /\
    (forall m, In m (map name d.(available_tags)) ->
               Available.count_of m (db_of r).(available_tags)
               = Available.count_of m d.(available_tags)).
Proof.
  intros r.
  destruct (restore_database_tables now data d) as (Ht & _ & _ & n & Hr).
  fold r in Ht, Hr.
  destruct (restore_available_extends now data.(b_tags) d.(available_tags) 0%Z)
    as (added & E & Hnd).
  unfold Utils.restore_available in Ht, Hr. rewrite E in Ht, Hr.
  cbn [fst snd] in Ht, Hr.
  exists added. rewrite Ht. split; [reflexivity | split; [| split]].
  - eexists. split; [exact Hr | reflexivity].
  - exact Hnd.
  - intros m Hm. unfold Available.count_of. rewrite first_by_name_app.
    destruct (Available.first_by_name m (available_tags d)) eqn:E0;
      [reflexivity |].
    apply first_by_name_none in E0. contradiction.
Qed.

Lemma restore_keeps_local_tags_witness :
  NoDup (map name
           (db_of (run (Utils.restore_database 500%Z
                          (mkBackup [] [mkAvailableDump "a" None 99%Z 0%Z;
                                        mkAvailableDump "z" None 3%Z 0%Z;
                                        mkAvailableDump "z" None 5%Z 0%Z] [] []))
                       Example.tagged_db)).(available_tags)) /\
  Available.count_of "a"
    (db_of (run (Utils.restore_database 500%Z
                   (mkBackup [] [mkAvailableDump "a" None 99%Z 0%Z;
                                 mkAvailableDump "z" None 3%Z 0%Z;
                                 mkAvailableDump "z" None 5%Z 0%Z] [] []))
                Example.tagged_db)).(available_tags) = 4%Z.
Proof.
  destruct (restore_keeps_local_tags 500%Z
              (mkBackup [] [mkAvailableDump "a" None 99%Z 0%Z;
                            mkAvailableDump "z" None 3%Z 0%Z;
                            mkAvailableDump "z" None 5%Z 0%Z] [] [])
              Example.tagged_db) as (added & _ & _ & Hnd & Hc).
  split.
  - apply Hnd. repeat constructor; simpl; intuition discriminate.
  - rewrite Hc; [reflexivity | left; reflexivity].
Defined.

(** X28. Posts round trip in content: restoring the backup of a store
    whose posts all have a status appends, to whatever posts the target
    store has, one post per exported post, in order, with the same title,
    content, status, target, external id, tags and categories. *)
Theorem restore_reproduces_post_content now d d0 :
  (forall p, In p d.(posts) -> p.(status) <> None) ->
  exists copies,
    (db_of (run (Utils.restore_database now (Utils.backup_database d)) d0))
      .(posts) = d0.(posts) ++ copies /\
    map restored_view copies = map restored_view d.(posts).
Proof.
  intros Hst.
  destruct (restore_database_tables now (Utils.backup_database d) d0)
    as (_ & _ & P & _).
  destruct (restore_posts_appends now (Utils.backup_database d).(b_posts)
              d0.(posts) 0%Z) as (copies & E & Hv & _).
  exists copies. rewrite P. unfold Utils.restore_posts. rewrite E.
  split; [reflexivity |]. rewrite Hv.
  cbn [Utils.backup_database b_posts]. rewrite map_map.
  apply map_ext_in. intros p Hp. specialize (Hst p Hp).
  unfold restored_view, insert_post, Utils.dump_post.
  cbn [title content status blog_target external_id tags categories
       pd_title pd_content pd_status pd_blog_target pd_external_id pd_tags
       pd_categories].
  destruct (status p); [reflexivity | contradiction].
Qed.

Lemma restore_reproduces_post_content_witness :
  exists copies,
    (db_of (run (Utils.restore_database 500%Z
                   (Utils.backup_database Example.tagged_db))
                Example.wordpress_db)).(posts)
    = Example.wordpress_db.(posts) ++ copies /\
    map restored_view copies = map restored_view Example.tagged_db.(posts).
Proof.
  apply (restore_reproduces_post_content 500%Z Example.tagged_db
           Example.wordpress_db).
  intros p [<- | [<- | []]]; discriminate.
Defined.

(* ------------------------------------------------------------------ *)
(** ** Default tags *)
(* ------------------------------------------------------------------ *)

Lemma add_all_extends now l : forall rows,
  exists added, add_all now l rows = rows ++ added.
Proof.
  unfold add_all. induction l as [| e l IH]; intros rows; cbn [fold_left].
  - exists []. rewrite app_nil_r. reflexivity.
  - unfold Available.add at 2.
    destruct (Available.first_by_name (Py.strip (fst e)) rows); cbn [fst].
    + apply IH.
    + match goal with
      | |- context [fold_left _ l (rows ++ [?new])] =>
          destruct (IH (rows ++ [new])) as (added & H);
          exists (new :: added)
      end.
      rewrite H, <- app_assoc. reflexivity.
Qed.

Lemma add_all_has_names now l : forall rows e,
  In e l -> In (Py.strip (fst e)) (map name (add_all now l rows)).
Proof.
  induction l as [| x l IH]; intros rows e; [intros [] |].
  intros [<- | He].
  - change (add_all now (x :: l) rows)
      with (add_all now l (fst (Available.add now (fst x) (Some (snd x)) rows))).
    destruct (add_all_extends now l
                (fst (Available.add now (fst x) (Some (snd x)) rows)))
      as (added & ->).
    rewrite map_app, in_app_iff. left. unfold Available.add.
    destruct (Available.first_by_name (Py.strip (fst x)) rows) eqn:E; cbn [fst].
    + destruct (first_by_name_name _ _ _ E) as [Hn Hin].
      rewrite <- Hn. apply in_map. exact Hin.
    + rewrite map_app, in_app_iff. right. left. reflexivity.
  - change (add_all now (x :: l) rows)
      with (add_all now l (fst (Available.add now (fst x) (Some (snd x)) rows))).
    apply IH. exact He.
Qed.

Lemma add_all_noop now l : forall rows,
  (forall e, In e l -> In (Py.strip (fst e)) (map name rows)) ->
  add_all now l rows = rows.
Proof.
  unfold add_all. induction l as [| x l IH]; intros rows Hl; cbn [fold_left];
    [reflexivity |].
  unfold Available.add at 2.
  destruct (Available.first_by_name (Py.strip (fst x)) rows) eqn:E; cbn [fst].
  - apply IH. intros e He. apply Hl. right. exact He.
  - apply first_by_name_none in E. exfalso. apply E, Hl. left. reflexivity.
Qed.

Lemma add_all_idempotent now now' l rows :
  add_all now' l (add_all now l rows) = add_all now l rows.
Proof. apply add_all_noop. intros e He. apply add_all_has_names. exact He. Qed.

Lemma for_each_add_tag now l : forall w,
  for_each l
    (fun entry =>
       AvailableTag.add_tag now (fst entry) (Some (snd entry)) ;;; ret tt) w
  = (Return tt,
     mkWorld (with_tags (add_all now l (db w).(available_tags)) (db w))
             (log w)).
Proof.
  unfold add_all.
  induction l as [| x l IH]; intros [[s t c p] lg]; cbn [for_each fold_left].
  - reflexivity.
  - exec. cbn [available_tags].
    destruct (Available.add now (fst x) (Some (snd x)) t) as [rows tag].
    exec. rewrite IH. reflexivity.
Qed.

Lemma for_each_add_category now l : forall w,
  for_each l
    (fun entry =>
       AvailableCategory.add_category now (fst entry) (Some (snd entry))
       ;;; ret tt) w
  = (Return tt,
     mkWorld (with_categories (add_all now l (db w).(available_categories))
                              (db w))
             (log w)).
Proof.
  unfold add_all.
  induction l as [| x l IH]; intros [[s t c p] lg]; cbn [for_each fold_left].
  - reflexivity.
  - exec. cbn [available_categories].
    destruct (Available.add now (fst x) (Some (snd x)) c) as [rows tag].
    exec. rewrite IH. reflexivity.
Qed.

Lemma init_default_tags_run now d :
  run (MoreUtils.init_default_tags now) d
  = (Return tt,
     mkWorld
       (mkDatabase d.(settings)
          (add_all now MoreUtils.default_tags d.(available_tags))
          (add_all now MoreUtils.default_categories d.(available_categories))
          d.(posts))
       []).
Proof.
  unfold MoreUtils.init_default_tags, run, start. unfold bind at 1.
  rewrite for_each_add_tag, for_each_add_category. reflexivity.
Qed.

(** X29. [init_default_tags] can be run again at any time: a second run
    changes nothing.  After a run the ten default tags and the five default
    categories are in the store; the rows that were there before are still
    there, unchanged and in front, so no usage count is reset; posts and
    settings are untouched. *)
Theorem init_default_tags_idempotent now now' d :
  let once := db_of (run (MoreUtils.init_default_tags now) d) in
  let twice := db_of (run (MoreUtils.init_default_tags now') once) in
  twice = once /\
  (forall n, In n (map fst MoreUtils.default_tags) ->
             In n (map name once.(available_tags))) /\
  (forall n, In n (map fst MoreUtils.default_categories) ->
             In n (map name once.(available_categories))) /\
  (exists added, once.(available_tags) = d.(available_tags) ++ added) /\
  (exists added,
     once.(available_categories) = d.(available_categories) ++ added) /\
  once.(posts) = d.(posts) /\
  once.(settings) = d.(settings).
Proof.
  intros once twice. subst twice once. rewrite !init_default_tags_run.
  unfold db_of. cbn [snd db settings available_tags available_categories posts].
  rewrite !add_all_idempotent.
  split; [reflexivity | split; [| split; [| split; [| split; [| split]]]]].
  - intros n Hn. apply in_map_iff in Hn. destruct Hn as (e & <- & He).
    assert (Hs : Py.strip (fst e) = fst e).
    { revert e He. apply Forall_forall. repeat constructor. }
    rewrite <- Hs. apply add_all_has_names. exact He.
  - intros n Hn. apply in_map_iff in Hn. destruct Hn as (e & <- & He).
    assert (Hs : Py.strip (fst e) = fst e).
    { revert e He. apply Forall_forall. repeat constructor. }
    rewrite <- Hs. apply add_all_has_names. exact He.
  - apply add_all_extends.
  - apply add_all_extends.
  - reflexivity.
  - reflexivity.
Qed.

(* ------------------------------------------------------------------ *)
(** ** Setup and dashboard *)
(* ------------------------------------------------------------------ *)

(** X30. Submitting the setup form with [blog_type] 'wordpress' stores the
    three WordPress fields exactly as the form has them (a field missing
    from the form is stored as unset), marks the application configured and
    redirects to the dashboard, which from then on is shown instead of the
    setup page.  Every other setting, the Blogger ones included, and all
    posts are left as they were; nothing is sent. *)
Theorem setup_post_wordpress form d :
  dict_get "blog_type" form = Some "wordpress" ->
  let r := run (MainRoutes.setup_post form) d in
  result_of r = Return (Redirect "main.index") /\
  stored (db_of r) "blog_type" = Some "wordpress" /\
  stored (db_of r) "wordpress_url" = dict_get "wordpress_url" form /\
  stored (db_of r) "wordpress_username" = dict_get "wordpress_username" form /\
  stored (db_of r) "wordpress_password" = dict_get "wordpress_password" form /\
  stored (db_of r) "configured" = Some "true" /\
  (forall k,
     ~ In k ["blog_type"; "wordpress_url"; "wordpress_username";
             "wordpress_password"; "configured"] ->
     stored (db_of r) k = stored d k) /\
  (db_of r).(posts) = d.(posts) /\
  count is_network (log_of r) = 0%nat /\
  result_of (run MainRoutes.index (db_of r))
  = Return (RenderIndex (order_by_desc created_date d.(posts))).
Proof.
  intros Hb r. subst r. unfold MainRoutes.setup_post. rewrite Hb.
  cbn [Py.eqb_opt String.eqb Ascii.eqb Bool.eqb]. exec.
  cbn [settings with_settings posts].
  split; [reflexivity |].
  split; [rewrite !lookup_upsert_other by discriminate; apply lookup_upsert |].
  split; [rewrite !lookup_upsert_other by discriminate; apply lookup_upsert |].
  split; [rewrite !lookup_upsert_other by discriminate; apply lookup_upsert |].
  split; [rewrite !lookup_upsert_other by discriminate; apply lookup_upsert |].
  split; [apply lookup_upsert |].
  split.
  { intros k Hk. cbn [In] in Hk.
    rewrite !lookup_upsert_other by (intros ->; tauto). reflexivity. }
  split; [reflexivity |]. split; [reflexivity |].
  unfold MainRoutes.index. exec. cbn [settings with_settings posts].
  rewrite lookup_upsert. reflexivity.
Qed.

Lemma setup_post_wordpress_witness :
  stored (db_of (run (MainRoutes.setup_post Sample.wordpress_form)
                     Sample.client_db)) "wordpress_password"
  = Some "hunter2" /\
  stored (db_of (run (MainRoutes.setup_post Sample.wordpress_form)
                     Sample.client_db)) "blogger_client_secret"
  = Some "shh".
Proof.
  destruct (setup_post_wordpress Sample.wordpress_form Sample.client_db
              eq_refl) as (_ & _ & _ & _ & H1 & _ & H2 & _).
  split; [exact H1 |].
  rewrite H2; [reflexivity |]. cbn [In]. intuition discriminate.
Defined.
